(** * Spotify integration for Omi: the chat tools of [src/main.py]

    A shallow embedding of the helper functions and the eight chat-tool
    handlers of [src/main.py], with the pydantic models of [src/models.py]
    they construct.  Python values that cross the boundary (request
    bodies, provider responses) are JSON values; a function that can
    raise returns a [res]; a function that touches the credential store,
    the clock or the network is a state transformer over [World]. *)

From Stdlib Require Import ZArith List String Ascii Bool Lia.
From Stdlib Require Import DecimalString DecimalZ DecimalPos.
Import ListNotations.
Open Scope string_scope.
Open Scope Z_scope.
Set Warnings "-register-all".

(** ** Python values *)

(** What [json.loads] produces.  Numbers are integers: every number the
    code computes with (durations, totals, limits, status codes) is
    one.  A dict keeps its members in insertion order, one per key. *)
Inductive json : Type :=
| JNull
| JBool (b : bool)
| JInt (n : Z)
| JStr (s : string)
| JList (items : list json)
| JDict (members : list (string * json)).

(** The exception classes the modelled code can meet. *)
Inductive exn : Type :=
| KeyError (key : string)
| TypeError
| AttributeError
| ValidationError (model : string)
| RequestException (cause : string)
| JSONDecodeError.

(** [except requests.RequestException]: the class itself and, since
    requests 2.27, the error [Response.json] raises. *)
Definition is_RequestException (e : exn) : bool :=
  match e with
  | RequestException _ | JSONDecodeError => true
  | _ => false
  end.

Inductive res (A : Type) : Type :=
| Ok (a : A)
| Raise (e : exn).
Arguments Ok {A} a.
Arguments Raise {A} e.

Definition bindR {A B} (r : res A) (k : A -> res B) : res B :=
  match r with
  | Ok a => k a
  | Raise e => Raise e
  end.

Notation "x <~ r ;; k" := (bindR r (fun x => k))
  (at level 61, r at next level, right associativity).

Fixpoint mapR {A B} (f : A -> res B) (l : list A) : res (list B) :=
  match l with
  | [] => Ok []
  | a :: l' => b <~ f a ;; bs <~ mapR f l' ;; Ok (b :: bs)
  end.

(** ** Strings *)

Definition newline : string := String (ascii_of_nat 10) "".

(** [str(n)] for an int. *)
Definition str_int (n : Z) : string := NilZero.string_of_int (Z.to_int n).

Definition lower_ascii (c : ascii) : ascii :=
  let n := nat_of_ascii c in
  if ((65 <=? n) && (n <=? 90))%nat then ascii_of_nat (n + 32) else c.

Definition upper_ascii (c : ascii) : ascii :=
  let n := nat_of_ascii c in
  if ((97 <=? n) && (n <=? 122))%nat then ascii_of_nat (n - 32) else c.

Fixpoint map_string (f : ascii -> ascii) (s : string) : string :=
  match s with
  | EmptyString => EmptyString
  | String c s' => String (f c) (map_string f s')
  end.

(** A string is its UTF-8 bytes: a str of ASCII characters has no byte
    above 127. *)
Fixpoint is_ascii (s : string) : bool :=
  match s with
  | EmptyString => true
  | String c s' => (nat_of_ascii c <? 128)%nat && is_ascii s'
  end.

(** [s.lower()] and [s.upper()] on a str of ASCII characters: the
    letters A-Z and a-z change case, every other character stays. *)
Definition ascii_lower (s : string) : string := map_string lower_ascii s.
Definition ascii_upper (s : string) : string := map_string upper_ascii s.

(** [needle in hay] for two strs. *)
Fixpoint contains (needle hay : string) : bool :=
  prefix needle hay ||
  match hay with
  | EmptyString => false
  | String _ hay' => contains needle hay'
  end.

(** [sep.join(parts)] for a list of strs. *)
Definition join (sep : string) (parts : list string) : string :=
  String.concat sep parts.

(** The characters of a str: a byte [10xxxxxx] continues the character
    before it. *)
Definition is_continuation (c : ascii) : bool :=
  let n := nat_of_ascii c in ((128 <=? n) && (n <? 192))%nat.

Fixpoint chars (s : string) : list string :=
  match s with
  | EmptyString => []
  | String c s' =>
      match chars s' with
      | ch :: rest =>
          match ch with
          | String c' _ =>
              if is_continuation c' then String c ch :: rest
              else String c "" :: ch :: rest
          | EmptyString => String c "" :: rest
          end
      | [] => [String c ""]
      end
  end.

(** [base64.b64encode(s.encode()).decode()]. *)
Definition b64_alphabet : string :=
  "ABCDEFGHIJKLMNOPQRSTUVWXYZabcdefghijklmnopqrstuvwxyz0123456789+/".

Definition b64_char (n : nat) : string :=
  match String.get n b64_alphabet with
  | Some c => String c ""
  | None => "="
  end.

Fixpoint b64encode (s : string) : string :=
  match s with
  | EmptyString => ""
  | String a EmptyString =>
      let x := nat_of_ascii a in
      b64_char (x / 4) ++ b64_char (x mod 4 * 16) ++ "=="
  | String a (String b EmptyString) =>
      let x := nat_of_ascii a in
      let y := nat_of_ascii b in
      b64_char (x / 4) ++ b64_char (x mod 4 * 16 + y / 16)
        ++ b64_char (y mod 16 * 4) ++ "="
  | String a (String b (String c rest)) =>
      let x := nat_of_ascii a in
      let y := nat_of_ascii b in
      let z := nat_of_ascii c in
      b64_char (x / 4) ++ b64_char (x mod 4 * 16 + y / 16)
        ++ b64_char (y mod 16 * 4 + z / 64) ++ b64_char (z mod 64)
        ++ b64encode rest
  end%nat.

(** [enumerate(l, i)]. *)
Fixpoint enumerate {A} (l : list A) (i : Z) : list (Z * A) :=
  match l with
  | [] => []
  | a :: l' => (i, a) :: enumerate l' (i + 1)
  end.

(** ** Operations on JSON values, as Python performs them *)

(** [bool(v)]. *)
Definition truthy (v : json) : bool :=
  match v with
  | JNull => false
  | JBool b => b
  | JInt n => negb (n =? 0)
  | JStr s => negb (String.eqb s "")
  | JList l => match l with [] => false | _ => true end
  | JDict d => match d with [] => false | _ => true end
  end.

Fixpoint lookup (k : string) (d : list (string * json)) : option json :=
  match d with
  | [] => None
  | (k', v) :: d' => if String.eqb k' k then Some v else lookup k d'
  end.

Definition dict_get (m : list (string * json)) (k : string) (default : json) : json :=
  match lookup k m with
  | Some v => v
  | None => default
  end.

(** [d.get(k, default)]: only a dict has [get]. *)
Definition py_get (d : json) (k : string) (default : json) : res json :=
  match d with
  | JDict m => Ok (dict_get m k default)
  | _ => Raise AttributeError
  end.

(** [d[k]] with a str key. *)
Definition py_getitem (d : json) (k : string) : res json :=
  match d with
  | JDict m => match lookup k m with Some v => Ok v | None => Raise (KeyError k) end
  | _ => Raise TypeError
  end.

Definition is_str (k : string) (v : json) : bool :=
  match v with
  | JStr s => String.eqb s k
  | _ => false
  end.

(** [k in v] with a str [k]: a key of a dict, an element of a list, a
    substring of a str. *)
Definition py_in (k : string) (v : json) : res bool :=
  match v with
  | JDict m => Ok (match lookup k m with Some _ => true | None => false end)
  | JList l => Ok (existsb (is_str k) l)
  | JStr s => Ok (contains k s)
  | _ => Raise TypeError
  end.

(** [for x in v]. *)
Definition py_iter (v : json) : res (list json) :=
  match v with
  | JList l => Ok l
  | JDict m => Ok (map (fun kv => JStr (fst kv)) m)
  | JStr s => Ok (map JStr (chars s))
  | _ => Raise TypeError
  end.

(** The int an operand of [//], [%] or [+] with an int stands for
    ([bool] is a subclass of [int]); any other operand raises. *)
Definition py_int (v : json) : res Z :=
  match v with
  | JInt n => Ok n
  | JBool b => Ok (if b then 1 else 0)
  | _ => Raise TypeError
  end.

(** [v[:5]]: the first five elements of a list, the first five
    characters of a str; a dict rejects the slice (TypeError up to
    Python 3.11). *)
Definition py_slice5 (v : json) : res json :=
  match v with
  | JList l => Ok (JList (firstn 5 l))
  | JStr s => Ok (JStr (String.concat "" (firstn 5 (chars s))))
  | _ => Raise TypeError
  end.

Definition as_str (v : json) : res string :=
  match v with
  | JStr s => Ok s
  | _ => Raise TypeError
  end.

(** [sep.join(v)]: every element must be a str. *)
Definition py_join (sep : string) (v : json) : res string :=
  elems <~ py_iter v ;;
  parts <~ mapR as_str elems ;;
  Ok (join sep parts).

(** [x or y]. *)
Definition py_or (x y : json) : json := if truthy x then x else y.

Fixpoint json_eqb (a b : json) {struct a} : bool :=
  match a, b with
  | JNull, JNull => true
  | JBool x, JBool y => Bool.eqb x y
  | JInt x, JInt y => x =? y
  | JStr x, JStr y => String.eqb x y
  | JList xs, JList ys =>
      (fix all2 (xs ys : list json) {struct xs} : bool :=
         match xs, ys with
         | [], [] => true
         | x :: xs', y :: ys' => json_eqb x y && all2 xs' ys'
         | _, _ => false
         end) xs ys
  | JDict xs, JDict ys =>
      (fix all2 (xs ys : list (string * json)) {struct xs} : bool :=
         match xs, ys with
         | [], [] => true
         | (k, x) :: xs', (k', y) :: ys' =>
             String.eqb k k' && json_eqb x y && all2 xs' ys'
         | _, _ => false
         end) xs ys
  | _, _ => false
  end.

(** ** The pydantic models of [src/models.py]

    A model is constructed from keyword arguments.  A field with no
    default is required; a field given a value of another type than
    the declared one is rejected (pydantic's conversions between scalar
    types are left out); any failing field makes the constructor raise
    [ValidationError]. *)

Definition kwargs : Type := list (string * json).

Definition a_str (v : json) : option string :=
  match v with JStr s => Some s | _ => None end.

Definition a_int (v : json) : option Z :=
  match v with JInt n => Some n | _ => None end.

Definition a_bool (v : json) : option bool :=
  match v with JBool b => Some b | _ => None end.

Definition a_optional_str (v : json) : option (option string) :=
  match v with JNull => Some None | JStr s => Some (Some s) | _ => None end.

Fixpoint a_list_str (l : list json) : option (list string) :=
  match l with
  | [] => Some []
  | JStr s :: l' => option_map (cons s) (a_list_str l')
  | _ :: _ => None
  end.

Definition a_List_str (v : json) : option (list string) :=
  match v with JList l => a_list_str l | _ => None end.

(** A field with no default. *)
Definition required {T} (kw : kwargs) (field : string) (accepts : json -> option T)
  : option T :=
  match lookup field kw with
  | Some v => accepts v
  | None => None
  end.

(** A field with a default. *)
Definition defaulted {T} (kw : kwargs) (field : string) (accepts : json -> option T)
  (default : T) : option T :=
  match lookup field kw with
  | Some v => accepts v
  | None => Some default
  end.

Module SpotifyTrack.

Record t : Type := {
  id : string;
  name : string;
  artists : list string;
  album : string;
  duration_ms : Z;
  uri : string;
  external_url : option string;
  preview_url : option string
}.

Definition new (kw : kwargs) : res t :=
  match required kw "id" a_str, required kw "name" a_str,
        required kw "artists" a_List_str, required kw "album" a_str,
        required kw "duration_ms" a_int, required kw "uri" a_str,
        defaulted kw "external_url" a_optional_str None,
        defaulted kw "preview_url" a_optional_str None with
  | Some id, Some name, Some artists, Some album,
    Some duration_ms, Some uri, Some external_url, Some preview_url =>
      Ok {| id := id; name := name; artists := artists; album := album;
            duration_ms := duration_ms; uri := uri;
            external_url := external_url; preview_url := preview_url |}
  | _, _, _, _, _, _, _, _ => Raise (ValidationError "SpotifyTrack")
  end.

End SpotifyTrack.

Module SpotifyPlaylist.

Record t : Type := {
  id : string;
  name : string;
  description : option string;
  owner : string;
  tracks_total : Z;
  public : bool;
  uri : string;
  canEdit : bool;
  external_url : option string
}.

Definition new (kw : kwargs) : res t :=
  match required kw "id" a_str, required kw "name" a_str,
        defaulted kw "description" a_optional_str (Some ""),
        required kw "owner" a_str, required kw "tracks_total" a_int,
        required kw "public" a_bool, required kw "uri" a_str,
        required kw "canEdit" a_bool,
        defaulted kw "external_url" a_optional_str None with
  | Some id, Some name, Some description, Some owner, Some tracks_total,
    Some public, Some uri, Some canEdit, Some external_url =>
      Ok {| id := id; name := name; description := description;
            owner := owner; tracks_total := tracks_total; public := public;
            uri := uri; canEdit := canEdit; external_url := external_url |}
  | _, _, _, _, _, _, _, _, _ => Raise (ValidationError "SpotifyPlaylist")
  end.

End SpotifyPlaylist.

(** [CreatePlaylistRequest(ChatToolRequest)]: the three fields of the
    base class, then its own. *)
Module CreatePlaylistRequest.

Record t : Type := {
  uid : string;
  app_id : string;
  tool_name : string;
  name : string;
  description : option string;
  public : bool
}.

Definition new (kw : kwargs) : res t :=
  match required kw "uid" a_str, required kw "app_id" a_str,
        required kw "tool_name" a_str, required kw "name" a_str,
        defaulted kw "description" a_optional_str (Some ""),
        defaulted kw "public" a_bool false with
  | Some uid, Some app_id, Some tool_name, Some name,
    Some description, Some public =>
      Ok {| uid := uid; app_id := app_id; tool_name := tool_name;
            name := name; description := description; public := public |}
  | _, _, _, _, _, _ => Raise (ValidationError "CreatePlaylistRequest")
  end.

End CreatePlaylistRequest.

(** [ChatToolResponse]: the handlers only ever pass it one str. *)
Record ChatToolResponse : Type := {
  result : option string;
  error : option string
}.

Definition Result (text : string) : ChatToolResponse :=
  {| result := Some text; error := None |}.

Definition Error (text : string) : ChatToolResponse :=
  {| result := None; error := Some text |}.

(** ** The world outside the process *)

(** A call of the [requests] library. *)
Record HttpRequest : Type := {
  method : string;
  url : string;
  headers : list (string * string);
  params : option json;
  json_data : option json;
  data : option json
}.

(** [response.content], as [Response.json] sees it: no bytes, the bytes
    of a JSON value, or other bytes. *)
Inductive Content : Type :=
| Empty
| Json (j : json)
| NotJson.

Record Response : Type := {
  status_code : Z;
  content : Content
}.

Inductive HttpOutcome : Type :=
| Answers (r : Response)
| Fails (cause : string).

(** [response.json()]. *)
Definition response_json (r : Response) : res json :=
  match content r with
  | Json j => Ok j
  | Empty | NotJson => Raise JSONDecodeError
  end.

(** [bool(response.content)]. *)
Definition has_content (r : Response) : bool :=
  match content r with
  | Empty => false
  | Json _ | NotJson => true
  end.

(** What the process is given and does not change: the music provider
    (its answer may depend on the requests sent before), the text
    [str(e)] of an exception and [str(v)] of a list or dict, the
    environment variables, and the case mappings of the interpreter's
    Unicode database, which [s.lower()] and [s.upper()] apply to a str
    that has a character outside ASCII (the Kelvin sign lowers to "k",
    "É" to "é", the long s rises to "S"). *)
Record Env : Type := {
  provider : list HttpRequest -> HttpRequest -> HttpOutcome;
  exc_str : exn -> string;
  container_str : json -> string;
  environ : string -> option string;
  unicode_lower : string -> string;
  unicode_upper : string -> string
}.

(** [s.lower()] and [s.upper()]. *)
Definition lower (E : Env) (s : string) : string :=
  if is_ascii s then ascii_lower s else unicode_lower E s.

Definition upper (E : Env) (s : string) : string :=
  if is_ascii s then ascii_upper s else unicode_upper E s.

(** [v.lower()]: only a str has [lower]. *)
Definition py_lower (E : Env) (v : json) : res string :=
  match v with
  | JStr s => Ok (lower E s)
  | _ => Raise AttributeError
  end.

(** [os.getenv(key, default)]. *)
Definition getenv (E : Env) (key default : string) : string :=
  match environ E key with
  | Some v => v
  | None => default
  end.

Definition SPOTIFY_CLIENT_ID (E : Env) : string :=
  getenv E "SPOTIFY_CLIENT_ID" "96f6f46db00a480eb1ced59ea90bf2f4".

Definition SPOTIFY_CLIENT_SECRET (E : Env) : string :=
  getenv E "SPOTIFY_CLIENT_SECRET" "9ca3f5cfe6b6444a80c09aa3e59f4d83".

Definition SPOTIFY_TOKEN_URL : string := "https://accounts.spotify.com/api/token".
Definition SPOTIFY_API_BASE : string := "https://api.spotify.com/v1".

(** Modelled from the spec: the credential record of the store [db.py],
    which is not among the source files ("access token, refresh token,
    absolute expiry timestamp (epoch seconds)"). *)
Record TokenRecord : Type := {
  access_token : json;
  refresh_token : json;
  expires_at : Z
}.

(** Modelled from the spec: the default-playlist record of [db.py]
    ("playlist id, playlist name"). *)
Record DefaultPlaylist : Type := {
  default_id : string;
  default_name : string
}.

(** Modelled from the spec: the state [db.py] keeps, one record per user
    id, with the clock the expiry check reads and the requests sent to
    the provider so far, oldest first. *)
Record World : Type := {
  spotify_tokens : json -> option TokenRecord;
  default_playlists : json -> option DefaultPlaylist;
  now : Z;
  sent : list HttpRequest
}.

(** The world once [req] has gone out. *)
Definition after_send (w : World) (req : HttpRequest) : World :=
  {| spotify_tokens := spotify_tokens w;
     default_playlists := default_playlists w;
     now := now w;
     sent := sent w ++ [req] |}.

(** A computation that reads and changes the world and may raise. *)
Definition M (A : Type) : Type := World -> res A * World.

Definition ret {A} (a : A) : M A := fun w => (Ok a, w).

Definition bind {A B} (m : M A) (k : A -> M B) : M B :=
  fun w =>
    match m w with
    | (Ok a, w') => k a w'
    | (Raise e, w') => (Raise e, w')
    end.

Definition lift {A} (r : res A) : M A := fun w => (r, w).

Notation "x <- m ;; k" := (bind m (fun x => k))
  (at level 61, m at next level, right associativity).

(** [try: body / except requests.RequestException as e: handler]. *)
Definition try_except_RequestException {A} (body : M A) (handler : exn -> M A) : M A :=
  fun w =>
    match body w with
    | (Raise e, w') => if is_RequestException e then handler e w' else (Raise e, w')
    | r => r
    end.

(** [try: body / except Exception as e: return handler(e)], the frame
    of every chat-tool handler. *)
Definition try_except_Exception (body : M ChatToolResponse)
  (handler : exn -> ChatToolResponse) : World -> ChatToolResponse * World :=
  fun w =>
    match body w with
    | (Ok r, w') => (r, w')
    | (Raise e, w') => (handler e, w')
    end.

(** Modelled from the spec: [get_spotify_tokens] of [db.py]
    ("getTokens(userId) -> record | absent"). *)
Definition get_spotify_tokens (uid : json) : M (option TokenRecord) :=
  fun w => (Ok (spotify_tokens w uid), w).

(** Modelled from the spec: [is_token_expired] of [db.py] ("true if no
    record exists, or if current time >= stored expiry"). *)
Definition is_token_expired (uid : json) : M bool :=
  fun w =>
    (Ok (match spotify_tokens w uid with
         | None => true
         | Some r => expires_at r <=? now w
         end), w).

(** Modelled from the spec: [store_spotify_tokens] of [db.py] ("upsert,
    replacing any prior record for the user"). *)
Definition store_spotify_tokens (uid access refresh : json) (expires : Z) : M unit :=
  fun w =>
    (Ok tt,
     {| spotify_tokens := fun u =>
          if json_eqb u uid
          then Some {| access_token := access; refresh_token := refresh;
                       expires_at := expires |}
          else spotify_tokens w u;
        default_playlists := default_playlists w;
        now := now w;
        sent := sent w |}).

(** Modelled from the spec: [get_default_playlist] of [db.py]
    ("getDefaultPlaylist(userId) -> {id, name} | absent"). *)
Definition get_default_playlist (uid : json) : M (option DefaultPlaylist) :=
  fun w => (Ok (default_playlists w uid), w).

(** Modelled from the spec: [delete_spotify_tokens] of [db.py]
    ("removes the record; idempotent (absent record is not an
    error)"). *)
Definition delete_spotify_tokens (uid : json) : M unit :=
  fun w =>
    (Ok tt,
     {| spotify_tokens := fun u => if json_eqb u uid then None else spotify_tokens w u;
        default_playlists := default_playlists w;
        now := now w;
        sent := sent w |}).

(** Modelled from the spec: [store_default_playlist] of [db.py]
    ("storeDefaultPlaylist(userId, playlistId, playlistName): upsert"). *)
Definition store_default_playlist (uid : json) (playlist_id playlist_name : string)
  : M unit :=
  fun w =>
    (Ok tt,
     {| spotify_tokens := spotify_tokens w;
        default_playlists := fun u =>
          if json_eqb u uid
          then Some {| default_id := playlist_id; default_name := playlist_name |}
          else default_playlists w u;
        now := now w;
        sent := sent w |}).

(** [int(datetime.utcnow().timestamp())]. *)
Definition utcnow_timestamp : M Z := fun w => (Ok (now w), w).

(** ** [src/main.py] *)

Section Service.

Context (E : Env).

(** One call of [requests.get], [post], [put] or [delete]: the request
    goes out, and the provider answers or the transport fails. *)
Definition send (req : HttpRequest) : M Response :=
  fun w =>
    match provider E (sent w) req with
    | Answers r => (Ok r, after_send w req)
    | Fails cause => (Raise (RequestException cause), after_send w req)
    end.

(** [str(v)], as an f-string formats a value. *)
Definition py_str (v : json) : string :=
  match v with
  | JNull => "None"
  | JBool true => "True"
  | JBool false => "False"
  | JInt n => str_int n
  | JStr s => s
  | JList _ | JDict _ => container_str E v
  end.

Definition get_auth_header (access_token : json) : list (string * string) :=
  [("Authorization", "Bearer " ++ py_str access_token)].

(** Returns the parsed body, or [None]. *)
Definition refresh_access_token (refresh_token : json) : M json :=
  let auth_header :=
    b64encode (SPOTIFY_CLIENT_ID E ++ ":" ++ SPOTIFY_CLIENT_SECRET E) in
  response <- send {| method := "POST";
                      url := SPOTIFY_TOKEN_URL;
                      headers := [("Authorization", "Basic " ++ auth_header);
                                  ("Content-Type", "application/x-www-form-urlencoded")];
                      params := None;
                      json_data := None;
                      data := Some (JDict [("grant_type", JStr "refresh_token");
                                           ("refresh_token", refresh_token)]) |} ;;
  if status_code response =? 200
  then lift (response_json response)
  else ret JNull.

(** Returns the access token, or [None]. *)
Definition get_valid_access_token (uid : json) : M json :=
  tokens <- get_spotify_tokens uid ;;
  match tokens with
  | None => ret JNull
  | Some tokens =>
      expired <- is_token_expired uid ;;
      if expired : bool then
        new_tokens <- refresh_access_token (refresh_token tokens) ;;
        if truthy new_tokens then
          timestamp <- utcnow_timestamp ;;
          expires_in <- lift (py_get new_tokens "expires_in" (JInt 3600)) ;;
          expires_in <- lift (py_int expires_in) ;;
          let expires_at := timestamp + expires_in in
          access <- lift (py_getitem new_tokens "access_token") ;;
          refresh <- lift (py_get new_tokens "refresh_token" (refresh_token tokens)) ;;
          _ <- store_spotify_tokens uid access refresh expires_at ;;
          lift (py_getitem new_tokens "access_token")
        else ret JNull
      else ret (access_token tokens)
  end.

Definition success_marker : json := JDict [("success", JBool true)].

Definition error_dict (message : json) : json := JDict [("error", message)].

(** The [requests] call the method selects, if any. *)
Definition request_for (method url : string) (headers : list (string * string))
  (params json_data : option json) : option HttpRequest :=
  if String.eqb (upper E method) "GET" then
    Some {| method := "GET"; url := url; headers := headers;
            params := params; json_data := None; data := None |}
  else if String.eqb (upper E method) "POST" then
    Some {| method := "POST"; url := url; headers := headers;
            params := params; json_data := json_data; data := None |}
  else if String.eqb (upper E method) "PUT" then
    Some {| method := "PUT"; url := url; headers := headers;
            params := params; json_data := json_data; data := None |}
  else if String.eqb (upper E method) "DELETE" then
    Some {| method := "DELETE"; url := url; headers := headers;
            params := params; json_data := None; data := None |}
  else None.

Definition spotify_api_request (uid : json) (method endpoint : string)
  (params json_data : option json) : M json :=
  access_token <- get_valid_access_token uid ;;
  if negb (truthy access_token) then
    ret (error_dict (JStr "User not authenticated with Spotify"))
  else
    let url := SPOTIFY_API_BASE ++ endpoint in
    let headers := get_auth_header access_token in
    try_except_RequestException
      (match request_for method url headers params json_data with
       | None => ret (error_dict (JStr ("Unsupported HTTP method: " ++ method)))
       | Some req =>
           response <- send req ;;
           if status_code response =? 204 then
             ret success_marker
           else if 400 <=? status_code response then
             error_data <- lift (if has_content response
                                 then response_json response
                                 else Ok (JDict [])) ;;
             inner <- lift (py_get error_data "error" (JDict [])) ;;
             message <- lift (py_get inner "message"
                                (JStr ("API error: " ++ str_int (status_code response)))) ;;
             ret (error_dict message)
           else if has_content response then lift (response_json response)
           else ret success_marker
       end)
      (fun e => ret (error_dict (JStr ("Request failed: " ++ exc_str E e)))).

(** One item of a search result as a [SpotifyTrack]. *)
Definition track_of_item (item : json) : res SpotifyTrack.t :=
  id <~ py_getitem item "id" ;;
  name <~ py_getitem item "name" ;;
  artists <~ py_getitem item "artists" ;;
  artists <~ py_iter artists ;;
  artists <~ mapR (fun a => py_getitem a "name") artists ;;
  album <~ py_getitem item "album" ;;
  album <~ py_getitem album "name" ;;
  duration_ms <~ py_getitem item "duration_ms" ;;
  uri <~ py_getitem item "uri" ;;
  external_urls <~ py_get item "external_urls" (JDict []) ;;
  external_url <~ py_get external_urls "spotify" JNull ;;
  preview_url <~ py_get item "preview_url" JNull ;;
  SpotifyTrack.new [("id", id); ("name", name); ("artists", JList artists);
                    ("album", album); ("duration_ms", duration_ms);
                    ("uri", uri); ("external_url", external_url);
                    ("preview_url", preview_url)].

Definition search_tracks (uid query limit : json) : M (list SpotifyTrack.t) :=
  result <- spotify_api_request uid "GET" "/search"
              (Some (JDict [("q", query); ("type", JStr "track"); ("limit", limit)]))
              None ;;
  has_error <- lift (py_in "error" result) ;;
  if has_error : bool then ret []
  else
    tracks <- lift (py_get result "tracks" (JDict [])) ;;
    items <- lift (py_get tracks "items" (JList [])) ;;
    items <- lift (py_iter items) ;;
    lift (mapR track_of_item items).

(** One item of the playlist listing as a [SpotifyPlaylist]: the
    keyword arguments are the eight the source passes. *)
Definition playlist_of_item (item : json) : res SpotifyPlaylist.t :=
  id <~ py_getitem item "id" ;;
  name <~ py_getitem item "name" ;;
  description <~ py_get item "description" (JStr "") ;;
  owner <~ py_getitem item "owner" ;;
  owner <~ py_getitem owner "display_name" ;;
  tracks <~ py_getitem item "tracks" ;;
  tracks_total <~ py_getitem tracks "total" ;;
  public <~ py_get item "public" (JBool false) ;;
  uri <~ py_getitem item "uri" ;;
  external_urls <~ py_get item "external_urls" (JDict []) ;;
  external_url <~ py_get external_urls "spotify" JNull ;;
  SpotifyPlaylist.new [("id", id); ("name", name); ("description", description);
                       ("owner", owner); ("tracks_total", tracks_total);
                       ("public", public); ("uri", uri);
                       ("external_url", external_url)].

Definition get_user_playlists (uid limit : json) : M (list SpotifyPlaylist.t) :=
  result <- spotify_api_request uid "GET" "/me/playlists"
              (Some (JDict [("limit", limit)])) None ;;
  has_error <- lift (py_in "error" result) ;;
  if has_error : bool then ret []
  else
    items <- lift (py_get result "items" (JList [])) ;;
    items <- lift (py_iter items) ;;
    lift (mapR playlist_of_item items).

(** The two loops of [find_playlist_by_name] over the fetched list. *)
Definition first_named (name_lower : string) (playlists : list SpotifyPlaylist.t)
  : option SpotifyPlaylist.t :=
  match find (fun p => String.eqb (lower E (SpotifyPlaylist.name p)) name_lower)
             playlists with
  | Some playlist => Some playlist
  | None =>
      find (fun p => contains name_lower (lower E (SpotifyPlaylist.name p))) playlists
  end.

Definition find_playlist_by_name (uid name : json) : M (option SpotifyPlaylist.t) :=
  playlists <- get_user_playlists uid (JInt 50) ;;
  name_lower <- lift (py_lower E name) ;;
  ret (first_named name_lower playlists).

(** *** Chat tool endpoints

    [print] calls are left out: they write to the log and cannot raise
    on the values they are given. *)

(** The incoming call: [await request.json()] gives the parsed body or
    raises. *)
Record Request : Type := {
  request_json : res json
}.

(** [f"{n:02d}"]: the sign, then zeros up to two characters, then the
    digits. *)
Definition format_02d (n : Z) : string :=
  let digits := str_int (Z.abs n) in
  let sign := if n <? 0 then "-" else "" in
  sign ++ String.concat "" (repeat "0" (2 - String.length sign - String.length digits)%nat)
       ++ digits.

Definition tool_search_songs (request : Request) : World -> ChatToolResponse * World :=
  try_except_Exception
    (body <- lift (request_json request) ;;
     uid <- lift (py_get body "uid" JNull) ;;
     query <- lift (py_get body "query" (JStr "")) ;;
     limit <- lift (py_get body "limit" (JInt 5)) ;;
     if negb (truthy uid) then ret (Error "User ID is required")
     else if negb (truthy query) then ret (Error "Search query is required")
     else
       tokens <- get_spotify_tokens uid ;;
       match tokens with
       | None =>
           ret (Error "Please connect your Spotify account first in the app settings.")
       | Some _ =>
           tracks <- search_tracks uid query limit ;;
           match tracks with
           | [] => ret (Result ("No songs found for '" ++ py_str query ++ "'"))
           | _ :: _ =>
               let results :=
                 map (fun it : Z * SpotifyTrack.t =>
                        let (i, track) := it in
                        let artists := join ", " (SpotifyTrack.artists track) in
                        let duration :=
                          str_int (SpotifyTrack.duration_ms track / 60000) ++ ":"
                            ++ format_02d ((SpotifyTrack.duration_ms track mod 60000)
                                           / 1000) in
                        str_int i ++ ". **" ++ SpotifyTrack.name track ++ "** by "
                          ++ artists ++ " (" ++ duration ++ ") - Album: "
                          ++ SpotifyTrack.album track)
                     (enumerate tracks 1) in
               ret (Result ("🎵 Found " ++ str_int (Z.of_nat (List.length tracks))
                              ++ " songs:" ++ newline ++ newline
                              ++ join newline results))
           end
       end)
    (fun e => Error ("Search failed: " ++ exc_str E e)).

(** [song_name], or [f"{song_name} artist:{artist_name}"] when an artist
    is given. *)
Definition build_search_query (song_name artist_name : json) : json :=
  if truthy artist_name
  then JStr (py_str song_name ++ " artist:" ++ py_str artist_name)
  else song_name.

Definition tool_add_to_playlist (request : Request) : World -> ChatToolResponse * World :=
  try_except_Exception
    (body <- lift (request_json request) ;;
     uid <- lift (py_get body "uid" JNull) ;;
     song_name <- lift (py_get body "song_name" (JStr "")) ;;
     artist_name <- lift (py_get body "artist_name" (JStr "")) ;;
     playlist_name <- lift (py_get body "playlist_name" JNull) ;;
     playlist_id <- lift (py_get body "playlist_id" JNull) ;;
     if negb (truthy uid) then ret (Error "User ID is required")
     else if negb (truthy song_name) then ret (Error "Song name is required")
     else
       tokens <- get_spotify_tokens uid ;;
       match tokens with
       | None =>
           ret (Error "Please connect your Spotify account first in the app settings.")
       | Some _ =>
           let search_query := build_search_query song_name artist_name in
           tracks <- search_tracks uid search_query (JInt 1) ;;
           match tracks with
           | [] => ret (Error ("Could not find song: " ++ py_str song_name))
           | track :: _ =>
               (* inl: the handler returns here; inr: the target playlist *)
               target <-
                 (if truthy playlist_id then
                    p <- lift (SpotifyPlaylist.new
                                 [("id", playlist_id);
                                  ("name", py_or playlist_name (JStr "Unknown"));
                                  ("owner", JStr "");
                                  ("tracks_total", JInt 0);
                                  ("public", JBool false);
                                  ("uri", JStr ("spotify:playlist:" ++ py_str playlist_id))]) ;;
                    ret (inr p)
                  else if truthy playlist_name then
                    found <- find_playlist_by_name uid playlist_name ;;
                    match found with
                    | None =>
                        ret (inl (Error ("Could not find playlist: "
                                           ++ py_str playlist_name)))
                    | Some p => ret (inr p)
                    end
                  else
                    default <- get_default_playlist uid ;;
                    match default with
                    | Some default =>
                        p <- lift (SpotifyPlaylist.new
                                     [("id", JStr (default_id default));
                                      ("name", JStr (default_name default));
                                      ("owner", JStr "");
                                      ("tracks_total", JInt 0);
                                      ("public", JBool false);
                                      ("uri", JStr ("spotify:playlist:"
                                                      ++ default_id default))]) ;;
                        ret (inr p)
                    | None =>
                        ret (inl (Error "No playlist specified and no default playlist set. Please specify a playlist name or set a default in app settings."))
                    end) ;;
               match target with
               | inl response => ret response
               | inr target_playlist =>
                   result <- spotify_api_request uid "POST"
                               ("/playlists/" ++ SpotifyPlaylist.id target_playlist
                                  ++ "/tracks")
                               None
                               (Some (JDict [("uris",
                                              JList [JStr (SpotifyTrack.uri track)])])) ;;
                   has_error <- lift (py_in "error" result) ;;
                   if has_error : bool then
                     message <- lift (py_getitem result "error") ;;
                     ret (Error ("Failed to add song: " ++ py_str message))
                   else
                     let artists := join ", " (SpotifyTrack.artists track) in
                     ret (Result ("✅ Added **" ++ SpotifyTrack.name track ++ "** by "
                                    ++ artists ++ " to playlist **"
                                    ++ SpotifyPlaylist.name target_playlist ++ "**!"))
               end
           end
       end)
    (fun e => Error ("Failed to add song: " ++ exc_str E e)).

Definition tool_create_playlist (request : Request) : World -> ChatToolResponse * World :=
  try_except_Exception
    (body <- lift (request_json request) ;;
     uid <- lift (py_get body "uid" JNull) ;;
     name <- lift (py_get body "name" (JStr "")) ;;
     description <- lift (py_get body "description" (JStr "Created with Omi")) ;;
     public <- lift (py_get body "public" (JBool false)) ;;
     if negb (truthy uid) then ret (Error "User ID is required")
     else if negb (truthy name) then ret (Error "Playlist name is required")
     else
       tokens <- get_spotify_tokens uid ;;
       match tokens with
       | None =>
           ret (Error "Please connect your Spotify account first in the app settings.")
       | Some _ =>
           profile <- spotify_api_request uid "GET" "/me" None None ;;
           has_error <- lift (py_in "error" profile) ;;
           if has_error : bool then ret (Error "Failed to get user profile")
           else
             spotify_user_id <- lift (py_getitem profile "id") ;;
             result <- spotify_api_request uid "POST"
                         ("/users/" ++ py_str spotify_user_id ++ "/playlists")
                         None
                         (Some (JDict [("name", name);
                                       ("description", description);
                                       ("public", public)])) ;;
             has_error <- lift (py_in "error" result) ;;
             if has_error : bool then
               message <- lift (py_getitem result "error") ;;
               ret (Error ("Failed to create playlist: " ++ py_str message))
             else
               external_urls <- lift (py_get result "external_urls" (JDict [])) ;;
               playlist_url <- lift (py_get external_urls "spotify" (JStr "")) ;;
               ret (Result ("✅ Created playlist **" ++ py_str name ++ "**!"
                              ++ newline ++ newline ++ "Open in Spotify: "
                              ++ py_str playlist_url))
       end)
    (fun e => Error ("Failed to create playlist: " ++ exc_str E e)).

Definition tool_get_playlists (request : Request) : World -> ChatToolResponse * World :=
  try_except_Exception
    (body <- lift (request_json request) ;;
     uid <- lift (py_get body "uid" JNull) ;;
     limit <- lift (py_get body "limit" (JInt 10)) ;;
     if negb (truthy uid) then ret (Error "User ID is required")
     else
       tokens <- get_spotify_tokens uid ;;
       match tokens with
       | None =>
           ret (Error "Please connect your Spotify account first in the app settings.")
       | Some _ =>
           playlists <- get_user_playlists uid limit ;;
           match playlists with
           | [] => ret (Result "You don't have any playlists yet.")
           | _ :: _ =>
               let results :=
                 map (fun it : Z * SpotifyPlaylist.t =>
                        let (i, playlist) := it in
                        let visibility :=
                          if SpotifyPlaylist.public playlist then "🌐" else "🔒" in
                        str_int i ++ ". " ++ visibility ++ " **"
                          ++ SpotifyPlaylist.name playlist ++ "** ("
                          ++ str_int (SpotifyPlaylist.tracks_total playlist)
                          ++ " tracks)")
                     (enumerate playlists 1) in
               ret (Result ("📋 Your playlists:" ++ newline ++ newline
                              ++ join newline results))
           end
       end)
    (fun e => Error ("Failed to get playlists: " ++ exc_str E e)).

(** [", ".join([a["name"] for a in track["artists"]])]. *)
Definition artist_names (track : json) : res string :=
  artists <~ py_getitem track "artists" ;;
  artists <~ py_iter artists ;;
  names <~ mapR (fun a => py_getitem a "name") artists ;;
  names <~ mapR as_str names ;;
  Ok (join ", " names).

Definition tool_get_now_playing (request : Request) : World -> ChatToolResponse * World :=
  try_except_Exception
    (body <- lift (request_json request) ;;
     uid <- lift (py_get body "uid" JNull) ;;
     if negb (truthy uid) then ret (Error "User ID is required")
     else
       tokens <- get_spotify_tokens uid ;;
       match tokens with
       | None =>
           ret (Error "Please connect your Spotify account first in the app settings.")
       | Some _ =>
           result <- spotify_api_request uid "GET" "/me/player/currently-playing"
                       None None ;;
           has_error <- lift (py_in "error" result) ;;
           if has_error : bool then
             message <- lift (py_getitem result "error") ;;
             ret (Error ("Failed to get playback: " ++ py_str message))
           else
             nothing <- lift (if negb (truthy result) then Ok true
                              else item <~ py_get result "item" JNull ;;
                                   Ok (negb (truthy item))) ;;
             if nothing : bool then
               ret (Result "🔇 Nothing is currently playing on Spotify.")
             else
               track <- lift (py_getitem result "item") ;;
               is_playing <- lift (py_get result "is_playing" (JBool false)) ;;
               progress_ms <- lift (py_get result "progress_ms" (JInt 0)) ;;
               artists <- lift (artist_names track) ;;
               duration_ms <- lift (py_getitem track "duration_ms") ;;
               progress_ms <- lift (py_int progress_ms) ;;
               let progress :=
                 str_int (progress_ms / 60000) ++ ":"
                   ++ format_02d ((progress_ms mod 60000) / 1000) in
               duration_ms <- lift (py_int duration_ms) ;;
               let duration :=
                 str_int (duration_ms / 60000) ++ ":"
                   ++ format_02d ((duration_ms mod 60000) / 1000) in
               let status := if truthy is_playing then "▶️ Playing" else "⏸️ Paused" in
               name <- lift (py_getitem track "name") ;;
               album <- lift (py_getitem track "album") ;;
               album <- lift (py_getitem album "name") ;;
               ret (Result (status ++ ": **" ++ py_str name ++ "** by " ++ artists
                              ++ newline ++ "Album: " ++ py_str album
                              ++ newline ++ "Progress: " ++ progress ++ " / "
                              ++ duration))
       end)
    (fun e => Error ("Failed to get current playback: " ++ exc_str E e)).

Definition endpoint_map : list (string * (string * string)) :=
  [("play", ("/me/player/play", "PUT"));
   ("pause", ("/me/player/pause", "PUT"));
   ("next", ("/me/player/next", "POST"));
   ("skip", ("/me/player/next", "POST"));
   ("previous", ("/me/player/previous", "POST"))].

Definition action_messages : list (string * string) :=
  [("play", "▶️ Resumed playback");
   ("pause", "⏸️ Paused playback");
   ("next", "⏭️ Skipped to next track");
   ("skip", "⏭️ Skipped to next track");
   ("previous", "⏮️ Went to previous track")].

(** [table[key]] for the two dicts above. *)
Fixpoint table_get {V} (table : list (string * V)) (key : string) : res V :=
  match table with
  | [] => Raise (KeyError key)
  | (k, v) :: table' => if String.eqb k key then Ok v else table_get table' key
  end.

(** [action in ["play", "pause", "next", "previous", "skip"]]. *)
Definition accepted_action (action : string) : bool :=
  existsb (String.eqb action) ["play"; "pause"; "next"; "previous"; "skip"].

Definition tool_control_playback (request : Request) : World -> ChatToolResponse * World :=
  try_except_Exception
    (body <- lift (request_json request) ;;
     uid <- lift (py_get body "uid" JNull) ;;
     action <- lift (py_get body "action" (JStr "")) ;;
     action <- lift (py_lower E action) ;;
     if negb (truthy uid) then ret (Error "User ID is required")
     else if negb (accepted_action action) then
       ret (Error "Invalid action. Use: play, pause, next, previous")
     else
       tokens <- get_spotify_tokens uid ;;
       match tokens with
       | None =>
           ret (Error "Please connect your Spotify account first in the app settings.")
       | Some _ =>
           route <- lift (table_get endpoint_map action) ;;
           let (endpoint, method) := route : string * string in
           result <- spotify_api_request uid method endpoint None None ;;
           has_error <- lift (py_in "error" result) ;;
           if has_error : bool then
             message <- lift (py_get result "error" (JStr "")) ;;
             if contains "No active device" (py_str message) then
               ret (Error "No active Spotify device found. Please open Spotify on one of your devices first.")
             else
               message <- lift (py_getitem result "error") ;;
               ret (Error ("Playback control failed: " ++ py_str message))
           else
             message <- lift (table_get action_messages action) ;;
             ret (Result message)
       end)
    (fun e => Error ("Playback control failed: " ++ exc_str E e)).

Definition tool_play_song (request : Request) : World -> ChatToolResponse * World :=
  try_except_Exception
    (body <- lift (request_json request) ;;
     uid <- lift (py_get body "uid" JNull) ;;
     song_name <- lift (py_get body "song_name" (JStr "")) ;;
     artist_name <- lift (py_get body "artist_name" (JStr "")) ;;
     if negb (truthy uid) then ret (Error "User ID is required")
     else if negb (truthy song_name) then ret (Error "Song name is required")
     else
       tokens <- get_spotify_tokens uid ;;
       match tokens with
       | None =>
           ret (Error "Please connect your Spotify account first in the app settings.")
       | Some _ =>
           let search_query := build_search_query song_name artist_name in
           tracks <- search_tracks uid search_query (JInt 1) ;;
           match tracks with
           | [] => ret (Error ("Could not find song: " ++ py_str song_name))
           | track :: _ =>
               result <- spotify_api_request uid "PUT" "/me/player/play" None
                           (Some (JDict [("uris",
                                          JList [JStr (SpotifyTrack.uri track)])])) ;;
               has_error <- lift (py_in "error" result) ;;
               if has_error : bool then
                 message <- lift (py_get result "error" (JStr "")) ;;
                 if contains "No active device" (py_str message) then
                   ret (Error "No active Spotify device found. Please open Spotify on one of your devices first.")
                 else
                   message <- lift (py_getitem result "error") ;;
                   ret (Error ("Failed to play: " ++ py_str message))
               else
                 let artists := join ", " (SpotifyTrack.artists track) in
                 ret (Result ("▶️ Now playing: **" ++ SpotifyTrack.name track
                                ++ "** by " ++ artists))
           end
       end)
    (fun e => Error ("Failed to play song: " ++ exc_str E e)).

(** [params[key] = ",".join(seeds[:5])] when [seeds] is truthy. *)
Definition add_seed (params : list (string * json)) (key : string) (seeds : json)
  : res (list (string * json)) :=
  if truthy seeds then
    first5 <~ py_slice5 seeds ;;
    joined <~ py_join "," first5 ;;
    Ok (params ++ [(key, JStr joined)])%list
  else Ok params.

(** One line of the recommendation list. *)
Definition recommendation_line (it : Z * json) : res string :=
  let (i, track) := it in
  artists <~ artist_names track ;;
  name <~ py_getitem track "name" ;;
  Ok (str_int i ++ ". **" ++ py_str name ++ "** by " ++ artists).

Definition tool_get_recommendations (request : Request)
  : World -> ChatToolResponse * World :=
  try_except_Exception
    (body <- lift (request_json request) ;;
     uid <- lift (py_get body "uid" JNull) ;;
     seed_tracks <- lift (py_get body "seed_tracks" (JList [])) ;;
     seed_artists <- lift (py_get body "seed_artists" (JList [])) ;;
     seed_genres <- lift (py_get body "seed_genres" (JList [])) ;;
     limit <- lift (py_get body "limit" (JInt 5)) ;;
     if negb (truthy uid) then ret (Error "User ID is required")
     else
       tokens <- get_spotify_tokens uid ;;
       match tokens with
       | None =>
           ret (Error "Please connect your Spotify account first in the app settings.")
       | Some _ =>
           seed_tracks <-
             (if negb (truthy seed_tracks) && negb (truthy seed_artists)
                 && negb (truthy seed_genres) then
                recent <- spotify_api_request uid "GET" "/me/player/recently-played"
                            (Some (JDict [("limit", JInt 5)])) None ;;
                has_error <- lift (py_in "error" recent) ;;
                if has_error : bool then ret seed_tracks
                else
                  items <- lift (py_get recent "items" JNull) ;;
                  if truthy items then
                    items <- lift (py_getitem recent "items") ;;
                    items <- lift (py_slice5 items) ;;
                    items <- lift (py_iter items) ;;
                    ids <- lift (mapR (fun item =>
                                         track <~ py_getitem item "track" ;;
                                         py_getitem track "id") items) ;;
                    ret (JList ids)
                  else ret seed_tracks
              else ret seed_tracks) ;;
           params <- lift (add_seed [("limit", limit)] "seed_tracks" seed_tracks) ;;
           params <- lift (add_seed params "seed_artists" seed_artists) ;;
           params <- lift (add_seed params "seed_genres" seed_genres) ;;
           result <- spotify_api_request uid "GET" "/recommendations"
                       (Some (JDict params)) None ;;
           has_error <- lift (py_in "error" result) ;;
           if has_error : bool then
             message <- lift (py_getitem result "error") ;;
             ret (Error ("Failed to get recommendations: " ++ py_str message))
           else
             tracks <- lift (py_get result "tracks" (JList [])) ;;
             if negb (truthy tracks) then ret (Result "No recommendations found.")
             else
               tracks <- lift (py_iter tracks) ;;
               results <- lift (mapR recommendation_line (enumerate tracks 1)) ;;
               ret (Result ("🎧 Recommended songs for you:" ++ newline ++ newline
                              ++ join newline results))
       end)
    (fun e => Error ("Failed to get recommendations: " ++ exc_str E e)).

End Service.

(** ** [src/main.py]: the OAuth flow and the settings page *)

Definition SPOTIFY_AUTH_URL : string := "https://accounts.spotify.com/authorize".

Definition SPOTIFY_SCOPES : list string :=
  ["user-read-private";
   "user-read-email";
   "playlist-read-private";
   "playlist-read-collaborative";
   "playlist-modify-public";
   "playlist-modify-private";
   "user-library-read";
   "user-library-modify";
   "user-read-playback-state";
   "user-modify-playback-state";
   "user-read-currently-playing";
   "user-read-recently-played"].

Definition SPOTIFY_REDIRECT_URI (E : Env) : string :=
  getenv E "SPOTIFY_REDIRECT_URI" "http://localhost:8000/auth/spotify/callback".

(** The bytes [urllib.parse.quote_plus] leaves as they are: letters,
    digits and [_.-~]. *)
Definition always_safe (c : ascii) : bool :=
  let n := nat_of_ascii c in
  ((65 <=? n) && (n <=? 90) || (97 <=? n) && (n <=? 122)
   || (48 <=? n) && (n <=? 57)
   || (n =? 95) || (n =? 46) || (n =? 45) || (n =? 126))%nat.

Definition hex_digit (n : nat) : string :=
  match String.get n "0123456789ABCDEF" with
  | Some c => String c ""
  | None => "0"
  end.

Definition quote_plus_byte (c : ascii) : string :=
  if always_safe c then String c ""
  else if Ascii.eqb c " " then "+"
  else "%" ++ hex_digit (nat_of_ascii c / 16) ++ hex_digit (nat_of_ascii c mod 16).

(** [urllib.parse.quote_plus(s)], on the UTF-8 bytes of [s]. *)
Fixpoint quote_plus (s : string) : string :=
  match s with
  | EmptyString => ""
  | String c s' => quote_plus_byte c ++ quote_plus s'
  end.

(** [urllib.parse.urlencode(params)] for a dict of strs. *)
Definition urlencode (query : list (string * string)) : string :=
  join "&" (map (fun kv => quote_plus (fst kv) ++ "=" ++ quote_plus (snd kv)) query).

(** The context a handler passes to the template "setup.html": the
    short one of an error page, or the one of the settings page. *)
Inductive SetupContext : Type :=
| ErrorPage (error : string)
| SettingsPage (uid : string) (authenticated : bool) (user_profile : option json)
    (playlists : list SpotifyPlaylist.t) (default_playlist : option DefaultPlaylist)
    (oauth_url : string).

(** What a handler of this part returns, or the [HTTPException] it
    raises. *)
Inductive Reply : Type :=
| TemplateResponse (template : string) (context : SetupContext)
| RedirectResponse (url : string)
| JSONBody (body : json)
| HTTPException (status : Z) (detail : string).

(** [bool(p)] for an optional str parameter. *)
Definition given (p : option string) : bool :=
  match p with
  | Some s => negb (String.eqb s "")
  | None => false
  end.

Definition text_of (p : option string) : string :=
  match p with
  | Some s => s
  | None => ""
  end.

Section Pages.

Context (E : Env).

Definition home (uid : option string) : M Reply :=
  if negb (given uid) then
    ret (TemplateResponse "setup.html" (ErrorPage "Missing user ID"))
  else
    let uid := text_of uid in
    tokens <- get_spotify_tokens (JStr uid) ;;
    match tokens with
    | Some _ =>
        profile_result <- spotify_api_request E (JStr uid) "GET" "/me" None None ;;
        has_error <- lift (py_in "error" profile_result) ;;
        let user_profile := if has_error : bool then None else Some profile_result in
        playlists <- get_user_playlists E (JStr uid) (JInt 50) ;;
        default_playlist <- get_default_playlist (JStr uid) ;;
        ret (TemplateResponse "setup.html"
               (SettingsPage uid true user_profile playlists default_playlist
                  ("/auth/spotify?uid=" ++ uid)))
    | None =>
        ret (TemplateResponse "setup.html"
               (SettingsPage uid false None [] None ("/auth/spotify?uid=" ++ uid)))
    end.

Definition spotify_auth (uid : string) : Reply :=
  if String.eqb uid "" then HTTPException 400 "User ID is required"
  else
    let params :=
      [("client_id", SPOTIFY_CLIENT_ID E);
       ("response_type", "code");
       ("redirect_uri", SPOTIFY_REDIRECT_URI E);
       ("scope", join " " SPOTIFY_SCOPES);
       ("state", uid);
       ("show_dialog", "true")] in
    RedirectResponse (SPOTIFY_AUTH_URL ++ "?" ++ urlencode params).

(** The call that exchanges the authorization code. *)
Definition exchange_request (code : string) : HttpRequest :=
  {| method := "POST";
     url := SPOTIFY_TOKEN_URL;
     headers := [("Authorization",
                  "Basic " ++ b64encode (SPOTIFY_CLIENT_ID E ++ ":"
                                           ++ SPOTIFY_CLIENT_SECRET E));
                 ("Content-Type", "application/x-www-form-urlencoded")];
     params := None;
     json_data := None;
     data := Some (JDict [("grant_type", JStr "authorization_code");
                          ("code", JStr code);
                          ("redirect_uri", JStr (SPOTIFY_REDIRECT_URI E))]) |}.

Definition spotify_callback (code state error : option string) : M Reply :=
  if given error then
    ret (TemplateResponse "setup.html"
           (ErrorPage ("Authorization failed: " ++ text_of error)))
  else if negb (given code) || negb (given state) then
    ret (TemplateResponse "setup.html" (ErrorPage "Invalid callback parameters"))
  else
    let uid := text_of state in
    response <- send E (exchange_request (text_of code)) ;;
    if negb (status_code response =? 200) then
      ret (TemplateResponse "setup.html"
             (ErrorPage "Failed to exchange authorization code"))
    else
      token_data <- lift (response_json response) ;;
      timestamp <- utcnow_timestamp ;;
      expires_in <- lift (py_get token_data "expires_in" (JInt 3600)) ;;
      expires_in <- lift (py_int expires_in) ;;
      let expires_at := timestamp + expires_in in
      access <- lift (py_getitem token_data "access_token") ;;
      refresh <- lift (py_getitem token_data "refresh_token") ;;
      _ <- store_spotify_tokens (JStr uid) access refresh expires_at ;;
      ret (RedirectResponse ("/?uid=" ++ uid)).

Definition check_setup (uid : string) : M Reply :=
  tokens <- get_spotify_tokens (JStr uid) ;;
  ret (JSONBody (JDict [("is_setup_completed",
                         JBool (match tokens with Some _ => true | None => false end))])).

Definition set_default_playlist (uid playlist_id playlist_name : string) : M Reply :=
  _ <- store_default_playlist (JStr uid) playlist_id playlist_name ;;
  ret (JSONBody (JDict [("success", JBool true);
                        ("message",
                         JStr ("Default playlist set to: " ++ playlist_name))])).

Definition disconnect_spotify (uid : string) : M Reply :=
  _ <- delete_spotify_tokens (JStr uid) ;;
  ret (RedirectResponse ("/?uid=" ++ uid)).

End Pages.

(** ** Scenarios

    A concrete environment and two concrete worlds, for the examples:
    user "u1" has linked an account (a token valid until time 2000, the
    clock at 1000) and chosen the default playlist "Chill" (id "p1");
    nobody else has a record. *)

(** A rendering of [str(e)]. *)
Definition exception_text (e : exn) : string :=
  match e with
  | KeyError key => "'" ++ key ++ "'"
  | TypeError => "unsupported operand or argument type"
  | AttributeError => "object has no such attribute"
  | ValidationError model => "1 validation error for " ++ model
  | RequestException cause => cause
  | JSONDecodeError => "Expecting value: line 1 column 1 (char 0)"
  end.

(** The part of the Unicode case mappings the examples use, on UTF-8
    bytes.  Lowering: the Latin-1 capitals À-Þ (bytes C3 80 - C3 9E, the
    sign × apart) become à-þ, the Kelvin sign (E2 84 AA) becomes "k".
    Raising: the Latin-1 small letters à-þ (C3 A0 - C3 BE, the sign ÷
    apart) become À-Þ, the long s (C5 BF) becomes "S".  An ASCII letter
    changes case; the examples use no other character. *)
Fixpoint latin_lower (s : string) : string :=
  match s with
  | EmptyString => EmptyString
  | String c tail =>
      match tail with
      | String c2 rest =>
          if ((nat_of_ascii c =? 195) && (128 <=? nat_of_ascii c2)
              && (nat_of_ascii c2 <=? 158) && negb (nat_of_ascii c2 =? 151))%nat
          then String c (String (ascii_of_nat (nat_of_ascii c2 + 32))
                           (latin_lower rest))
          else
            match rest with
            | String c3 rest' =>
                if ((nat_of_ascii c =? 226) && (nat_of_ascii c2 =? 132)
                    && (nat_of_ascii c3 =? 170))%nat
                then String "k" (latin_lower rest')
                else String (lower_ascii c) (latin_lower tail)
            | EmptyString => String (lower_ascii c) (latin_lower tail)
            end
      | EmptyString => String (lower_ascii c) EmptyString
      end
  end.

Fixpoint latin_upper (s : string) : string :=
  match s with
  | EmptyString => EmptyString
  | String c tail =>
      match tail with
      | String c2 rest =>
          if ((nat_of_ascii c =? 195) && (160 <=? nat_of_ascii c2)
              && (nat_of_ascii c2 <=? 190) && negb (nat_of_ascii c2 =? 183))%nat
          then String c (String (ascii_of_nat (nat_of_ascii c2 - 32))
                           (latin_upper rest))
          else if ((nat_of_ascii c =? 197) && (nat_of_ascii c2 =? 191))%nat
          then String "S" (latin_upper rest)
          else String (upper_ascii c) (latin_upper tail)
      | EmptyString => String (upper_ascii c) EmptyString
      end
  end.

Definition environment (provider : list HttpRequest -> HttpRequest -> HttpOutcome) : Env :=
  {| provider := provider;
     exc_str := exception_text;
     container_str := fun _ => "[...]";
     environ := fun _ => None;
     unicode_lower := latin_lower;
     unicode_upper := latin_upper |}.

Definition nobody_connected : World :=
  {| spotify_tokens := fun _ => None;
     default_playlists := fun _ => None;
     now := 1000;
     sent := [] |}.

Definition u1_connected : World :=
  {| spotify_tokens := fun uid =>
       if json_eqb uid (JStr "u1")
       then Some {| access_token := JStr "token-1";
                    refresh_token := JStr "refresh-1";
                    expires_at := 2000 |}
       else None;
     default_playlists := fun uid =>
       if json_eqb uid (JStr "u1")
       then Some {| default_id := "p1"; default_name := "Chill" |}
       else None;
     now := 1000;
     sent := [] |}.

Definition hello_track : json :=
  JDict [("id", JStr "t1"); ("name", JStr "Hello");
         ("artists", JList [JDict [("name", JStr "Adele")]]);
         ("album", JDict [("name", JStr "25")]);
         ("duration_ms", JInt 295000);
         ("uri", JStr "spotify:track:t1")].

Definition playlist_item (id name : string) : json :=
  JDict [("id", JStr id); ("name", JStr name); ("description", JStr "");
         ("owner", JDict [("display_name", JStr "u1")]);
         ("tracks", JDict [("total", JInt 12)]);
         ("public", JBool false);
         ("uri", JStr ("spotify:playlist:" ++ id))].

Definition ok_json (j : json) : HttpOutcome :=
  Answers {| status_code := 200; content := Json j |}.

(** A provider that works: one track for every search, the playlists
    "Road Trip" and "Trip Hop", 201 for a track added to a playlist or
    a playlist created, 204 for a playback command, the profile of
    "spotify-user-1". *)
Definition working_provider (history : list HttpRequest) (req : HttpRequest)
  : HttpOutcome :=
  if String.eqb (url req) (SPOTIFY_API_BASE ++ "/search") then
    ok_json (JDict [("tracks", JDict [("items", JList [hello_track])])])
  else if String.eqb (url req) (SPOTIFY_API_BASE ++ "/me/playlists") then
    ok_json (JDict [("items", JList [playlist_item "p7" "Road Trip";
                                     playlist_item "p8" "Trip Hop"])])
  else if prefix (SPOTIFY_API_BASE ++ "/playlists/") (url req) then
    Answers {| status_code := 201;
               content := Json (JDict [("snapshot_id", JStr "s1")]) |}
  else if prefix (SPOTIFY_API_BASE ++ "/me/player/") (url req) then
    Answers {| status_code := 204; content := Empty |}
  else if String.eqb (url req) (SPOTIFY_API_BASE ++ "/me") then
    ok_json (JDict [("id", JStr "spotify-user-1")])
  else if prefix (SPOTIFY_API_BASE ++ "/users/") (url req) then
    Answers {| status_code := 201;
               content := Json (JDict [("id", JStr "p9");
                                       ("external_urls",
                                        JDict [("spotify",
                                                JStr "https://open.spotify.com/playlist/p9")])]) |}
  else
    Answers {| status_code := 404;
               content := Json (JDict [("error", JDict [("status", JInt 404);
                                                        ("message", JStr "Not found")])]) |}.

(** A provider that answers every call with status 400 and an error
    body whose [error] member is a str, as OAuth error bodies are. *)
Definition flat_error_provider (history : list HttpRequest) (req : HttpRequest)
  : HttpOutcome :=
  Answers {| status_code := 400;
             content := Json (JDict [("error", JStr "invalid_request");
                                     ("error_description", JStr "bad request")]) |}.

(** A provider whose player is paused at 59000 ms of a track of 125000
    ms. *)
Definition paused_provider (history : list HttpRequest) (req : HttpRequest)
  : HttpOutcome :=
  ok_json (JDict [("is_playing", JBool false);
                  ("progress_ms", JInt 59000);
                  ("item", JDict [("name", JStr "Hello");
                                  ("artists", JList [JDict [("name", JStr "Adele")]]);
                                  ("album", JDict [("name", JStr "25")]);
                                  ("duration_ms", JInt 125000)])]).

Definition body_of (members : list (string * json)) : Request :=
  {| request_json := Ok (JDict members) |}.

(** The credential record of "u1". *)
Definition u1_record : TokenRecord :=
  {| access_token := JStr "token-1";
     refresh_token := JStr "refresh-1";
     expires_at := 2000 |}.

(** User "u1" again, the clock now at 3000: the token has expired. *)
Definition u1_expired : World :=
  {| spotify_tokens := spotify_tokens u1_connected;
     default_playlists := default_playlists u1_connected;
     now := 3000;
     sent := [] |}.

(** A provider whose token endpoint hands out "token-2" for an hour,
    and that works as [working_provider] otherwise. *)
Definition refreshing_provider (history : list HttpRequest) (req : HttpRequest)
  : HttpOutcome :=
  if String.eqb (url req) SPOTIFY_TOKEN_URL then
    ok_json (JDict [("access_token", JStr "token-2"); ("expires_in", JInt 3600)])
  else working_provider history req.

(** A provider whose token endpoint turns every refresh down. *)
Definition rejecting_provider (history : list HttpRequest) (req : HttpRequest)
  : HttpOutcome :=
  if String.eqb (url req) SPOTIFY_TOKEN_URL then
    Answers {| status_code := 400;
               content := Json (JDict [("error", JStr "invalid_grant")]) |}
  else working_provider history req.

(** A provider that cannot be reached. *)
Definition unreachable_provider (history : list HttpRequest) (req : HttpRequest)
  : HttpOutcome :=
  Fails "connection refused".

(** A provider whose search result has an item without an id. *)
Definition idless_provider (history : list HttpRequest) (req : HttpRequest)
  : HttpOutcome :=
  ok_json (JDict [("tracks",
                   JDict [("items", JList [JDict [("name", JStr "Hello")]])])]).

(** A provider that answers every call with status 404 and the message
    Spotify gives when no device is active. *)
Definition no_device_provider (history : list HttpRequest) (req : HttpRequest)
  : HttpOutcome :=
  Answers {| status_code := 404;
             content := Json (JDict [("error",
                                      JDict [("status", JInt 404);
                                             ("message",
                                              JStr "Player command failed: No active device found")])]) |}.

(** A provider whose token endpoint grants "token-9" and "refresh-9"
    for an hour, and that works as [working_provider] otherwise. *)
Definition granting_provider (history : list HttpRequest) (req : HttpRequest)
  : HttpOutcome :=
  if String.eqb (url req) SPOTIFY_TOKEN_URL then
    ok_json (JDict [("access_token", JStr "token-9");
                    ("token_type", JStr "Bearer");
                    ("expires_in", JInt 3600);
                    ("refresh_token", JStr "refresh-9")])
  else working_provider history req.

(** The track [hello_track] describes. *)
Definition hello : SpotifyTrack.t :=
  {| SpotifyTrack.id := "t1"; SpotifyTrack.name := "Hello";
     SpotifyTrack.artists := ["Adele"]; SpotifyTrack.album := "25";
     SpotifyTrack.duration_ms := 295000; SpotifyTrack.uri := "spotify:track:t1";
     SpotifyTrack.external_url := None; SpotifyTrack.preview_url := None |}.

(** ** Vocabulary of the statements *)

Definition not_connected : string :=
  "Please connect your Spotify account first in the app settings.".

Definition invalid_action : string :=
  "Invalid action. Use: play, pause, next, previous".

(** The uid a request body carries ([None] when it carries none). *)
Definition body_uid (m : list (string * json)) : json := dict_get m "uid" JNull.

(** The action a request body carries (the empty str when it carries
    none). *)
Definition body_action (m : list (string * json)) : json :=
  dict_get m "action" (JStr "").

(** A handler refuses a call: it answers with an error and no result,
    leaves the world as it was (so nothing was sent), and the error is
    the connect-your-account message when the inputs checked before
    the credentials are in order. *)
Definition refuses (run : World -> ChatToolResponse * World) (w : World)
  (inputs_in_order : Prop) : Prop :=
  result (fst (run w)) = None /\ error (fst (run w)) <> None
  /\ snd (run w) = w
  /\ (inputs_in_order -> fst (run w) = Error not_connected).

(** The decimal digit [n], for [0 <= n <= 9]. *)
Definition digit (n : Z) : string := String (ascii_of_nat (48 + Z.to_nat n)) "".

(** The int a decimal numeral denotes. *)
Definition parse_int (s : string) : option Z :=
  option_map Z.of_int (NilZero.int_of_string s).

(** The provider's nested error message, [error.error.message]. *)
Definition nested_message (c : Content) : option json :=
  match c with
  | Json (JDict body) =>
      match lookup "error" body with
      | Some (JDict inner) => lookup "message" inner
      | _ => None
      end
  | _ => None
  end.

(** An error body the client can read: no body, or a JSON object whose
    [error] member is absent or itself an object. *)
Definition readable_error_body (c : Content) : Prop :=
  match c with
  | Empty => True
  | Json (JDict body) =>
      match lookup "error" body with
      | None | Some (JDict _) => True
      | Some _ => False
      end
  | Json _ | NotJson => False
  end.

(** The call holds a token: [get_valid_access_token] returns one,
    leaving the world [w1]. *)
Definition authenticated (E : Env) (uid : json) (w : World) (token : json)
  (w1 : World) : Prop :=
  get_valid_access_token E uid w = (Ok token, w1) /\ truthy token = true.

(** The call [control_playback] makes for "next" and for "skip". *)
Definition next_track_request (E : Env) (token : json) : HttpRequest :=
  {| method := "POST";
     url := SPOTIFY_API_BASE ++ "/me/player/next";
     headers := get_auth_header E token;
     params := None;
     json_data := None;
     data := None |}.

Definition skipped : string := "⏭️ Skipped to next track".

(** A playlist value, as the two loops of [find_playlist_by_name] would
    meet it. *)
Definition a_playlist (id name : string) : SpotifyPlaylist.t :=
  {| SpotifyPlaylist.id := id;
     SpotifyPlaylist.name := name;
     SpotifyPlaylist.description := Some "";
     SpotifyPlaylist.owner := "u1";
     SpotifyPlaylist.tracks_total := 12;
     SpotifyPlaylist.public := false;
     SpotifyPlaylist.uri := "spotify:playlist:" ++ id;
     SpotifyPlaylist.canEdit := true;
     SpotifyPlaylist.external_url := None |}.

(** The call [refresh_access_token] makes. *)
Definition refresh_request (E : Env) (refresh_token : json) : HttpRequest :=
  {| method := "POST";
     url := SPOTIFY_TOKEN_URL;
     headers := [("Authorization",
                  "Basic " ++ b64encode (SPOTIFY_CLIENT_ID E ++ ":"
                                           ++ SPOTIFY_CLIENT_SECRET E));
                 ("Content-Type", "application/x-www-form-urlencoded")];
     params := None;
     json_data := None;
     data := Some (JDict [("grant_type", JStr "refresh_token");
                          ("refresh_token", refresh_token)]) |}.

(** What a run for user [uid] may have done to the world: sent up to
    [n] more requests and replaced the credential record of [uid];
    every other record, the default playlists and the clock are as
    they were. *)
Definition touches_only (uid : json) (n : nat) (w w' : World) : Prop :=
  (exists more, sent w' = (sent w ++ more)%list /\ (List.length more <= n)%nat)
  /\ (forall u, u <> uid -> spotify_tokens w' u = spotify_tokens w u)
  /\ default_playlists w' = default_playlists w
  /\ now w' = now w.

(** The uid of a call: what the handler reads from its body, [None]
    when the body is no object or cannot be parsed. *)
Definition request_uid (request : Request) : json :=
  match request_json request with
  | Ok (JDict m) => body_uid m
  | _ => JNull
  end.

(** Exactly one of [result] and [error] is populated. *)
Definition one_sided (r : ChatToolResponse) : Prop :=
  (result r <> None /\ error r = None) \/ (result r = None /\ error r <> None).

(** A computation run for user [uid] touches only what it may, and a
    value it returns satisfies [Q]. *)
Definition behaves (uid : json) {A} (Q : A -> Prop) (m : M A) : Prop :=
  forall w,
    (exists n, touches_only uid n w (snd (m w)))
    /\ (forall a, fst (m w) = Ok a -> Q a).

(** The same for a handler, which returns a response and never
    raises. *)
Definition handles (uid : json) (run : World -> ChatToolResponse * World) : Prop :=
  forall w,
    (exists n, touches_only uid n w (snd (run w))) /\ one_sided (fst (run w)).

(** An optional str as JSON. *)
Definition optional_str (o : option string) : json :=
  match o with
  | Some s => JStr s
  | None => JNull
  end.

(** The object [a] names the artist [n]. *)
Definition names_artist (a : json) (n : string) : Prop :=
  exists m, a = JDict m /\ lookup "name" m = Some (JStr n).

(** The item is an object in which the provider describes the track
    [t]: the members [search_tracks] reads have the values of [t]. *)
Definition describes (item : json) (t : SpotifyTrack.t) : Prop :=
  exists m artists album urls,
    item = JDict m
    /\ lookup "id" m = Some (JStr (SpotifyTrack.id t))
    /\ lookup "name" m = Some (JStr (SpotifyTrack.name t))
    /\ lookup "artists" m = Some (JList artists)
    /\ Forall2 names_artist artists (SpotifyTrack.artists t)
    /\ lookup "album" m = Some (JDict album)
    /\ lookup "name" album = Some (JStr (SpotifyTrack.album t))
    /\ lookup "duration_ms" m = Some (JInt (SpotifyTrack.duration_ms t))
    /\ lookup "uri" m = Some (JStr (SpotifyTrack.uri t))
    /\ dict_get m "external_urls" (JDict []) = JDict urls
    /\ dict_get urls "spotify" JNull = optional_str (SpotifyTrack.external_url t)
    /\ dict_get m "preview_url" JNull = optional_str (SpotifyTrack.preview_url t).

(** The call [search_tracks] makes. *)
Definition search_request (E : Env) (token query limit : json) : HttpRequest :=
  {| method := "GET";
     url := SPOTIFY_API_BASE ++ "/search";
     headers := get_auth_header E token;
     params := Some (JDict [("q", query); ("type", JStr "track"); ("limit", limit)]);
     json_data := None;
     data := None |}.

(** The call [get_user_playlists] makes. *)
Definition playlists_request (E : Env) (token limit : json) : HttpRequest :=
  {| method := "GET";
     url := SPOTIFY_API_BASE ++ "/me/playlists";
     headers := get_auth_header E token;
     params := Some (JDict [("limit", limit)]);
     json_data := None;
     data := None |}.

(** A call with the bearer [token] and no query. *)
Definition api_call (E : Env) (token : json) (verb endpoint : string)
  (payload : option json) : HttpRequest :=
  {| method := verb;
     url := SPOTIFY_API_BASE ++ endpoint;
     headers := get_auth_header E token;
     params := None;
     json_data := payload;
     data := None |}.

Definition no_active_device : string :=
  "No active Spotify device found. Please open Spotify on one of your devices first.".

(** The user has a record whose token is fresh and not empty. *)
Definition holds_fresh_token (w : World) (uid : json) (r : TokenRecord) : Prop :=
  spotify_tokens w uid = Some r /\ now w < expires_at r
  /\ truthy (access_token r) = true.

(** The five playback commands: the action, the verb and endpoint it
    is sent to, and the confirmation shown when it went through. *)
Definition playback_commands : list (string * (string * string * string)) :=
  [("play", ("PUT", "/me/player/play", "▶️ Resumed playback"));
   ("pause", ("PUT", "/me/player/pause", "⏸️ Paused playback"));
   ("next", ("POST", "/me/player/next", "⏭️ Skipped to next track"));
   ("skip", ("POST", "/me/player/next", "⏭️ Skipped to next track"));
   ("previous", ("POST", "/me/player/previous", "⏮️ Went to previous track"))].

(** The provider answers a search with status 200 and a body whose
    items describe [tracks], in that order. *)
Definition lists_tracks (resp : Response) (tracks : list SpotifyTrack.t) : Prop :=
  status_code resp = 200
  /\ exists body tracks_member items,
       content resp = Json (JDict body)
       /\ lookup "error" body = None
       /\ lookup "tracks" body = Some (JDict tracks_member)
       /\ lookup "items" tracks_member = Some (JList items)
       /\ Forall2 describes items tracks.

(** The provider answers with a success status other than 204 and the
    JSON object [body], which has no [error] member. *)
Definition answers_object (resp : Response) (body : list (string * json)) : Prop :=
  status_code resp < 400 /\ status_code resp <> 204
  /\ content resp = Json (JDict body) /\ lookup "error" body = None.

(** Reading a query string back, as
    [urllib.parse.parse_qsl(query, keep_blank_values=True)] does: the
    value of a hexadecimal digit, [unquote_plus], the parts between two
    separators (an empty part is skipped), and a part cut at its first
    [=]. *)
Definition hex_value (c : ascii) : option nat :=
  let n := nat_of_ascii c in
  if ((48 <=? n) && (n <=? 57))%nat then Some (n - 48)%nat
  else if ((65 <=? n) && (n <=? 70))%nat then Some (n - 55)%nat
  else if ((97 <=? n) && (n <=? 102))%nat then Some (n - 87)%nat
  else None.

Fixpoint unquote_plus (s : string) : string :=
  match s with
  | EmptyString => ""
  | String c rest =>
      if Ascii.eqb c "+" then String " " (unquote_plus rest)
      else if Ascii.eqb c "%" then
        match rest with
        | String h (String l rest') =>
            match hex_value h, hex_value l with
            | Some a, Some b =>
                String (ascii_of_nat (16 * a + b)) (unquote_plus rest')
            | _, _ => String c (unquote_plus rest)
            end
        | _ => String c (unquote_plus rest)
        end
      else String c (unquote_plus rest)
  end.

Fixpoint split_on (sep : ascii) (s : string) : list string :=
  match s with
  | EmptyString => [""]
  | String c s' =>
      if Ascii.eqb c sep then "" :: split_on sep s'
      else match split_on sep s' with
           | part :: parts => String c part :: parts
           | [] => [String c ""]
           end
  end.

Fixpoint cut_at (sep : ascii) (s : string) : string * string :=
  match s with
  | EmptyString => ("", "")
  | String c s' =>
      if Ascii.eqb c sep then ("", s')
      else let (before, after) := cut_at sep s' in (String c before, after)
  end.

Definition parse_qsl (query : string) : list (string * string) :=
  map (fun part => let (k, v) := cut_at "=" part in (unquote_plus k, unquote_plus v))
      (filter (fun part => negb (String.eqb part "")) (split_on "&" query)).

(** No byte of [s] is [sep]. *)
Fixpoint free_of (sep : ascii) (s : string) : bool :=
  match s with
  | EmptyString => true
  | String c s' => negb (Ascii.eqb c sep) && free_of sep s'
  end.

(** The answer of [check_setup]. *)
Definition setup_completed (completed : bool) : Reply :=
  JSONBody (JDict [("is_setup_completed", JBool completed)]).

(** The handler redirects: it neither renders an error page nor
    raises. *)
Definition redirects (r : res Reply) : bool :=
  match r with
  | Ok (RedirectResponse _) => true
  | _ => false
  end.

(** The rendering the spec describes: the minutes [ms // 60000] in
    decimal, a colon, and the seconds [(ms % 60000) // 1000] as two
    decimal digits. *)
Definition minutes_seconds (ms : Z) : string :=
  let minutes := ms / 60000 in
  let seconds := (ms mod 60000) / 1000 in
  str_int minutes ++ ":" ++ digit (seconds / 10) ++ digit (seconds mod 10).

(** The line of a search result for the track [t], numbered [i]. *)
Definition song_line (i : Z) (t : SpotifyTrack.t) : string :=
  str_int i ++ ". **" ++ SpotifyTrack.name t ++ "** by "
    ++ join ", " (SpotifyTrack.artists t)
    ++ " (" ++ minutes_seconds (SpotifyTrack.duration_ms t) ++ ") - Album: "
    ++ SpotifyTrack.album t.

(** The provider answers with a player state: a track with its name,
    artists, album and length, and how far into it the player is
    ([progress_ms], 0 when the answer gives none). *)
Definition plays (resp : Response) (is_playing : json) (progress_ms duration_ms : Z)
  (name album_name : json) (artists : list string) : Prop :=
  exists body item artist_items album,
    answers_object resp body
    /\ lookup "item" body = Some (JDict item)
    /\ dict_get body "is_playing" (JBool false) = is_playing
    /\ dict_get body "progress_ms" (JInt 0) = JInt progress_ms
    /\ lookup "artists" item = Some (JList artist_items)
    /\ Forall2 names_artist artist_items artists
    /\ lookup "duration_ms" item = Some (JInt duration_ms)
    /\ lookup "name" item = Some name
    /\ lookup "album" item = Some (JDict album)
    /\ lookup "name" album = Some album_name.

(** What a tool run has changed, whatever it answered. *)
Definition tool_touches_only (run : Request -> World -> ChatToolResponse * World)
  (request : Request) (w : World) : Prop :=
  exists n, touches_only (request_uid request) n w (snd (run request w)).

(** * Properties *)

(** ** Rendering of durations *)

Lemma parse_str_int (n : Z) : parse_int (str_int n) = Some n.
Proof.
  unfold parse_int, str_int.
  rewrite NilZero.isi.
  - simpl. now rewrite DecimalZ.of_to.
  - destruct n as [|p|p]; simpl; try discriminate.
    intros H. injection H as H. revert H. apply DecimalPos.Unsigned.to_uint_nonnil.
  - destruct n as [|p|p]; simpl; try discriminate.
    intros H. injection H as H. revert H. apply DecimalPos.Unsigned.to_uint_nonnil.
Qed.

Lemma format_02d_two_digits (n : nat) :
  (n < 60)%nat ->
  format_02d (Z.of_nat n) = digit (Z.of_nat n / 10) ++ digit (Z.of_nat n mod 10).
Proof.
  intros H.
  do 60 (destruct n as [|n]; [reflexivity|]).
  lia.
Qed.

Lemma seconds_range (ms : Z) : 0 <= (ms mod 60000) / 1000 <= 59.
Proof.
  pose proof (Z.mod_pos_bound ms 60000 ltac:(lia)) as B.
  split.
  - apply Z.div_pos; lia.
  - apply Z.lt_succ_r. apply Z.div_lt_upper_bound; lia.
Qed.

(** ** Checks that precede every provider call *)

Ltac unfold_handler :=
  unfold try_except_Exception, bind, lift, ret, get_spotify_tokens, body_of;
  cbn [request_json py_get].

Section Guards.

Context (E : Env).
Variables (m : list (string * json)) (uid : json) (w : World).
Hypothesis Huid : dict_get m "uid" JNull = uid.
Hypothesis Htruthy : truthy uid = true.

Lemma search_songs_not_connected :
  spotify_tokens w uid = None ->
  tool_search_songs E (body_of m) w
  = (Error (if truthy (dict_get m "query" (JStr ""))
            then not_connected
            else "Search query is required"), w).
Proof.
  intros Hnone. unfold tool_search_songs. unfold_handler.
  rewrite Huid, Htruthy. cbn [negb].
  destruct (truthy (dict_get m "query" (JStr ""))); cbn [negb]; [|reflexivity].
  now rewrite Hnone.
Qed.

Lemma add_to_playlist_not_connected :
  spotify_tokens w uid = None ->
  tool_add_to_playlist E (body_of m) w
  = (Error (if truthy (dict_get m "song_name" (JStr ""))
            then not_connected
            else "Song name is required"), w).
Proof.
  intros Hnone. unfold tool_add_to_playlist. unfold_handler.
  rewrite Huid, Htruthy. cbn [negb].
  destruct (truthy (dict_get m "song_name" (JStr ""))); cbn [negb]; [|reflexivity].
  now rewrite Hnone.
Qed.

Lemma create_playlist_not_connected :
  spotify_tokens w uid = None ->
  tool_create_playlist E (body_of m) w
  = (Error (if truthy (dict_get m "name" (JStr ""))
            then not_connected
            else "Playlist name is required"), w).
Proof.
  intros Hnone. unfold tool_create_playlist. unfold_handler.
  rewrite Huid, Htruthy. cbn [negb].
  destruct (truthy (dict_get m "name" (JStr ""))); cbn [negb]; [|reflexivity].
  now rewrite Hnone.
Qed.

Lemma get_playlists_not_connected :
  spotify_tokens w uid = None ->
  tool_get_playlists E (body_of m) w = (Error not_connected, w).
Proof.
  intros Hnone. unfold tool_get_playlists. unfold_handler.
  rewrite Huid, Htruthy. cbn [negb]. now rewrite Hnone.
Qed.

Lemma get_now_playing_not_connected :
  spotify_tokens w uid = None ->
  tool_get_now_playing E (body_of m) w = (Error not_connected, w).
Proof.
  intros Hnone. unfold tool_get_now_playing. unfold_handler.
  rewrite Huid, Htruthy. cbn [negb]. now rewrite Hnone.
Qed.

Lemma play_song_not_connected :
  spotify_tokens w uid = None ->
  tool_play_song E (body_of m) w
  = (Error (if truthy (dict_get m "song_name" (JStr ""))
            then not_connected
            else "Song name is required"), w).
Proof.
  intros Hnone. unfold tool_play_song. unfold_handler.
  rewrite Huid, Htruthy. cbn [negb].
  destruct (truthy (dict_get m "song_name" (JStr ""))); cbn [negb]; [|reflexivity].
  now rewrite Hnone.
Qed.

Lemma get_recommendations_not_connected :
  spotify_tokens w uid = None ->
  tool_get_recommendations E (body_of m) w = (Error not_connected, w).
Proof.
  intros Hnone. unfold tool_get_recommendations. unfold_handler.
  rewrite Huid, Htruthy. cbn [negb]. now rewrite Hnone.
Qed.

(** The action check of [tool_control_playback] comes after the uid
    check and before the credential check. *)
Lemma control_playback_guards (a : string) :
  dict_get m "action" (JStr "") = JStr a ->
  tool_control_playback E (body_of m) w
  = if accepted_action (lower E a)
    then match spotify_tokens w uid with
         | None => (Error not_connected, w)
         | Some _ =>
             tool_control_playback E (body_of m) w
         end
    else (Error invalid_action, w).
Proof.
  intros Ha.
  destruct (accepted_action (lower E a)) eqn:Hacc.
  - destruct (spotify_tokens w uid) eqn:Htok; [reflexivity|].
    unfold tool_control_playback. unfold_handler.
    rewrite Huid, Ha, Htruthy. cbn [py_lower negb].
    rewrite Hacc. cbn [negb]. now rewrite Htok.
  - unfold tool_control_playback. unfold_handler.
    rewrite Huid, Ha, Htruthy. cbn [py_lower negb].
    now rewrite Hacc.
Qed.

(** An action that is not a str makes [.lower()] raise. *)
Lemma control_playback_action_not_str :
  (forall a, dict_get m "action" (JStr "") <> JStr a) ->
  tool_control_playback E (body_of m) w
  = (Error ("Playback control failed: " ++ exc_str E AttributeError), w).
Proof.
  intros Hno. unfold tool_control_playback. unfold_handler.
  rewrite Huid.
  destruct (dict_get m "action" (JStr "")) eqn:Ha; try reflexivity.
  now elim (Hno s).
Qed.

End Guards.

Lemma control_playback_without_uid (E : Env) (m : list (string * json))
  (a : string) (w : World) :
  truthy (body_uid m) = false ->
  body_action m = JStr a ->
  tool_control_playback E (body_of m) w = (Error "User ID is required", w).
Proof.
  unfold body_uid, body_action. intros Hu Ha.
  unfold tool_control_playback. unfold_handler.
  rewrite Ha. cbn [py_lower]. now rewrite Hu.
Qed.

Lemma refuses_with (run : World -> ChatToolResponse * World) (w : World)
  (inputs_in_order : Prop) (text : string) :
  run w = (Error text, w) ->
  (inputs_in_order -> text = not_connected) ->
  refuses run w inputs_in_order.
Proof.
  intros Hrun Htext. unfold refuses. rewrite Hrun. cbn [fst snd].
  repeat split; try discriminate.
  intros H. now rewrite (Htext H).
Qed.

(** C3 (amended): for every request body with a non-empty uid that has
    no credential record, each of the eight chat tools answers with the
    error field populated and the result field empty, sending nothing;
    the error is the connect-your-account message whenever the inputs
    the tool checks before the credentials are in order (a non-empty
    query, song name or playlist name, an accepted action), and three
    tools check nothing before. *)
Theorem tools_without_credentials (E : Env) (m : list (string * json)) (w : World) :
  truthy (body_uid m) = true ->
  spotify_tokens w (body_uid m) = None ->
  refuses (tool_search_songs E (body_of m)) w
          (truthy (dict_get m "query" (JStr "")) = true)
  /\ refuses (tool_add_to_playlist E (body_of m)) w
             (truthy (dict_get m "song_name" (JStr "")) = true)
  /\ refuses (tool_create_playlist E (body_of m)) w
             (truthy (dict_get m "name" (JStr "")) = true)
  /\ refuses (tool_get_playlists E (body_of m)) w True
  /\ refuses (tool_get_now_playing E (body_of m)) w True
  /\ refuses (tool_control_playback E (body_of m)) w
             (exists a, body_action m = JStr a /\ accepted_action (lower E a) = true)
  /\ refuses (tool_play_song E (body_of m)) w
             (truthy (dict_get m "song_name" (JStr "")) = true)
  /\ refuses (tool_get_recommendations E (body_of m)) w True.
Proof.
  intros Ht Hnone. unfold body_uid in Ht, Hnone.
  refine (conj _ (conj _ (conj _ (conj _ (conj _ (conj _ (conj _ _))))))).
  - eapply refuses_with.
    + exact (@search_songs_not_connected E m _ w eq_refl Ht Hnone).
    + now intros ->.
  - eapply refuses_with.
    + exact (@add_to_playlist_not_connected E m _ w eq_refl Ht Hnone).
    + now intros ->.
  - eapply refuses_with.
    + exact (@create_playlist_not_connected E m _ w eq_refl Ht Hnone).
    + now intros ->.
  - eapply refuses_with.
    + exact (@get_playlists_not_connected E m _ w eq_refl Ht Hnone).
    + reflexivity.
  - eapply refuses_with.
    + exact (@get_now_playing_not_connected E m _ w eq_refl Ht Hnone).
    + reflexivity.
  - destruct (body_action m) as [| | |a| |] eqn:Ha.
    4: { destruct (accepted_action (lower E a)) eqn:Hacc.
         - eapply refuses_with; [|reflexivity].
           rewrite (@control_playback_guards E m _ w eq_refl Ht a Ha).
           now rewrite Hacc, Hnone.
         - eapply refuses_with.
           + rewrite (@control_playback_guards E m _ w eq_refl Ht a Ha).
             now rewrite Hacc.
           + intros [a' [Ha' Hacc']]. injection Ha' as <-. congruence. }
    all: eapply refuses_with;
      [ apply (@control_playback_action_not_str E m _ w eq_refl);
        unfold body_action in Ha; intros a'; rewrite Ha; discriminate
      | intros [a' [Ha' _]]; discriminate ].
  - eapply refuses_with.
    + exact (@play_song_not_connected E m _ w eq_refl Ht Hnone).
    + now intros ->.
  - eapply refuses_with.
    + exact (@get_recommendations_not_connected E m _ w eq_refl Ht Hnone).
    + reflexivity.
Qed.

Lemma tools_without_credentials_witness :
  refuses (tool_get_playlists (environment working_provider)
             (body_of [("uid", JStr "u1")])) nobody_connected True.
Proof.
  exact (proj1 (proj2 (proj2 (proj2
    (tools_without_credentials (environment working_provider)
       [("uid", JStr "u1")] nobody_connected eq_refl eq_refl))))).
Defined.

(** C3, as first stated, fails: user "u1" has no credential record and
    sends a search without a query; the error is about the query, not
    about the account. *)
Lemma search_without_query_is_not_about_the_account :
  truthy (body_uid [("uid", JStr "u1")]) = true
  /\ spotify_tokens nobody_connected (body_uid [("uid", JStr "u1")]) = None
  /\ fst (tool_search_songs (environment working_provider)
            (body_of [("uid", JStr "u1")]) nobody_connected)
     = Error "Search query is required"
  /\ fst (tool_search_songs (environment working_provider)
            (body_of [("uid", JStr "u1")]) nobody_connected)
     <> Error not_connected.
Proof. repeat split; discriminate. Qed.

(** C8 (amended): for every request body whose action, lowercased, lies
    outside {play, pause, next, previous, skip}, [control_playback]
    sends nothing to the provider and answers with an error: the
    invalid-action error when the body carries a non-empty uid, and
    "User ID is required" otherwise. *)
Theorem control_playback_unknown_action (E : Env) (m : list (string * json))
  (a : string) (w : World) :
  body_action m = JStr a ->
  accepted_action (lower E a) = false ->
  tool_control_playback E (body_of m) w
  = (Error (if truthy (body_uid m) then invalid_action else "User ID is required"), w)
  /\ sent (snd (tool_control_playback E (body_of m) w)) = sent w.
Proof.
  intros Ha Hacc.
  assert (tool_control_playback E (body_of m) w
          = (Error (if truthy (body_uid m) then invalid_action
                    else "User ID is required"), w)) as ->.
  { destruct (truthy (body_uid m)) eqn:Ht.
    - unfold body_uid in Ht. rewrite (@control_playback_guards E m _ w eq_refl Ht a Ha). now rewrite Hacc.
    - now apply control_playback_without_uid with (a := a). }
  split; reflexivity.
Qed.

Lemma control_playback_unknown_action_witness :
  tool_control_playback (environment working_provider)
    (body_of [("uid", JStr "u1"); ("action", JStr "Shuffle")]) u1_connected
  = (Error invalid_action, u1_connected).
Proof.
  exact (proj1 (control_playback_unknown_action (environment working_provider)
                  [("uid", JStr "u1"); ("action", JStr "Shuffle")]
                  "Shuffle" u1_connected eq_refl eq_refl)).
Defined.

(** C8, as first stated, fails: a body with the unsupported action
    "shuffle" and no uid is answered "User ID is required", not with
    the invalid-action error. *)
Lemma shuffle_without_uid_is_not_invalid_action :
  body_action [("action", JStr "shuffle")] = JStr "shuffle"
  /\ accepted_action (lower (environment working_provider) "shuffle") = false
  /\ fst (tool_control_playback (environment working_provider)
            (body_of [("action", JStr "shuffle")]) nobody_connected)
     = Error "User ID is required"
  /\ fst (tool_control_playback (environment working_provider)
            (body_of [("action", JStr "shuffle")]) nobody_connected)
     <> Error invalid_action.
Proof. repeat split; discriminate. Qed.

(** C10: [control_playback] lowercases the action and checks it before
    it looks for a credential record: for every non-empty uid with no
    stored credentials, an action outside the accepted set gets the
    invalid-action message and not the connect-your-account message,
    which only an accepted action gets. *)
Theorem control_playback_checks_action_first (E : Env) (m : list (string * json))
  (a : string) (w : World) :
  truthy (body_uid m) = true ->
  spotify_tokens w (body_uid m) = None ->
  body_action m = JStr a ->
  fst (tool_control_playback E (body_of m) w)
  = Error (if accepted_action (lower E a) then not_connected else invalid_action)
  /\ invalid_action <> not_connected.
Proof.
  intros Ht Hnone Ha. unfold body_uid in Ht, Hnone. split; [|discriminate].
  rewrite (@control_playback_guards E m _ w eq_refl Ht a Ha), Hnone.
  now destruct (accepted_action (lower E a)).
Qed.

Lemma control_playback_checks_action_first_witness :
  fst (tool_control_playback (environment working_provider)
         (body_of [("uid", JStr "u2"); ("action", JStr "Shuffle")]) u1_connected)
  = Error invalid_action.
Proof.
  exact (proj1 (control_playback_checks_action_first (environment working_provider)
                  [("uid", JStr "u2"); ("action", JStr "Shuffle")]
                  "Shuffle" u1_connected eq_refl eq_refl eq_refl)).
Defined.

(** An action outside ASCII, with the case mappings of the examples:
    "SKIP", written with the Kelvin sign, lowers to "skip"; it is an
    accepted action, sent to the provider for a connected user and
    answered with the connect-your-account message for another. *)
Example kelvin_sign_skips :
  let E := environment working_provider in
  lower E "SKIP" = "skip"
  /\ tool_control_playback E
       (body_of [("uid", JStr "u1"); ("action", JStr "SKIP")]) u1_connected
     = (Result "⏭️ Skipped to next track",
        after_send u1_connected
          {| method := "POST";
             url := SPOTIFY_API_BASE ++ "/me/player/next";
             headers := [("Authorization", "Bearer token-1")];
             params := None; json_data := None; data := None |})
  /\ tool_control_playback E
       (body_of [("uid", JStr "u2"); ("action", JStr "SKIP")]) u1_connected
     = (Error not_connected, u1_connected).
Proof. repeat split. Qed.


(** ** The API client *)

Lemma authenticated_has_record {E : Env} {uid : json} {w : World} {token : json}
  {w1 : World} :
  authenticated E uid w token w1 -> spotify_tokens w uid <> None.
Proof.
  intros [Hget Htruthy] Hnone.
  unfold get_valid_access_token, bind, get_spotify_tokens in Hget.
  rewrite Hnone in Hget. cbn in Hget.
  injection Hget as <- _. discriminate.
Qed.

Set Implicit Arguments.

Section ApiClient.

Context (E : Env).
Variables (uid : json) (method endpoint : string) (params json_data : option json).
Variables (w w1 : World) (token : json) (req : HttpRequest).
Hypothesis Hauth : authenticated E uid w token w1.
Hypothesis Hreq :
  request_for E method (SPOTIFY_API_BASE ++ endpoint) (get_auth_header E token)
    params json_data = Some req.

#[local] Abbreviation call :=
  (spotify_api_request E uid method endpoint params json_data w).

Ltac enter_call :=
  unfold spotify_api_request, bind;
  rewrite (proj1 Hauth), (proj2 Hauth); cbn [negb];
  unfold try_except_RequestException; rewrite Hreq;
  unfold bind, send.

Lemma api_transport_failure (cause : string) :
  provider E (sent w1) req = Fails cause ->
  call = (Ok (error_dict (JStr ("Request failed: "
                                  ++ exc_str E (RequestException cause)))),
          after_send w1 req).
Proof. intros Hp. enter_call. now rewrite Hp. Qed.

Lemma api_no_content (r : Response) :
  provider E (sent w1) req = Answers r ->
  status_code r = 204 ->
  call = (Ok success_marker, after_send w1 req).
Proof. intros Hp Hs. enter_call. rewrite Hp, Hs. reflexivity. Qed.

Lemma api_error_status (r : Response) :
  provider E (sent w1) req = Answers r ->
  status_code r <> 204 ->
  400 <= status_code r ->
  readable_error_body (content r) ->
  call = (Ok (error_dict
                (match nested_message (content r) with
                 | Some message => message
                 | None => JStr ("API error: " ++ str_int (status_code r))
                 end)),
          after_send w1 req).
Proof.
  intros Hp H204 H400 Hbody. enter_call. rewrite Hp.
  apply Z.eqb_neq in H204. apply Z.leb_le in H400. rewrite H204, H400.
  unfold has_content, response_json, lift, ret.
  destruct (content r) as [|[| | | | |body]|]; cbn in Hbody; try contradiction.
  - reflexivity.
  - cbn [nested_message py_get]. unfold dict_get.
    destruct (lookup "error" body) as [[| | | | |inner]|]; try contradiction.
    + cbn [py_get]. unfold dict_get. now destruct (lookup "message" inner).
    + reflexivity.
Qed.

Lemma api_success_status (r : Response) :
  provider E (sent w1) req = Answers r ->
  status_code r <> 204 ->
  status_code r < 400 ->
  call = (Ok (match content r with
              | Empty => success_marker
              | Json j => j
              | NotJson => error_dict (JStr ("Request failed: "
                                               ++ exc_str E JSONDecodeError))
              end),
          after_send w1 req).
Proof.
  intros Hp H204 H400. enter_call. rewrite Hp.
  apply Z.eqb_neq in H204. apply Z.leb_gt in H400. rewrite H204, H400.
  unfold has_content, response_json, lift, ret.
  now destruct (content r).
Qed.

(** Whatever the provider does, the request goes out once. *)
Lemma api_request_goes_out : snd call = after_send w1 req.
Proof.
  enter_call.
  destruct (provider E (sent w1) req) as [r|cause]; [|reflexivity].
  destruct (status_code r =? 204); [reflexivity|].
  unfold has_content, response_json, lift, ret.
  destruct (400 <=? status_code r).
  - destruct (content r) as [|j|]; cbn; try reflexivity.
    destruct j as [| | | | |body]; cbn; try reflexivity.
    destruct (dict_get body "error" (JDict [])); reflexivity.
  - now destruct (content r).
Qed.

End ApiClient.

Unset Implicit Arguments.

Lemma api_unsupported_method (E : Env) (uid : json) (method endpoint : string)
  (params json_data : option json) (w w1 : World) (token : json) :
  authenticated E uid w token w1 ->
  request_for E method (SPOTIFY_API_BASE ++ endpoint) (get_auth_header E token)
    params json_data = None ->
  spotify_api_request E uid method endpoint params json_data w
  = (Ok (error_dict (JStr ("Unsupported HTTP method: " ++ method))), w1).
Proof.
  intros [Hget Htruthy] Hreq.
  unfold spotify_api_request, bind. rewrite Hget, Htruthy. cbn [negb].
  unfold try_except_RequestException. now rewrite Hreq.
Qed.

(** A verb outside ASCII, with the case mappings of the examples:
    "poſt", written with the long s, rises to "POST" and is sent as
    one. *)
Example long_s_posts :
  let E := environment working_provider in
  upper E "poſt" = "POST"
  /\ request_for E "poſt" (SPOTIFY_API_BASE ++ "/me/player/next")
       (get_auth_header E (JStr "token-1")) None None
     = Some {| method := "POST";
               url := SPOTIFY_API_BASE ++ "/me/player/next";
               headers := [("Authorization", "Bearer token-1")];
               params := None; json_data := None; data := None |}.
Proof. split; reflexivity. Qed.

(** C5 (amended): for every authenticated call, [spotify_api_request]
    returns without raising whenever a response of status >= 400 has
    no body or a JSON object body whose [error] member is absent or
    itself an object: an unsupported method gives the error
    "Unsupported HTTP method: ..."; a transport failure gives the error
    "Request failed: <details>"; status 204 gives the bare success
    marker; status >= 400 gives the error whose message is the
    provider's nested error message when present and
    "API error: <status>" otherwise; any other status gives a value. *)
Theorem api_client_returns (E : Env) (uid : json) (method endpoint : string)
  (params json_data : option json) (w w1 : World) (token : json) :
  authenticated E uid w token w1 ->
  let call := spotify_api_request E uid method endpoint params json_data w in
  match request_for E method (SPOTIFY_API_BASE ++ endpoint) (get_auth_header E token)
          params json_data with
  | None =>
      fst call = Ok (error_dict (JStr ("Unsupported HTTP method: " ++ method)))
  | Some req =>
      match provider E (sent w1) req with
      | Fails cause =>
          fst call = Ok (error_dict (JStr ("Request failed: "
                                             ++ exc_str E (RequestException cause))))
      | Answers r =>
          if status_code r =? 204 then fst call = Ok success_marker
          else if 400 <=? status_code r then
            readable_error_body (content r) ->
            fst call
            = Ok (error_dict
                    (match nested_message (content r) with
                     | Some message => message
                     | None => JStr ("API error: " ++ str_int (status_code r))
                     end))
          else exists j, fst call = Ok j
      end
  end.
Proof.
  intros Hauth call.
  destruct (request_for E _ _ _ _ _) as [req|] eqn:Hreq.
  - destruct (provider E (sent w1) req) as [r|cause] eqn:Hp.
    + destruct (status_code r =? 204) eqn:H204.
      * apply Z.eqb_eq in H204. unfold call.
        now rewrite (api_no_content _ _ _ _ Hauth Hreq Hp H204).
      * apply Z.eqb_neq in H204.
        destruct (400 <=? status_code r) eqn:H400.
        -- apply Z.leb_le in H400. intros Hbody. unfold call.
           now rewrite (api_error_status _ _ _ _ Hauth Hreq Hp H204 H400 Hbody).
        -- apply Z.leb_gt in H400. unfold call.
           rewrite (api_success_status _ _ _ _ Hauth Hreq Hp H204 H400).
           eexists. reflexivity.
    + unfold call. now rewrite (api_transport_failure _ _ _ _ Hauth Hreq Hp).
  - unfold call. now rewrite (api_unsupported_method _ _ _ _ _ _ _ _ _ Hauth Hreq).
Qed.

Lemma api_client_returns_witness :
  fst (spotify_api_request (environment working_provider) (JStr "u1")
         "get" "/nowhere" None None u1_connected)
  = Ok (error_dict (JStr "Not found")).
Proof.
  exact (api_client_returns (environment working_provider) (JStr "u1")
           "get" "/nowhere" None None u1_connected u1_connected
           (JStr "token-1") (conj eq_refl eq_refl) I).
Defined.

(** C5, as first stated, fails: user "u1" holds a valid token, the
    provider answers status 400 with the body
    {"error": "invalid_request", ...}, and [.get("message", ...)] on
    that str raises AttributeError, which the [except] clause does not
    catch. *)
Lemma api_client_raises_on_flat_error_body :
  authenticated (environment flat_error_provider) (JStr "u1") u1_connected
    (JStr "token-1") u1_connected
  /\ fst (spotify_api_request (environment flat_error_provider) (JStr "u1")
            "GET" "/me" None None u1_connected)
     = Raise AttributeError.
Proof. repeat split. Qed.

(** ** Playback control *)

Section NextTrack.

Context (E : Env).
Variables (m : list (string * json)) (a : string) (w w1 : World) (token : json).
Hypothesis Htruthy : truthy (body_uid m) = true.
Hypothesis Haction : body_action m = JStr a.
Hypothesis Hnext : lower E a = "skip" \/ lower E a = "next".
Hypothesis Hauth : authenticated E (body_uid m) w token w1.

#[local] Abbreviation next_call :=
  (spotify_api_request E (body_uid m) "POST" "/me/player/next" None None w).

(** Past its checks, the handler is the call of the next-track
    endpoint followed by the reading of its result. *)
Lemma control_playback_next_unfolded :
  tool_control_playback E (body_of m) w
  = match next_call with
    | (Ok result, w2) =>
        match py_in "error" result with
        | Ok true =>
            match py_get result "error" (JStr "") with
            | Ok message =>
                if contains "No active device" (py_str E message) then
                  (Error "No active Spotify device found. Please open Spotify on one of your devices first.", w2)
                else
                  match py_getitem result "error" with
                  | Ok message =>
                      (Error ("Playback control failed: " ++ py_str E message), w2)
                  | Raise e =>
                      (Error ("Playback control failed: " ++ exc_str E e), w2)
                  end
            | Raise e => (Error ("Playback control failed: " ++ exc_str E e), w2)
            end
        | Ok false => (Result skipped, w2)
        | Raise e => (Error ("Playback control failed: " ++ exc_str E e), w2)
        end
    | (Raise e, w2) => (Error ("Playback control failed: " ++ exc_str E e), w2)
    end.
Proof.
  pose proof (authenticated_has_record Hauth) as Hrecord.
  assert (Hacc : accepted_action (lower E a) = true)
    by (destruct Hnext as [-> | ->]; reflexivity).
  assert (Hroute : table_get endpoint_map (lower E a) = Ok ("/me/player/next", "POST"))
    by (destruct Hnext as [-> | ->]; reflexivity).
  assert (Hmessage : table_get action_messages (lower E a) = Ok skipped)
    by (destruct Hnext as [-> | ->]; reflexivity).
  unfold body_uid, body_action in *.
  unfold tool_control_playback. unfold_handler.
  rewrite Haction, Htruthy. cbn [py_lower negb].
  rewrite Hacc. cbn [negb].
  destruct (spotify_tokens w (dict_get m "uid" JNull)) eqn:Htok; [|congruence].
  rewrite Hroute. cbv beta iota.
  destruct (spotify_api_request _ _ _ _ _ _ _) as [[rslt|e] w2]; [|reflexivity].
  destruct (py_in "error" rslt) as [[|]|]; [| |reflexivity].
  - destruct (py_get rslt "error" (JStr "")) as [message|]; [|reflexivity].
    destruct (contains _ _); [reflexivity|].
    destruct (py_getitem rslt "error"); reflexivity.
  - now rewrite Hmessage.
Qed.

Lemma control_playback_next_world :
  snd (tool_control_playback E (body_of m) w) = snd next_call.
Proof.
  rewrite control_playback_next_unfolded.
  destruct next_call as [[result|e] w2]; [|reflexivity].
  destruct (py_in "error" result) as [[|]|]; try reflexivity.
  destruct (py_get result "error" (JStr "")) as [message|]; try reflexivity.
  destruct (contains _ _); try reflexivity.
  destruct (py_getitem result "error"); reflexivity.
Qed.

End NextTrack.

(** C7: for every authenticated user, [control_playback] with an action
    that reads "skip" and with one that reads "next" both send POST to
    the /me/player/next endpoint, as the one request after the token
    was obtained, and both answer "Skipped to next track" when that
    call succeeds, that is, when its result carries no error (status
    204 in particular). *)
Theorem skip_and_next_agree (E : Env) (m : list (string * json)) (a : string)
  (w w1 : World) (token : json) :
  truthy (body_uid m) = true ->
  body_action m = JStr a ->
  lower E a = "skip" \/ lower E a = "next" ->
  authenticated E (body_uid m) w token w1 ->
  let run := tool_control_playback E (body_of m) w in
  let call := spotify_api_request E (body_uid m) "POST" "/me/player/next"
                None None w in
  sent (snd run) = (sent w1 ++ [next_track_request E token])%list
  /\ (forall result w2,
        call = (Ok result, w2) -> py_in "error" result = Ok false ->
        run = (Result skipped, w2))
  /\ (forall r,
        provider E (sent w1) (next_track_request E token) = Answers r ->
        status_code r = 204 ->
        fst run = Result skipped).
Proof.
  intros Ht Ha Hnext Hauth run call.
  assert (Hreq : request_for E "POST" (SPOTIFY_API_BASE ++ "/me/player/next")
                   (get_auth_header E token) None None
                 = Some (next_track_request E token)) by reflexivity.
  pose proof (control_playback_next_unfolded E m a w w1 token Ht Ha Hnext Hauth) as Hrun.
  fold run in Hrun. fold call in Hrun.
  split; [|split].
  - unfold run. rewrite (control_playback_next_world E m a w w1 token Ht Ha Hnext Hauth).
    now rewrite (api_request_goes_out _ _ _ _ Hauth Hreq).
  - intros result w2 Hcall Hno. rewrite Hrun, Hcall, Hno. reflexivity.
  - intros r Hp H204. rewrite Hrun. unfold call.
    rewrite (api_no_content _ _ _ _ Hauth Hreq Hp H204). reflexivity.
Qed.

Lemma skip_and_next_agree_witness :
  sent (snd (tool_control_playback (environment working_provider)
               (body_of [("uid", JStr "u1"); ("action", JStr "Skip")])
               u1_connected))
  = [next_track_request (environment working_provider) (JStr "token-1")].
Proof.
  exact (proj1 (skip_and_next_agree (environment working_provider)
                  [("uid", JStr "u1"); ("action", JStr "Skip")] "Skip"
                  u1_connected u1_connected (JStr "token-1")
                  eq_refl eq_refl (or_introl eq_refl) (conj eq_refl eq_refl))).
Defined.

(** ** Playlists *)

(** [SpotifyPlaylist] declares [canEdit: bool] with no default: a
    construction that passes no [canEdit] raises. *)
Lemma SpotifyPlaylist_needs_canEdit (kw : kwargs) :
  lookup "canEdit" kw = None ->
  SpotifyPlaylist.new kw = Raise (ValidationError "SpotifyPlaylist").
Proof.
  intros Hnone. unfold SpotifyPlaylist.new.
  replace (required kw "canEdit" a_bool) with (@None bool)
    by (unfold required; now rewrite Hnone).
  destruct (required kw "id" a_str), (required kw "name" a_str),
    (defaulted kw "description" a_optional_str (Some "")),
    (required kw "owner" a_str), (required kw "tracks_total" a_int),
    (required kw "public" a_bool), (required kw "uri" a_str);
    reflexivity.
Qed.

(** No item of a playlist listing becomes a [SpotifyPlaylist]: the
    source passes eight keyword arguments, [canEdit] not among them. *)
Lemma playlist_of_item_raises (item : json) :
  exists e, playlist_of_item item = Raise e.
Proof.
  unfold playlist_of_item, bindR.
  repeat match goal with
         | |- exists e, match ?r with Ok _ => _ | Raise _ => _ end = _ =>
             destruct r; [|eexists; reflexivity]
         end.
  rewrite SpotifyPlaylist_needs_canEdit by reflexivity.
  eexists; reflexivity.
Qed.

Lemma mapR_playlist_of_item (items : list json) (playlists : list SpotifyPlaylist.t) :
  mapR playlist_of_item items = Ok playlists -> items = [] /\ playlists = [].
Proof.
  destruct items as [|item items]; cbn.
  - intros H. injection H as <-. now split.
  - destruct (playlist_of_item_raises item) as [e ->]. discriminate.
Qed.

Lemma get_user_playlists_result (E : Env) (uid limit : json) (w : World)
  (playlists : list SpotifyPlaylist.t) :
  fst (get_user_playlists E uid limit w) = Ok playlists -> playlists = [].
Proof.
  unfold get_user_playlists, bind, lift, ret.
  destruct (spotify_api_request _ _ _ _ _ _ _) as [[rslt|e] w2]; [|discriminate].
  destruct (py_in "error" rslt) as [[|]|]; try discriminate.
  - cbn [fst]. intros H. now injection H as <-.
  - destruct (py_get rslt "items" (JList [])) as [items|]; [|discriminate].
    destruct (py_iter items) as [elems|]; [|discriminate].
    destruct (mapR playlist_of_item elems) as [ps|] eqn:Hmap; [|discriminate].
    cbn [fst]. intros H. injection H as <-.
    now destruct (mapR_playlist_of_item _ _ Hmap).
Qed.

Lemma find_playlist_by_name_result (E : Env) (uid name : json) (w : World)
  (found : option SpotifyPlaylist.t) :
  fst (find_playlist_by_name E uid name w) = Ok found -> found = None.
Proof.
  unfold find_playlist_by_name, bind, lift, ret.
  destruct (get_user_playlists E uid (JInt 50) w) as [[ps|e] w2] eqn:Hget;
    [|discriminate].
  rewrite (get_user_playlists_result E uid (JInt 50) w ps) by now rewrite Hget.
  destruct (py_lower E name); [|discriminate].
  cbn [fst]. intros H. now injection H as <-.
Qed.

(** [get_user_playlists] returns no playlist: it returns the empty list
    or raises. *)
Lemma get_user_playlists_lists_nothing (E : Env) (uid limit : json) (w w' : World)
  (playlists : list SpotifyPlaylist.t) :
  get_user_playlists E uid limit w = (Ok playlists, w') -> playlists = [].
Proof.
  unfold get_user_playlists, bind, lift, ret.
  destruct (spotify_api_request _ _ _ _ _ _ _) as [[rslt|e] w2]; [|discriminate].
  destruct (py_in "error" rslt) as [[|]|]; try discriminate.
  - intros H. now injection H as <- _.
  - destruct (py_get rslt "items" (JList [])) as [items|]; [|discriminate].
    destruct (py_iter items) as [elems|]; [|discriminate].
    destruct (mapR playlist_of_item elems) as [ps|] eqn:Hmap; [|discriminate].
    intros H. injection H as <- _.
    now destruct (mapR_playlist_of_item _ _ Hmap).
Qed.

Lemma get_user_playlists_lists_nothing_witness :
  get_user_playlists (environment working_provider) (JStr "u2") (JInt 20) u1_connected
  = (Ok [], u1_connected)
  /\ @nil SpotifyPlaylist.t = [].
Proof.
  split; [reflexivity|].
  exact (get_user_playlists_lists_nothing (environment working_provider)
           (JStr "u2") (JInt 20) u1_connected u1_connected [] eq_refl).
Defined.

(** The second half of C2, where the API client returns its error
    shape: for a user whose token the client holds, a transport failure
    of the listing call, or an answer with a status of 400 or more and
    a readable error body, makes [get_user_playlists] return the empty
    list; the listing call is the only request sent. *)
Lemma get_user_playlists_on_error (E : Env) (uid limit : json) (w w1 : World)
  (token : json) (outcome : HttpOutcome) :
  authenticated E uid w token w1 ->
  provider E (sent w1) (playlists_request E token limit) = outcome ->
  match outcome with
  | Fails _ => True
  | Answers resp => 400 <= status_code resp /\ readable_error_body (content resp)
  end ->
  get_user_playlists E uid limit w
  = (Ok [], after_send w1 (playlists_request E token limit)).
Proof.
  intros Hauth Hp Hbad.
  assert (Hreq : request_for E "GET" (SPOTIFY_API_BASE ++ "/me/playlists")
                   (get_auth_header E token)
                   (Some (JDict [("limit", limit)])) None
                 = Some (playlists_request E token limit)) by reflexivity.
  unfold get_user_playlists, bind, lift, ret.
  destruct outcome as [resp|cause].
  - destruct Hbad as [H400 Hbody].
    now rewrite (api_error_status _ _ _ _ Hauth Hreq Hp ltac:(lia) H400 Hbody).
  - now rewrite (api_transport_failure _ _ _ _ Hauth Hreq Hp).
Qed.

Lemma get_user_playlists_on_error_witness :
  get_user_playlists (environment no_device_provider) (JStr "u1") (JInt 20)
    u1_connected
  = (Ok [],
     after_send u1_connected
       (playlists_request (environment no_device_provider) (JStr "token-1")
          (JInt 20))).
Proof.
  exact (get_user_playlists_on_error (environment no_device_provider)
           (JStr "u1") (JInt 20) u1_connected u1_connected (JStr "token-1")
           (Answers
              {| status_code := 404;
                 content :=
                   Json (JDict [("error",
                                 JDict [("status", JInt 404);
                                        ("message",
                                         JStr "Player command failed: No active device found")])]) |})
           (conj eq_refl eq_refl) eq_refl ltac:(cbn; split; [lia | exact I])).
Defined.

(** [find_playlist_by_name] finds no playlist: it returns [None] or
    raises. *)
Lemma find_playlist_by_name_finds_nothing (E : Env) (uid name : json) (w w' : World)
  (found : option SpotifyPlaylist.t) :
  find_playlist_by_name E uid name w = (Ok found, w') -> found = None.
Proof.
  intros Hrun. apply (find_playlist_by_name_result E uid name w).
  now rewrite Hrun.
Qed.

Lemma find_playlist_by_name_finds_nothing_witness :
  find_playlist_by_name (environment working_provider) (JStr "u2") (JStr "Chill")
    u1_connected
  = (Ok None, u1_connected)
  /\ @None SpotifyPlaylist.t = None.
Proof.
  split; [reflexivity|].
  exact (find_playlist_by_name_finds_nothing (environment working_provider)
           (JStr "u2") (JStr "Chill") u1_connected u1_connected None eq_refl).
Defined.

(** [find] returns the first element that passes the test. *)
Lemma find_first {A} (f : A -> bool) (l : list A) :
  (exists x, In x l /\ f x = true) ->
  exists before x after,
    l = (before ++ x :: after)%list
    /\ f x = true
    /\ (forall y, In y before -> f y = false)
    /\ find f l = Some x.
Proof.
  intros [x0 [Hin Hx0]].
  induction l as [|x l IH]; [contradiction|].
  cbn [find]. destruct (f x) eqn:Hfx.
  - exists [], x, l.
    split; [reflexivity|]. split; [exact Hfx|]. split; [|reflexivity].
    intros y [].
  - destruct Hin as [-> | Hin]; [congruence|].
    destruct (IH Hin) as (before & x1 & after & -> & Hx1 & Hbefore & Hfind).
    exists (x :: before), x1, after.
    split; [reflexivity|]. split; [exact Hx1|]. split; [|exact Hfind].
    intros y [<- | Hy]; auto.
Qed.

(** The two loops themselves do what C4 says, on any list they are
    given, with the lowering of the interpreter ([lower E]): the first
    playlist whose lowered name equals the lowered query, if there is
    one, whatever playlists before it merely contain the query. *)
Lemma first_named_exact (E : Env) (q : string) (ps : list SpotifyPlaylist.t) :
  (exists p, In p ps /\ lower E (SpotifyPlaylist.name p) = q) ->
  exists before p after,
    ps = (before ++ p :: after)%list
    /\ lower E (SpotifyPlaylist.name p) = q
    /\ (forall p', In p' before -> lower E (SpotifyPlaylist.name p') <> q)
    /\ first_named E q ps = Some p.
Proof.
  intros [p0 [Hin Hname]].
  destruct (find_first (fun p => String.eqb (lower E (SpotifyPlaylist.name p)) q) ps)
    as (before & p & after & Hps & Hp & Hbefore & Hfind).
  { exists p0. split; [exact Hin|]. now apply String.eqb_eq. }
  exists before, p, after.
  split; [exact Hps|]. split; [now apply String.eqb_eq|]. split.
  - intros p' Hin'. apply String.eqb_neq. now apply Hbefore.
  - unfold first_named. now rewrite Hfind.
Qed.

(** The playlists "ÉTÉ" and "été" and the query "été": both names
    lower to the query. *)
Lemma first_named_exact_witness :
  exists before p after,
    [a_playlist "p5" "ÉTÉ"; a_playlist "p6" "été"]
    = (before ++ p :: after)%list
    /\ lower (environment working_provider) (SpotifyPlaylist.name p) = "été"
    /\ (forall p', In p' before ->
                   lower (environment working_provider) (SpotifyPlaylist.name p')
                   <> "été")
    /\ first_named (environment working_provider) "été"
         [a_playlist "p5" "ÉTÉ"; a_playlist "p6" "été"]
       = Some p.
Proof.
  exact (first_named_exact (environment working_provider) "été"
           [a_playlist "p5" "ÉTÉ"; a_playlist "p6" "été"]
           (ex_intro _ (a_playlist "p6" "été")
              (conj (or_intror (or_introl eq_refl)) eq_refl))).
Defined.

(** With no playlist whose lowered name equals the lowered query, the
    loops return the first playlist whose lowered name contains it,
    and none exactly when no lowered name contains it. *)
Lemma first_named_partial (E : Env) (q : string) (ps : list SpotifyPlaylist.t) :
  (forall p, In p ps -> lower E (SpotifyPlaylist.name p) <> q) ->
  first_named E q ps
  = find (fun p => contains q (lower E (SpotifyPlaylist.name p))) ps
  /\ (first_named E q ps = None <->
      forall p, In p ps -> contains q (lower E (SpotifyPlaylist.name p)) = false).
Proof.
  intros Hno. unfold first_named.
  assert (find (fun p => String.eqb (lower E (SpotifyPlaylist.name p)) q) ps = None)
    as ->.
  { induction ps as [|p ps IH]; [reflexivity|]. cbn [find].
    destruct (String.eqb_spec (lower E (SpotifyPlaylist.name p)) q) as [Heq|_].
    - elim (Hno p (or_introl eq_refl) Heq).
    - apply IH. intros p' Hin. apply Hno. now right. }
  split; [reflexivity|]. split.
  - intros Hfind p Hin.
    exact (find_none _ _ Hfind p Hin).
  - intros Hall. induction ps as [|p ps IH]; [reflexivity|]. cbn [find].
    rewrite (Hall p (or_introl eq_refl)).
    apply IH.
    + intros p' Hin. apply Hno. now right.
    + intros p' Hin. apply Hall. now right.
Qed.

(** The playlists "Road Trip" and "ÉTÉ 2024" and the query "été". *)
Lemma first_named_partial_witness :
  first_named (environment working_provider) "été"
    [a_playlist "p7" "Road Trip"; a_playlist "p9" "ÉTÉ 2024"]
  = find (fun p => contains "été"
                     (lower (environment working_provider) (SpotifyPlaylist.name p)))
         [a_playlist "p7" "Road Trip"; a_playlist "p9" "ÉTÉ 2024"].
Proof.
  refine (proj1 (first_named_partial (environment working_provider) "été"
                   [a_playlist "p7" "Road Trip"; a_playlist "p9" "ÉTÉ 2024"] _)).
  intros p [<- | [<- | []]]; discriminate.
Defined.

Ltac answered := intros H; injection H as <- _; reflexivity.

(** Every way [add_to_playlist] has to its provider call goes through
    a [SpotifyPlaylist]: the tool never answers with a result. *)
Lemma add_to_playlist_never_succeeds (E : Env) (request : Request) (w : World) :
  result (fst (tool_add_to_playlist E request w)) = None.
Proof.
  unfold tool_add_to_playlist, try_except_Exception.
  match goal with
  | |- context [match ?body w with _ => _ end] =>
      destruct (body w) as [[r|e] w'] eqn:Hrun
  end; [|reflexivity].
  cbn [fst]. revert Hrun. unfold bind, lift, ret.
  destruct (request_json request) as [body|]; [|discriminate].
  destruct (py_get body "uid" JNull) as [uid|]; [|discriminate].
  destruct (py_get body "song_name" (JStr "")) as [song_name|]; [|discriminate].
  destruct (py_get body "artist_name" (JStr "")) as [artist_name|]; [|discriminate].
  destruct (py_get body "playlist_name" JNull) as [playlist_name|]; [|discriminate].
  destruct (py_get body "playlist_id" JNull) as [playlist_id|]; [|discriminate].
  destruct (negb (truthy uid)); [answered|].
  destruct (negb (truthy song_name)); [answered|].
  unfold get_spotify_tokens.
  destruct (spotify_tokens w uid); [|answered].
  destruct (search_tracks E uid _ _ w) as [[tracks|e] w1]; [|discriminate].
  destruct tracks as [|track tracks]; [answered|].
  destruct (truthy playlist_id).
  - rewrite SpotifyPlaylist_needs_canEdit by reflexivity. discriminate.
  - destruct (truthy playlist_name).
    + destruct (find_playlist_by_name E uid playlist_name w1)
        as [[found|e] w2] eqn:Hfind; [|discriminate].
      rewrite (find_playlist_by_name_result E uid playlist_name w1 found)
        by now rewrite Hfind.
      answered.
    + unfold get_default_playlist.
      destruct (default_playlists w1 uid).
      * rewrite SpotifyPlaylist_needs_canEdit by reflexivity. discriminate.
      * answered.
Qed.

(** C1, on the code: user "u1" has a credential record and the default
    playlist {id: "p1", name: "Chill"}; the body names the song
    "Hello", which the provider finds, and gives no playlist.  The
    tool answers with an error, the [ValidationError] of the
    [SpotifyPlaylist] it builds for the default playlist, and the only
    request it has sent is the search: nothing goes to
    /playlists/p1/tracks. *)
Theorem add_to_default_playlist_fails :
  let E := environment working_provider in
  let run := tool_add_to_playlist E
               (body_of [("uid", JStr "u1"); ("song_name", JStr "Hello")])
               u1_connected in
  default_playlists u1_connected (JStr "u1")
  = Some {| default_id := "p1"; default_name := "Chill" |}
  /\ fst run = Error ("Failed to add song: "
                        ++ exc_str E (ValidationError "SpotifyPlaylist"))
  /\ map url (sent (snd run)) = [SPOTIFY_API_BASE ++ "/search"].
Proof. repeat split. Qed.

(** C2, on the code: the provider answers GET /me/playlists with status
    200 and two well-formed items; [get_user_playlists] raises the
    [ValidationError] of the first [SpotifyPlaylist] instead of
    returning two playlists. *)
Theorem get_user_playlists_raises_on_items :
  let E := environment working_provider in
  provider E [] {| method := "GET";
                   url := SPOTIFY_API_BASE ++ "/me/playlists";
                   headers := get_auth_header E (JStr "token-1");
                   params := Some (JDict [("limit", JInt 20)]);
                   json_data := None;
                   data := None |}
  = ok_json (JDict [("items", JList [playlist_item "p7" "Road Trip";
                                     playlist_item "p8" "Trip Hop"])])
  /\ fst (get_user_playlists E (JStr "u1") (JInt 20) u1_connected)
     = Raise (ValidationError "SpotifyPlaylist").
Proof. repeat split. Qed.

(** C4, on the code: user "u1" has the playlists "Road Trip" and
    "Trip Hop"; looking for "Trip Hop" raises the [ValidationError] of
    [get_user_playlists] instead of returning the playlist. *)
Theorem find_playlist_by_name_raises :
  fst (find_playlist_by_name (environment working_provider)
         (JStr "u1") (JStr "Trip Hop") u1_connected)
  = Raise (ValidationError "SpotifyPlaylist").
Proof. reflexivity. Qed.

(** Given the two playlists themselves, the loops of
    [find_playlist_by_name] pick "Trip Hop" for the query "Trip Hop"
    and, with no exact match, the first playlist that contains the
    query. *)
Example first_named_trip_hop :
  let E := environment working_provider in
  first_named E (lower E "Trip Hop")
    [a_playlist "p7" "Road Trip"; a_playlist "p8" "Trip Hop"]
  = Some (a_playlist "p8" "Trip Hop")
  /\ first_named E (lower E "TRIP")
       [a_playlist "p7" "Road Trip"; a_playlist "p8" "Trip Hop"]
     = Some (a_playlist "p7" "Road Trip")
  /\ first_named E (lower E "jazz")
       [a_playlist "p7" "Road Trip"; a_playlist "p8" "Trip Hop"]
     = None.
Proof. repeat split. Qed.

(** Names outside ASCII, with the case mappings of the examples: the
    query "Été" finds "ÉTÉ" before "été", and "ÉTÉ 2024" when no name
    equals it. *)
Example first_named_accents :
  let E := environment working_provider in
  lower E "Été" = "été"
  /\ first_named E (lower E "Été") [a_playlist "p5" "ÉTÉ"; a_playlist "p6" "été"]
     = Some (a_playlist "p5" "ÉTÉ")
  /\ first_named E (lower E "Été")
       [a_playlist "p7" "Road Trip"; a_playlist "p9" "ÉTÉ 2024"]
     = Some (a_playlist "p9" "ÉTÉ 2024").
Proof. repeat split. Qed.

(** ** The schema of [create_playlist] *)

(** C6 (amended): when the input gives neither, the description field
    of the [CreatePlaylistRequest] schema defaults to the empty str and
    its public flag defaults to false. *)
Theorem create_playlist_request_defaults (kw : kwargs)
  (uid app_id tool_name name : string) :
  lookup "uid" kw = Some (JStr uid) ->
  lookup "app_id" kw = Some (JStr app_id) ->
  lookup "tool_name" kw = Some (JStr tool_name) ->
  lookup "name" kw = Some (JStr name) ->
  lookup "description" kw = None ->
  lookup "public" kw = None ->
  CreatePlaylistRequest.new kw
  = Ok {| CreatePlaylistRequest.uid := uid;
          CreatePlaylistRequest.app_id := app_id;
          CreatePlaylistRequest.tool_name := tool_name;
          CreatePlaylistRequest.name := name;
          CreatePlaylistRequest.description := Some "";
          CreatePlaylistRequest.public := false |}.
Proof.
  intros Hu Ha Ht Hn Hd Hp.
  unfold CreatePlaylistRequest.new, required, defaulted.
  now rewrite Hu, Ha, Ht, Hn, Hd, Hp.
Qed.

Lemma create_playlist_request_defaults_witness :
  CreatePlaylistRequest.new
    [("uid", JStr "u1"); ("app_id", JStr "spotify");
     ("tool_name", JStr "create_playlist"); ("name", JStr "Mix")]
  = Ok {| CreatePlaylistRequest.uid := "u1";
          CreatePlaylistRequest.app_id := "spotify";
          CreatePlaylistRequest.tool_name := "create_playlist";
          CreatePlaylistRequest.name := "Mix";
          CreatePlaylistRequest.description := Some "";
          CreatePlaylistRequest.public := false |}.
Proof.
  exact (create_playlist_request_defaults
           [("uid", JStr "u1"); ("app_id", JStr "spotify");
            ("tool_name", JStr "create_playlist"); ("name", JStr "Mix")]
           "u1" "spotify" "create_playlist" "Mix"
           eq_refl eq_refl eq_refl eq_refl eq_refl eq_refl).
Defined.

(** C6, as first stated, fails: a [CreatePlaylistRequest] built without
    a description has the description "", not "Created with Omi". *)
Lemma create_playlist_request_description_is_empty :
  exists r,
    CreatePlaylistRequest.new
      [("uid", JStr "u1"); ("app_id", JStr "spotify");
       ("tool_name", JStr "create_playlist"); ("name", JStr "Mix")] = Ok r
    /\ CreatePlaylistRequest.description r = Some ""
    /\ CreatePlaylistRequest.description r <> Some "Created with Omi".
Proof. eexists. repeat split. discriminate. Qed.

(** The handler does not use the schema: it reads the raw body, and
    there a missing description becomes "Created with Omi" and a
    missing public flag [False]. *)
Example create_playlist_handler_defaults :
  let E := environment working_provider in
  let run := tool_create_playlist E
               (body_of [("uid", JStr "u1"); ("name", JStr "Mix")]) u1_connected in
  map json_data (sent (snd run))
  = [None;
     Some (JDict [("name", JStr "Mix");
                  ("description", JStr "Created with Omi");
                  ("public", JBool false)])]
  /\ result (fst run) <> None.
Proof. split; [reflexivity | discriminate]. Qed.

(** ** Equality of JSON values *)

Section JsonInduction.

Variable P : json -> Prop.
Hypothesis HNull : P JNull.
Hypothesis HBool : forall b, P (JBool b).
Hypothesis HInt : forall n, P (JInt n).
Hypothesis HStr : forall s, P (JStr s).
Hypothesis HList : forall items, Forall P items -> P (JList items).
Hypothesis HDict :
  forall members, Forall (fun kv => P (snd kv)) members -> P (JDict members).

Fixpoint json_induction (j : json) : P j :=
  match j with
  | JNull => HNull
  | JBool b => HBool b
  | JInt n => HInt n
  | JStr s => HStr s
  | JList items =>
      HList items ((fix all (l : list json) : Forall P l :=
                match l with
                | [] => Forall_nil P
                | x :: l' => Forall_cons x (json_induction x) (all l')
                end) items)
  | JDict members =>
      HDict members ((fix all (l : list (string * json))
                : Forall (fun kv => P (snd kv)) l :=
                match l with
                | [] => Forall_nil _
                | kv :: l' =>
                    @Forall_cons _ (fun kv => P (snd kv)) kv l'
                      (json_induction (snd kv)) (all l')
                end) members)
  end.

End JsonInduction.

Lemma json_eqb_eq (a b : json) : json_eqb a b = true <-> a = b.
Proof.
  revert b. induction a as [|x|x|x|items IH|members IH] using json_induction;
    intros b; destruct b as [|y|y|y|items'|members']; cbn;
    try (split; (discriminate || reflexivity)).
  - rewrite Bool.eqb_true_iff. split; congruence.
  - rewrite Z.eqb_eq. split; congruence.
  - rewrite String.eqb_eq. split; congruence.
  - revert items'. induction IH as [|x items Hx _ IHl]; intros [|y items'];
      try (split; (discriminate || reflexivity)).
    rewrite Bool.andb_true_iff, Hx, IHl. split.
    + intros [-> H]. now injection H as ->.
    + intros H. injection H as -> ->. now split.
  - revert members'.
    induction IH as [|[k x] members Hx _ IHl]; intros [|[k' y] members'];
      try (split; (discriminate || reflexivity)).
    rewrite !Bool.andb_true_iff, String.eqb_eq. cbn [snd] in Hx.
    rewrite Hx, IHl. split.
    + intros [[-> ->] H]. now injection H as ->.
    + intros H. injection H as -> -> ->. now repeat split.
Qed.

Lemma json_eqb_refl (a : json) : json_eqb a a = true.
Proof. now apply json_eqb_eq. Qed.

Lemma json_eqb_neq (a b : json) : a <> b -> json_eqb a b = false.
Proof.
  intros Hne. destruct (json_eqb a b) eqn:H; [|reflexivity].
  now apply json_eqb_eq in H.
Qed.

(** ** Access tokens *)

Lemma touches_only_refl (uid : json) (w : World) : touches_only uid 0 w w.
Proof.
  repeat split; auto. exists []. split; [now rewrite app_nil_r | apply le_n].
Qed.

Lemma touches_only_trans {uid : json} {n1 n2 : nat} {w1 w2 w3 : World} :
  touches_only uid n1 w1 w2 -> touches_only uid n2 w2 w3 ->
  touches_only uid (n1 + n2) w1 w3.
Proof.
  intros ([l1 [S1 L1]] & T1 & D1 & N1) ([l2 [S2 L2]] & T2 & D2 & N2).
  repeat split.
  - exists (l1 ++ l2)%list. split.
    + now rewrite S2, S1, app_assoc.
    + rewrite length_app. lia.
  - intros u Hu. now rewrite T2, T1.
  - congruence.
  - congruence.
Qed.

Lemma touches_only_weaken {uid : json} {n n' : nat} {w w' : World} :
  (n <= n')%nat -> touches_only uid n w w' -> touches_only uid n' w w'.
Proof.
  intros Hle ([l [S L]] & T & D & N). repeat split; auto.
  exists l. split; [exact S | lia].
Qed.

Lemma touches_only_after_send (uid : json) (w : World) (req : HttpRequest) :
  touches_only uid 1 w (after_send w req).
Proof.
  repeat split; auto. exists [req]. split; [reflexivity | apply le_n].
Qed.

Lemma touches_only_store (uid access refresh : json) (expires : Z) (w : World) :
  touches_only uid 0 w (snd (store_spotify_tokens uid access refresh expires w)).
Proof.
  repeat split; auto.
  - exists []. split; [cbn; now rewrite app_nil_r | apply le_n].
  - intros u Hu. cbn. now rewrite (json_eqb_neq _ _ Hu).
Qed.

(** [send], with the request of [refresh_access_token] folded. *)
Lemma refresh_access_token_unfolded (E : Env) (refresh : json) (w : World) :
  refresh_access_token E refresh w
  = match provider E (sent w) (refresh_request E refresh) with
    | Answers r =>
        (if status_code r =? 200 then response_json r else Ok JNull,
         after_send w (refresh_request E refresh))
    | Fails cause =>
        (Raise (RequestException cause), after_send w (refresh_request E refresh))
    end.
Proof.
  unfold refresh_access_token, bind, send. fold (refresh_request E refresh).
  destruct (provider E (sent w) (refresh_request E refresh)) as [r|cause];
    [|reflexivity].
  now destruct (status_code r =? 200).
Qed.

(** A user with no credential record gets the error
    "User not authenticated with Spotify" from the API client, and
    nothing is sent. *)
Lemma api_request_without_record (E : Env) (uid : json) (method endpoint : string)
  (params json_data : option json) (w : World) :
  spotify_tokens w uid = None ->
  spotify_api_request E uid method endpoint params json_data w
  = (Ok (error_dict (JStr "User not authenticated with Spotify")), w).
Proof.
  intros Hnone.
  unfold spotify_api_request, get_valid_access_token, bind, get_spotify_tokens.
  now rewrite Hnone.
Qed.

Lemma api_request_without_record_witness :
  spotify_api_request (environment working_provider) (JStr "u2") "GET" "/me"
    None None u1_connected
  = (Ok (error_dict (JStr "User not authenticated with Spotify")), u1_connected).
Proof.
  exact (api_request_without_record (environment working_provider) (JStr "u2")
           "GET" "/me" None None u1_connected eq_refl).
Defined.

(** A stored token that has not expired is used as it is: no refresh,
    no change to the world. *)
Lemma fresh_token_is_used (E : Env) (uid : json) (w : World) (r : TokenRecord) :
  spotify_tokens w uid = Some r ->
  now w < expires_at r ->
  get_valid_access_token E uid w = (Ok (access_token r), w).
Proof.
  intros Hrec Hfresh.
  unfold get_valid_access_token, bind, get_spotify_tokens, is_token_expired, ret.
  apply Z.leb_gt in Hfresh.
  rewrite Hrec. cbv beta iota. now rewrite Hrec, Hfresh.
Qed.

(** With a stored, unexpired, non-empty token the API client sends one
    request and only that: it carries the stored token as the bearer,
    goes to the API base followed by the endpoint, and the store is
    left as it was. *)
Lemma api_request_with_fresh_token (E : Env) (uid : json) (method endpoint : string)
  (query payload : option json) (w : World) (r : TokenRecord) (req : HttpRequest) :
  spotify_tokens w uid = Some r ->
  now w < expires_at r ->
  truthy (access_token r) = true ->
  request_for E method (SPOTIFY_API_BASE ++ endpoint)
    (get_auth_header E (access_token r)) query payload = Some req ->
  snd (spotify_api_request E uid method endpoint query payload w)
  = after_send w req
  /\ headers req = [("Authorization", "Bearer " ++ py_str E (access_token r))]
  /\ url req = SPOTIFY_API_BASE ++ endpoint
  /\ params req = query.
Proof.
  intros Hrec Hfresh Htruthy Hreq.
  assert (Hauth : authenticated E uid w (access_token r) w)
    by (split; [now apply fresh_token_is_used | exact Htruthy]).
  split; [exact (api_request_goes_out _ _ _ _ Hauth Hreq)|].
  unfold request_for in Hreq.
  repeat match type of Hreq with
         | (if ?c then _ else _) = _ => destruct c
         end;
    try discriminate; injection Hreq as <-; repeat split.
Qed.

Lemma api_request_with_fresh_token_witness :
  snd (spotify_api_request (environment working_provider) (JStr "u1") "put"
         "/me/player/pause" None None u1_connected)
  = after_send u1_connected
      {| method := "PUT";
         url := SPOTIFY_API_BASE ++ "/me/player/pause";
         headers := [("Authorization", "Bearer token-1")];
         params := None; json_data := None; data := None |}.
Proof.
  exact (proj1 (api_request_with_fresh_token (environment working_provider)
                  (JStr "u1") "put" "/me/player/pause" None None u1_connected
                  {| access_token := JStr "token-1";
                     refresh_token := JStr "refresh-1";
                     expires_at := 2000 |}
                  _ eq_refl eq_refl eq_refl eq_refl)).
Defined.

Section Refresh.

Context (E : Env).
Variables (uid : json) (w : World) (r : TokenRecord).
Hypothesis Hrec : spotify_tokens w uid = Some r.
Hypothesis Hexpired : expires_at r <= now w.

#[local] Abbreviation refresh := (refresh_request E (refresh_token r)).

Lemma expired_token_is_refreshed :
  get_valid_access_token E uid w
  = match refresh_access_token E (refresh_token r) w with
    | (Ok new_tokens, w1) =>
        if truthy new_tokens then
          match py_get new_tokens "expires_in" (JInt 3600) with
          | Ok expires_in =>
              match py_int expires_in with
              | Ok n =>
                  match py_getitem new_tokens "access_token" with
                  | Ok access =>
                      match py_get new_tokens "refresh_token" (refresh_token r) with
                      | Ok refresh' =>
                          (Ok access,
                           snd (store_spotify_tokens uid access refresh'
                                  (now w1 + n) w1))
                      | Raise e => (Raise e, w1)
                      end
                  | Raise e => (Raise e, w1)
                  end
              | Raise e => (Raise e, w1)
              end
          | Raise e => (Raise e, w1)
          end
        else (Ok JNull, w1)
    | (Raise e, w1) => (Raise e, w1)
    end.
Proof.
  unfold get_valid_access_token, bind, get_spotify_tokens, is_token_expired.
  rewrite Hrec. cbv beta iota. rewrite Hrec.
  apply Z.leb_le in Hexpired. rewrite Hexpired.
  destruct (refresh_access_token E (refresh_token r) w) as [[new_tokens|e] w1];
    [|reflexivity].
  destruct (truthy new_tokens); [|reflexivity].
  unfold utcnow_timestamp, lift, ret.
  destruct (py_get new_tokens "expires_in" (JInt 3600)) as [expires_in|];
    [|reflexivity].
  destruct (py_int expires_in) as [n|]; [|reflexivity].
  destruct (py_getitem new_tokens "access_token") as [access|]; [|reflexivity].
  destruct (py_get new_tokens "refresh_token" (refresh_token r)); reflexivity.
Qed.

Lemma refresh_granted (resp : Response) (body : list (string * json))
  (access : json) (n : Z) :
  provider E (sent w) refresh = Answers resp ->
  status_code resp = 200 ->
  content resp = Json (JDict body) ->
  lookup "access_token" body = Some access ->
  py_int (dict_get body "expires_in" (JInt 3600)) = Ok n ->
  get_valid_access_token E uid w
  = (Ok access,
     snd (store_spotify_tokens uid access
            (dict_get body "refresh_token" (refresh_token r)) (now w + n)
            (after_send w refresh))).
Proof.
  intros Hp Hs Hc Haccess Hn.
  rewrite expired_token_is_refreshed, refresh_access_token_unfolded, Hp, Hs.
  unfold response_json. rewrite Hc. cbn [Z.eqb Pos.eqb].
  assert (truthy (JDict body) = true) as ->
    by (destruct body; [discriminate | reflexivity]).
  cbn [py_get py_getitem]. now rewrite Hn, Haccess.
Qed.

(** An expired token is refreshed: when the token endpoint answers 200
    with an object that has an access token, that token is returned
    and stored with the expiry [now + expires_in] (3600 when the answer
    gives none) and with the refresh token of the answer, or the old
    one when the answer gives none; one request went out, and no other
    user's record changed. *)
Lemma refresh_stores_new_tokens (resp : Response) (body : list (string * json))
  (access : json) (n : Z) :
  provider E (sent w) refresh = Answers resp ->
  status_code resp = 200 ->
  content resp = Json (JDict body) ->
  lookup "access_token" body = Some access ->
  py_int (dict_get body "expires_in" (JInt 3600)) = Ok n ->
  let run := get_valid_access_token E uid w in
  fst run = Ok access
  /\ spotify_tokens (snd run) uid
     = Some {| access_token := access;
               refresh_token := dict_get body "refresh_token" (refresh_token r);
               expires_at := now w + n |}
  /\ sent (snd run) = (sent w ++ [refresh])%list
  /\ (forall u, u <> uid -> spotify_tokens (snd run) u = spotify_tokens w u)
  /\ default_playlists (snd run) = default_playlists w.
Proof.
  intros Hp Hs Hc Haccess Hn run. unfold run.
  rewrite (refresh_granted resp body access n Hp Hs Hc Haccess Hn).
  cbn. rewrite json_eqb_refl. repeat split.
  intros u Hu. now rewrite (json_eqb_neq _ _ Hu).
Qed.


(** A refresh the token endpoint turns down (any status but 200) gives
    no token and leaves the stored record as it was. *)
Lemma refresh_rejected (resp : Response) :
  provider E (sent w) refresh = Answers resp ->
  status_code resp <> 200 ->
  get_valid_access_token E uid w = (Ok JNull, after_send w refresh).
Proof.
  intros Hp Hs.
  rewrite expired_token_is_refreshed, refresh_access_token_unfolded, Hp.
  apply Z.eqb_neq in Hs. now rewrite Hs.
Qed.

(** Then the API client answers "User not authenticated with Spotify":
    the refresh is the only request that went out, and the call itself
    is never made. *)
Lemma api_request_after_rejected_refresh (resp : Response)
  (method endpoint : string) (query payload : option json) :
  provider E (sent w) refresh = Answers resp ->
  status_code resp <> 200 ->
  spotify_api_request E uid method endpoint query payload w
  = (Ok (error_dict (JStr "User not authenticated with Spotify")),
     after_send w refresh).
Proof.
  intros Hp Hs. unfold spotify_api_request, bind.
  now rewrite (refresh_rejected resp Hp Hs).
Qed.

(** The refresh is made outside the [try] of the API client: when the
    token endpoint cannot be reached, the [RequestException] leaves
    [spotify_api_request]. *)
Lemma refresh_failure_leaves_api_request (cause : string)
  (method endpoint : string) (query payload : option json) :
  provider E (sent w) refresh = Fails cause ->
  spotify_api_request E uid method endpoint query payload w
  = (Raise (RequestException cause), after_send w refresh).
Proof.
  intros Hp. unfold spotify_api_request, bind.
  now rewrite expired_token_is_refreshed, refresh_access_token_unfolded, Hp.
Qed.

End Refresh.

Lemma refresh_stores_new_tokens_witness :
  spotify_tokens
    (snd (get_valid_access_token (environment refreshing_provider) (JStr "u1")
            u1_expired)) (JStr "u1")
  = Some {| access_token := JStr "token-2";
            refresh_token := JStr "refresh-1";
            expires_at := 6600 |}.
Proof.
  exact (proj1 (proj2
    (refresh_stores_new_tokens (environment refreshing_provider) (JStr "u1")
       u1_expired u1_record eq_refl ltac:(cbn; lia)
       {| status_code := 200;
          content := Json (JDict [("access_token", JStr "token-2");
                                  ("expires_in", JInt 3600)]) |}
       [("access_token", JStr "token-2"); ("expires_in", JInt 3600)]
       (JStr "token-2") 3600 eq_refl eq_refl eq_refl eq_refl eq_refl))).
Defined.


Lemma api_request_after_rejected_refresh_witness :
  spotify_api_request (environment rejecting_provider) (JStr "u1") "GET" "/me"
    None None u1_expired
  = (Ok (error_dict (JStr "User not authenticated with Spotify")),
     after_send u1_expired
       (refresh_request (environment rejecting_provider) (JStr "refresh-1"))).
Proof.
  exact (api_request_after_rejected_refresh (environment rejecting_provider)
           (JStr "u1") u1_expired u1_record eq_refl ltac:(cbn; lia)
           {| status_code := 400;
              content := Json (JDict [("error", JStr "invalid_grant")]) |}
           "GET" "/me" None None eq_refl ltac:(cbn; lia)).
Defined.

Lemma refresh_failure_leaves_api_request_witness :
  spotify_api_request (environment unreachable_provider) (JStr "u1") "GET" "/me"
    None None u1_expired
  = (Raise (RequestException "connection refused"),
     after_send u1_expired
       (refresh_request (environment unreachable_provider) (JStr "refresh-1"))).
Proof.
  exact (refresh_failure_leaves_api_request (environment unreachable_provider)
           (JStr "u1") u1_expired u1_record eq_refl ltac:(cbn; lia)
           "connection refused" "GET" "/me" None None eq_refl).
Defined.

(** ** What the API client leaves alone *)

Lemma get_valid_access_token_touches_only (E : Env) (uid : json) (w : World) :
  touches_only uid 1 w (snd (get_valid_access_token E uid w)).
Proof.
  destruct (spotify_tokens w uid) as [r|] eqn:Hrec.
  - destruct (Z.le_gt_cases (expires_at r) (now w)) as [Hexpired|Hfresh].
    + rewrite (expired_token_is_refreshed E uid w r Hrec Hexpired).
      rewrite refresh_access_token_unfolded.
      pose proof (touches_only_after_send uid w
                    (refresh_request E (refresh_token r))) as Hsent.
      destruct (provider E (sent w) _) as [resp|cause]; [|exact Hsent].
      destruct (if status_code resp =? 200 then response_json resp else Ok JNull)
        as [new_tokens|e]; [|exact Hsent].
      destruct (truthy new_tokens); [|exact Hsent].
      destruct (py_get new_tokens "expires_in" (JInt 3600)) as [expires_in|];
        [|exact Hsent].
      destruct (py_int expires_in) as [n|]; [|exact Hsent].
      destruct (py_getitem new_tokens "access_token") as [access|]; [|exact Hsent].
      destruct (py_get new_tokens "refresh_token" (refresh_token r)) as [refresh'|];
        [|exact Hsent].
      cbn [snd fst].
      apply (touches_only_trans (n1 := 1) (n2 := 0) Hsent).
      apply touches_only_store.
    + rewrite (fresh_token_is_used E uid w r Hrec) by lia.
      apply (touches_only_weaken (n := 0)); [lia | apply touches_only_refl].
  - unfold get_valid_access_token, bind, get_spotify_tokens. rewrite Hrec.
    apply (touches_only_weaken (n := 0)); [lia | apply touches_only_refl].
Qed.

(** Whatever the provider answers, one call of the API client sends at
    most two requests (a refresh and the call), may replace the
    credential record of its user, and changes nothing else: not
    another user's record, not a default playlist, not the clock. *)
Theorem api_request_touches_only (E : Env) (uid : json) (method endpoint : string)
  (query payload : option json) (w : World) :
  touches_only uid 2 w (snd (spotify_api_request E uid method endpoint query payload w)).
Proof.
  pose proof (get_valid_access_token_touches_only E uid w) as Hfirst.
  unfold spotify_api_request, bind.
  destruct (get_valid_access_token E uid w) as [[token|e] w1]; cbn [snd] in *.
  2: { apply (touches_only_weaken (n := 1)); [lia | exact Hfirst]. }
  destruct (negb (truthy token)).
  { apply (touches_only_weaken (n := 1)); [lia | exact Hfirst]. }
  apply (touches_only_trans (n1 := 1) (n2 := 1) Hfirst).
  unfold try_except_RequestException.
  destruct (request_for E _ _ _ _ _) as [req|].
  2: { apply (touches_only_weaken (n := 0)); [lia | apply touches_only_refl]. }
  unfold bind, send.
  pose proof (touches_only_after_send uid w1 req) as Hsent.
  destruct (provider E (sent w1) req) as [resp|cause]; [|exact Hsent].
  destruct (status_code resp =? 204); [exact Hsent|].
  unfold lift, ret.
  destruct (400 <=? status_code resp).
  - destruct (if has_content resp then response_json resp else Ok (JDict []))
      as [error_data|e]; [|destruct (is_RequestException e); exact Hsent].
    destruct (py_get error_data "error" (JDict [])) as [inner|e];
      [|destruct (is_RequestException e); exact Hsent].
    destruct (py_get inner "message" _) as [message|e];
      [|destruct (is_RequestException e)]; exact Hsent.
  - destruct (has_content resp); [|exact Hsent].
    destruct (response_json resp) as [j|e];
      [|destruct (is_RequestException e)]; exact Hsent.
Qed.

(** ** What every chat tool keeps to *)

Lemma one_sided_Result (text : string) : one_sided (Result text).
Proof. left. split; [discriminate | reflexivity]. Qed.

Lemma one_sided_Error (text : string) : one_sided (Error text).
Proof. right. split; [reflexivity | discriminate]. Qed.

Section Behaves.

Variable uid : json.

Lemma behaves_ret {A} (Q : A -> Prop) (a : A) : Q a -> behaves uid Q (ret a).
Proof.
  intros HQ w. split.
  - exists 0%nat. apply touches_only_refl.
  - intros a' H. now injection H as <-.
Qed.

Lemma behaves_lift {A} (r : res A) : behaves uid (fun _ => True) (lift r).
Proof.
  intros w. split; [|auto]. exists 0%nat. apply touches_only_refl.
Qed.

Lemma behaves_bind {A B} (Q1 : A -> Prop) (Q : B -> Prop) (m : M A) (k : A -> M B) :
  behaves uid Q1 m ->
  (forall a, Q1 a -> behaves uid Q (k a)) ->
  behaves uid Q (bind m k).
Proof.
  intros Hm Hk w. unfold bind.
  destruct (Hm w) as [[n Hn] HQ1].
  destruct (m w) as [[a|e] w1]; cbn [fst snd] in *.
  - destruct (Hk a (HQ1 a eq_refl) w1) as [[n' Hn'] HQ]. split.
    + exists (n + n')%nat. exact (touches_only_trans Hn Hn').
    + exact HQ.
  - split; [now exists n | discriminate].
Qed.

Lemma behaves_bind_ok {A B} (Q : B -> Prop) (a : A) (k : A -> M B) :
  behaves uid Q (k a) -> behaves uid Q (bind (lift (Ok a)) k).
Proof. intros Hk w. exact (Hk w). Qed.

Lemma behaves_weaken {A} (Q1 Q : A -> Prop) (m : M A) :
  (forall a, Q1 a -> Q a) -> behaves uid Q1 m -> behaves uid Q m.
Proof.
  intros Himp Hm w. destruct (Hm w) as [Hn HQ1]. split; auto.
Qed.

Lemma behaves_get_spotify_tokens (u : json) :
  behaves uid (fun _ => True) (get_spotify_tokens u).
Proof.
  intros w. split; [|auto]. exists 0%nat. apply touches_only_refl.
Qed.

Lemma behaves_get_default_playlist (u : json) :
  behaves uid (fun _ => True) (get_default_playlist u).
Proof.
  intros w. split; [|auto]. exists 0%nat. apply touches_only_refl.
Qed.

Context (E : Env).

Lemma behaves_api (method endpoint : string) (query payload : option json) :
  behaves uid (fun _ => True)
    (spotify_api_request E uid method endpoint query payload).
Proof.
  intros w. split; [|auto]. exists 2%nat. apply api_request_touches_only.
Qed.

End Behaves.

Ltac behaves_leaf :=
  first [ apply behaves_lift
        | apply behaves_api
        | apply behaves_get_spotify_tokens
        | apply behaves_get_default_playlist ].

Ltac behaves_step :=
  first
    [ apply behaves_ret;
      first [ exact I | apply one_sided_Result | apply one_sided_Error ]
    | apply behaves_bind_ok
    | eapply behaves_bind; [ solve [behaves_leaf] | intros ? _ ]
    | match goal with
      | |- behaves _ _ (if ?b then _ else _) => destruct b
      | |- behaves _ _ (match ?x with _ => _ end) => destruct x
      end ].

Lemma behaves_search_tracks (E : Env) (uid query limit : json) :
  behaves uid (fun _ => True) (search_tracks E uid query limit).
Proof.
  unfold search_tracks.
  eapply behaves_bind; [apply behaves_api | intros rslt _].
  eapply behaves_bind; [apply behaves_lift | intros has_error _].
  destruct has_error; [now apply behaves_ret|].
  repeat (eapply behaves_bind; [apply behaves_lift | intros ? _]).
  apply behaves_lift.
Qed.

Lemma behaves_get_user_playlists (E : Env) (uid limit : json) :
  behaves uid (fun playlists => playlists = []) (get_user_playlists E uid limit).
Proof.
  assert (Htouch : behaves uid (fun _ => True) (get_user_playlists E uid limit)).
  { unfold get_user_playlists.
    eapply behaves_bind; [apply behaves_api | intros rslt _].
    eapply behaves_bind; [apply behaves_lift | intros has_error _].
    destruct has_error; [now apply behaves_ret|].
    repeat (eapply behaves_bind; [apply behaves_lift | intros ? _]).
    apply behaves_lift. }
  intros w. split.
  - exact (proj1 (Htouch w)).
  - apply get_user_playlists_result.
Qed.

Lemma behaves_bind_raise (uid : json) {A B} (Q : B -> Prop) (e : exn) (k : A -> M B) :
  behaves uid Q (bind (lift (Raise e)) k).
Proof.
  intros w. split; [|discriminate]. exists 0%nat. apply touches_only_refl.
Qed.

Lemma behaves_find_playlist_by_name (E : Env) (uid name : json) :
  behaves uid (fun found => found = None) (find_playlist_by_name E uid name).
Proof.
  assert (Htouch : behaves uid (fun _ => True) (find_playlist_by_name E uid name)).
  { unfold find_playlist_by_name.
    eapply behaves_bind; [apply behaves_get_user_playlists | intros ps _].
    eapply behaves_bind; [apply behaves_lift | intros name_lower _].
    now apply behaves_ret. }
  intros w. split.
  - exact (proj1 (Htouch w)).
  - apply find_playlist_by_name_result.
Qed.

Lemma handles_try_except (uid : json) (body : M ChatToolResponse)
  (handler : exn -> ChatToolResponse) :
  behaves uid one_sided body ->
  (forall e, one_sided (handler e)) ->
  handles uid (try_except_Exception body handler).
Proof.
  intros Hbody Hhandler w. unfold try_except_Exception.
  destruct (Hbody w) as [Htouch Hone].
  destruct (body w) as [[r|e] w']; cbn [fst snd] in *; split; auto.
Qed.

Ltac tool_leaf :=
  first [ behaves_leaf
        | apply behaves_search_tracks
        | apply behaves_get_user_playlists
        | apply behaves_find_playlist_by_name ].

Ltac tool_step :=
  first
    [ apply behaves_ret;
      first [ exact I | apply one_sided_Result | apply one_sided_Error ]
    | apply behaves_bind_ok
    | apply behaves_bind_raise
    | eapply behaves_bind; [ solve [tool_leaf] | intros ? _ ]
    | match goal with
      | |- behaves _ _ (if ?b then _ else _) => destruct b
      | |- behaves _ _ (match ?x with _ => _ end) => destruct x
      end ].

(** Into a handler: the body parsed, the uid read. *)
Ltac enter_tool request :=
  apply handles_try_except; [|intros e; apply one_sided_Error];
  destruct request as [[body|e]]; unfold request_uid, body_uid;
  cbn [request_json]; [|apply behaves_bind_raise];
  apply behaves_bind_ok;
  destruct body; cbn [py_get]; try apply behaves_bind_raise.

Lemma search_songs_handles (E : Env) (request : Request) :
  handles (request_uid request) (tool_search_songs E request).
Proof. unfold tool_search_songs. enter_tool request. repeat tool_step. Qed.

Lemma create_playlist_handles (E : Env) (request : Request) :
  handles (request_uid request) (tool_create_playlist E request).
Proof. unfold tool_create_playlist. enter_tool request. repeat tool_step. Qed.

Lemma get_playlists_handles (E : Env) (request : Request) :
  handles (request_uid request) (tool_get_playlists E request).
Proof. unfold tool_get_playlists. enter_tool request. repeat tool_step. Qed.

Lemma get_now_playing_handles (E : Env) (request : Request) :
  handles (request_uid request) (tool_get_now_playing E request).
Proof. unfold tool_get_now_playing. enter_tool request. repeat tool_step. Qed.

Lemma control_playback_handles (E : Env) (request : Request) :
  handles (request_uid request) (tool_control_playback E request).
Proof. unfold tool_control_playback. enter_tool request. repeat tool_step. Qed.

Lemma play_song_handles (E : Env) (request : Request) :
  handles (request_uid request) (tool_play_song E request).
Proof. unfold tool_play_song. enter_tool request. repeat tool_step. Qed.

Lemma get_recommendations_handles (E : Env) (request : Request) :
  handles (request_uid request) (tool_get_recommendations E request).
Proof.
  unfold tool_get_recommendations. enter_tool request. repeat tool_step.
  eapply (behaves_bind _ (fun _ => True)); [repeat tool_step | intros ? _].
  repeat tool_step.
Qed.

Lemma add_to_playlist_handles (E : Env) (request : Request) :
  handles (request_uid request) (tool_add_to_playlist E request).
Proof.
  unfold tool_add_to_playlist. enter_tool request. repeat tool_step.
  eapply (behaves_bind _ (fun target =>
                            match target with
                            | inl response => one_sided response
                            | inr _ => True
                            end)).
  - repeat first [ tool_step
                 | apply behaves_ret; cbv beta iota;
                   first [exact I | apply one_sided_Error] ].
    (* the default playlist: the construction has raised *)
    intros w. split; [|discriminate]. exists 0%nat. apply touches_only_refl.
  - intros [response|target_playlist] Htarget.
    + now apply behaves_ret.
    + repeat tool_step.
Qed.

(** Every chat tool, on every request and in every world, answers with
    exactly one of [result] and [error]. *)
Theorem tools_answer_one_sided (E : Env) (request : Request) (w : World) :
  one_sided (fst (tool_search_songs E request w))
  /\ one_sided (fst (tool_add_to_playlist E request w))
  /\ one_sided (fst (tool_create_playlist E request w))
  /\ one_sided (fst (tool_get_playlists E request w))
  /\ one_sided (fst (tool_get_now_playing E request w))
  /\ one_sided (fst (tool_control_playback E request w))
  /\ one_sided (fst (tool_play_song E request w))
  /\ one_sided (fst (tool_get_recommendations E request w)).
Proof.
  repeat apply conj.
  - exact (proj2 (search_songs_handles E request w)).
  - exact (proj2 (add_to_playlist_handles E request w)).
  - exact (proj2 (create_playlist_handles E request w)).
  - exact (proj2 (get_playlists_handles E request w)).
  - exact (proj2 (get_now_playing_handles E request w)).
  - exact (proj2 (control_playback_handles E request w)).
  - exact (proj2 (play_song_handles E request w)).
  - exact (proj2 (get_recommendations_handles E request w)).
Qed.

(** No chat tool, on any request, changes a default playlist, the
    clock or the credential record of a user other than the one its
    body names; the requests already sent stay, and new ones only
    follow them. *)
Theorem tools_touch_only_their_user (E : Env) (request : Request) (w : World) :
  tool_touches_only (tool_search_songs E) request w
  /\ tool_touches_only (tool_add_to_playlist E) request w
  /\ tool_touches_only (tool_create_playlist E) request w
  /\ tool_touches_only (tool_get_playlists E) request w
  /\ tool_touches_only (tool_get_now_playing E) request w
  /\ tool_touches_only (tool_control_playback E) request w
  /\ tool_touches_only (tool_play_song E) request w
  /\ tool_touches_only (tool_get_recommendations E) request w.
Proof.
  refine (conj _ (conj _ (conj _ (conj _ (conj _ (conj _ (conj _ _))))))).
  - exact (proj1 (search_songs_handles E request w)).
  - exact (proj1 (add_to_playlist_handles E request w)).
  - exact (proj1 (create_playlist_handles E request w)).
  - exact (proj1 (get_playlists_handles E request w)).
  - exact (proj1 (get_now_playing_handles E request w)).
  - exact (proj1 (control_playback_handles E request w)).
  - exact (proj1 (play_song_handles E request w)).
  - exact (proj1 (get_recommendations_handles E request w)).
Qed.

(** ** Searching tracks *)

Lemma artist_names_read (artists : list json) (names : list string) :
  Forall2 names_artist artists names ->
  mapR (fun a => py_getitem a "name") artists = Ok (map JStr names).
Proof.
  induction 1 as [|a n artists names [m [-> Hname]] _ IH]; [reflexivity|].
  cbn. rewrite Hname. cbn. now rewrite IH.
Qed.

Lemma a_list_str_map (names : list string) : a_list_str (map JStr names) = Some names.
Proof.
  induction names as [|n names IH]; [reflexivity|]. cbn. now rewrite IH.
Qed.

Lemma a_optional_str_inverse (o : option string) :
  a_optional_str (optional_str o) = Some o.
Proof. now destruct o. Qed.

(** An item that describes a track is read back as that track. *)
Lemma track_of_item_reads (item : json) (t : SpotifyTrack.t) :
  describes item t -> track_of_item item = Ok t.
Proof.
  intros (m & artists & album & urls & -> & Hid & Hname & Hartists & Hnames
          & Halbum & Halbum_name & Hduration & Huri & Hurls & Hurl & Hpreview).
  unfold track_of_item. cbn [py_getitem py_get py_iter bindR].
  rewrite Hid, Hname, Hartists. cbn [bindR py_iter].
  rewrite (artist_names_read _ _ Hnames), Halbum. cbn [bindR py_getitem].
  rewrite Halbum_name, Hduration, Huri, Hurls. cbn [bindR py_get].
  rewrite Hurl, Hpreview.
  unfold SpotifyTrack.new, required, defaulted.
  cbn [lookup String.eqb Ascii.eqb Bool.eqb a_str a_int a_List_str].
  rewrite a_list_str_map, !a_optional_str_inverse.
  now destruct t.
Qed.

Lemma tracks_of_items_read (items : list json) (tracks : list SpotifyTrack.t) :
  Forall2 describes items tracks -> mapR track_of_item items = Ok tracks.
Proof.
  induction 1 as [|item t items tracks Hitem _ IH]; [reflexivity|].
  cbn. rewrite (track_of_item_reads _ _ Hitem). cbn. now rewrite IH.
Qed.

Lemma search_tracks_of_result (E : Env) (uid query limit : json) (w w' : World)
  (body tracks_member : list (string * json)) (items : list json)
  (tracks : list SpotifyTrack.t) :
  spotify_api_request E uid "GET" "/search"
    (Some (JDict [("q", query); ("type", JStr "track"); ("limit", limit)])) None w
  = (Ok (JDict body), w') ->
  lookup "error" body = None ->
  lookup "tracks" body = Some (JDict tracks_member) ->
  lookup "items" tracks_member = Some (JList items) ->
  mapR track_of_item items = Ok tracks ->
  search_tracks E uid query limit w = (Ok tracks, w').
Proof.
  intros Hcall Herror Htracks Hitems Hmap.
  unfold search_tracks, bind, lift, ret. rewrite Hcall.
  cbn [py_in py_get py_iter]. rewrite Herror.
  unfold dict_get. rewrite Htracks. cbn [py_get]. unfold dict_get. rewrite Hitems.
  cbn [py_iter]. now rewrite Hmap.
Qed.

(** [search_tracks] returns the tracks of the result, one per item and
    in the order of the items, when every item describes a track. *)
Lemma search_tracks_reads_items (E : Env) (uid query limit : json) (w w' : World)
  (body tracks_member : list (string * json)) (items : list json)
  (tracks : list SpotifyTrack.t) :
  spotify_api_request E uid "GET" "/search"
    (Some (JDict [("q", query); ("type", JStr "track"); ("limit", limit)])) None w
  = (Ok (JDict body), w') ->
  lookup "error" body = None ->
  lookup "tracks" body = Some (JDict tracks_member) ->
  lookup "items" tracks_member = Some (JList items) ->
  Forall2 describes items tracks ->
  search_tracks E uid query limit w = (Ok tracks, w')
  /\ List.length tracks = List.length items.
Proof.
  intros Hcall Herror Htracks Hitems Hdescribe. split.
  - exact (search_tracks_of_result E uid query limit w w' body tracks_member items
             tracks Hcall Herror Htracks Hitems (tracks_of_items_read _ _ Hdescribe)).
  - symmetry. exact (Forall2_length Hdescribe).
Qed.

Lemma hello_track_described :
  describes hello_track
    {| SpotifyTrack.id := "t1"; SpotifyTrack.name := "Hello";
       SpotifyTrack.artists := ["Adele"]; SpotifyTrack.album := "25";
       SpotifyTrack.duration_ms := 295000; SpotifyTrack.uri := "spotify:track:t1";
       SpotifyTrack.external_url := None; SpotifyTrack.preview_url := None |}.
Proof.
  eexists _, [JDict [("name", JStr "Adele")]], [("name", JStr "25")], [].
  repeat split.
  repeat constructor. now exists [("name", JStr "Adele")].
Qed.

Lemma search_tracks_reads_items_witness :
  search_tracks (environment working_provider) (JStr "u1") (JStr "hello") (JInt 5)
    u1_connected
  = (Ok [{| SpotifyTrack.id := "t1"; SpotifyTrack.name := "Hello";
            SpotifyTrack.artists := ["Adele"]; SpotifyTrack.album := "25";
            SpotifyTrack.duration_ms := 295000;
            SpotifyTrack.uri := "spotify:track:t1";
            SpotifyTrack.external_url := None;
            SpotifyTrack.preview_url := None |}],
     after_send u1_connected
       (search_request (environment working_provider) (JStr "token-1")
          (JStr "hello") (JInt 5))).
Proof.
  exact (proj1 (search_tracks_reads_items (environment working_provider)
                  (JStr "u1") (JStr "hello") (JInt 5) u1_connected _
                  [("tracks", JDict [("items", JList [hello_track])])]
                  [("items", JList [hello_track])] [hello_track] _
                  eq_refl eq_refl eq_refl eq_refl
                  (Forall2_cons _ _ hello_track_described (Forall2_nil _)))).
Defined.

(** An item that lacks a member [search_tracks] indexes is not
    skipped: the [KeyError] leaves [search_tracks]. *)
Lemma search_tracks_raises_on_item_without_id (E : Env) (uid query limit : json)
  (w w' : World) (body tracks_member item : list (string * json))
  (items : list json) :
  spotify_api_request E uid "GET" "/search"
    (Some (JDict [("q", query); ("type", JStr "track"); ("limit", limit)])) None w
  = (Ok (JDict body), w') ->
  lookup "error" body = None ->
  lookup "tracks" body = Some (JDict tracks_member) ->
  lookup "items" tracks_member = Some (JList (JDict item :: items)) ->
  lookup "id" item = None ->
  search_tracks E uid query limit w = (Raise (KeyError "id"), w').
Proof.
  intros Hcall Herror Htracks Hitems Hid.
  unfold search_tracks, bind, lift, ret. rewrite Hcall.
  cbn [py_in py_get py_iter]. rewrite Herror.
  unfold dict_get. rewrite Htracks. cbn [py_get]. unfold dict_get. rewrite Hitems.
  cbn [py_iter mapR]. unfold track_of_item at 1. cbn [py_getitem].
  now rewrite Hid.
Qed.

Lemma search_tracks_raises_on_item_without_id_witness :
  search_tracks (environment idless_provider) (JStr "u1") (JStr "hello") (JInt 5)
    u1_connected
  = (Raise (KeyError "id"),
     after_send u1_connected
       (search_request (environment idless_provider) (JStr "token-1")
          (JStr "hello") (JInt 5))).
Proof.
  exact (search_tracks_raises_on_item_without_id (environment idless_provider)
           (JStr "u1") (JStr "hello") (JInt 5) u1_connected _
           [("tracks", JDict [("items", JList [JDict [("name", JStr "Hello")]])])]
           [("items", JList [JDict [("name", JStr "Hello")]])]
           [("name", JStr "Hello")] []
           eq_refl eq_refl eq_refl eq_refl eq_refl).
Defined.

(** ** From the provider's answers to the tools' *)

Lemma fresh_token_authenticates (E : Env) (uid : json) (w : World) (r : TokenRecord) :
  holds_fresh_token w uid r -> authenticated E uid w (access_token r) w.
Proof.
  intros (Hrec & Hfresh & Htruthy). split; [|exact Htruthy].
  now apply fresh_token_is_used.
Qed.

Lemma fresh_token_after_send (w : World) (uid : json) (r : TokenRecord)
  (req : HttpRequest) :
  holds_fresh_token w uid r -> holds_fresh_token (after_send w req) uid r.
Proof. intros H. exact H. Qed.

(** The result of a search call is an error whenever the provider
    answers with a status of 400 or more and a readable body. *)
Lemma search_tracks_swallows_error_status {E : Env} {uid query limit : json}
  {w w1 : World} {token : json} {resp : Response} :
  authenticated E uid w token w1 ->
  provider E (sent w1) (search_request E token query limit) = Answers resp ->
  400 <= status_code resp ->
  readable_error_body (content resp) ->
  search_tracks E uid query limit w
  = (Ok [], after_send w1 (search_request E token query limit)).
Proof.
  intros Hauth Hp H400 Hbody.
  assert (Hreq : request_for E "GET" (SPOTIFY_API_BASE ++ "/search")
                   (get_auth_header E token)
                   (Some (JDict [("q", query); ("type", JStr "track");
                                 ("limit", limit)])) None
                 = Some (search_request E token query limit)) by reflexivity.
  unfold search_tracks, bind, lift, ret.
  rewrite (api_error_status _ _ _ _ Hauth Hreq Hp ltac:(lia) H400 Hbody).
  reflexivity.
Qed.

(** [search_songs] does not tell a failed search from an empty one:
    when the provider answers the search with a status of 400 or more,
    the tool answers with the result "No songs found for '<query>'",
    not with an error. *)
Theorem search_songs_hides_upstream_error (E : Env) (m : list (string * json))
  (w w1 : World) (token : json) (resp : Response) :
  let query := dict_get m "query" (JStr "") in
  let req := search_request E token query (dict_get m "limit" (JInt 5)) in
  truthy (body_uid m) = true ->
  truthy query = true ->
  authenticated E (body_uid m) w token w1 ->
  provider E (sent w1) req = Answers resp ->
  400 <= status_code resp ->
  readable_error_body (content resp) ->
  tool_search_songs E (body_of m) w
  = (Result ("No songs found for '" ++ py_str E query ++ "'"), after_send w1 req).
Proof.
  intros query req Huid Hquery Hauth Hp H400 Hbody.
  pose proof (authenticated_has_record Hauth) as Hrecord.
  unfold body_uid in *.
  unfold tool_search_songs. unfold_handler.
  rewrite Huid. fold query. rewrite Hquery. cbn [negb].
  destruct (spotify_tokens w (dict_get m "uid" JNull)) eqn:Htok; [|congruence].
  now rewrite (search_tracks_swallows_error_status Hauth Hp H400 Hbody).
Qed.

Lemma search_songs_hides_upstream_error_witness :
  tool_search_songs (environment no_device_provider)
    (body_of [("uid", JStr "u1"); ("query", JStr "hello")]) u1_connected
  = (Result "No songs found for 'hello'",
     after_send u1_connected
       (search_request (environment no_device_provider) (JStr "token-1")
          (JStr "hello") (JInt 5))).
Proof.
  exact (search_songs_hides_upstream_error (environment no_device_provider)
           [("uid", JStr "u1"); ("query", JStr "hello")] u1_connected u1_connected
           (JStr "token-1") _ eq_refl eq_refl (conj eq_refl eq_refl) eq_refl
           ltac:(cbn; lia) I).
Defined.

Lemma try_except_yields (uid : json) (Q : ChatToolResponse -> Prop)
  (body : M ChatToolResponse) (handler : exn -> ChatToolResponse) (w : World) :
  behaves uid Q body ->
  (forall e, Q (handler e)) ->
  Q (fst (try_except_Exception body handler w)).
Proof.
  intros Hbody Hhandler. unfold try_except_Exception.
  destruct (Hbody w) as [_ HQ].
  destruct (body w) as [[r|e] w']; cbn [fst] in *; auto.
Qed.

(** [get_playlists] never shows a playlist: when it answers with a
    result, the result is "You don't have any playlists yet.",
    whatever the provider has listed. *)
Theorem get_playlists_never_lists (E : Env) (request : Request) (w : World) :
  result (fst (tool_get_playlists E request w)) = None
  \/ result (fst (tool_get_playlists E request w))
     = Some "You don't have any playlists yet.".
Proof.
  unfold tool_get_playlists.
  apply (try_except_yields (request_uid request)
           (fun r => result r = None
                     \/ result r = Some "You don't have any playlists yet."));
    [|intros e; now left].
  destruct request as [[body|e]]; cbn [request_json]; [|apply behaves_bind_raise].
  apply behaves_bind_ok.
  destruct body; cbn [py_get]; try apply behaves_bind_raise.
  do 2 apply behaves_bind_ok.
  destruct (negb _); [apply behaves_ret; now left|].
  eapply behaves_bind; [apply behaves_get_spotify_tokens | intros tokens _].
  destruct tokens; [|apply behaves_ret; now left].
  eapply behaves_bind; [apply behaves_get_user_playlists | intros playlists ->].
  apply behaves_ret. now right.
Qed.

Section NowPlaying.

Context (E : Env).
Variables (m : list (string * json)) (w w1 : World) (token : json).
Hypothesis Htruthy : truthy (body_uid m) = true.
Hypothesis Hauth : authenticated E (body_uid m) w token w1.

#[local] Abbreviation playing_call :=
  (spotify_api_request E (body_uid m) "GET" "/me/player/currently-playing"
     None None w).

Lemma get_now_playing_nothing (rslt : json) (w2 : World) :
  playing_call = (Ok rslt, w2) ->
  py_in "error" rslt = Ok false ->
  truthy rslt = false
  \/ (exists members, rslt = JDict members
                      /\ truthy (dict_get members "item" JNull) = false) ->
  tool_get_now_playing E (body_of m) w
  = (Result "🔇 Nothing is currently playing on Spotify.", w2).
Proof.
  intros Hcall Hno Hnothing.
  pose proof (authenticated_has_record Hauth) as Hrecord.
  unfold body_uid in *.
  unfold tool_get_now_playing. unfold_handler.
  rewrite Htruthy. cbn [negb].
  destruct (spotify_tokens w (dict_get m "uid" JNull)) eqn:Htok; [|congruence].
  rewrite Hcall, Hno.
  destruct Hnothing as [-> | (members & -> & Hitem)]; [reflexivity|].
  destruct (negb (truthy (JDict members))); [reflexivity|].
  cbn [py_get bindR]. now rewrite Hitem.
Qed.

End NowPlaying.

(** With nothing playing the provider answers 204, or 200 with no
    item: [get_now_playing] then answers with the result "Nothing is
    currently playing on Spotify.", having sent the one request. *)
Theorem get_now_playing_when_idle (E : Env) (m : list (string * json))
  (w w1 : World) (token : json) (resp : Response) :
  let req := api_call E token "GET" "/me/player/currently-playing" None in
  truthy (body_uid m) = true ->
  authenticated E (body_uid m) w token w1 ->
  provider E (sent w1) req = Answers resp ->
  status_code resp = 204
  \/ (status_code resp = 200
      /\ exists members, content resp = Json (JDict members)
                         /\ lookup "error" members = None
                         /\ truthy (dict_get members "item" JNull) = false) ->
  tool_get_now_playing E (body_of m) w
  = (Result "🔇 Nothing is currently playing on Spotify.", after_send w1 req).
Proof.
  intros req Huid Hauth Hp Hidle.
  assert (Hreq : request_for E "GET" (SPOTIFY_API_BASE ++ "/me/player/currently-playing")
                   (get_auth_header E token) None None = Some req) by reflexivity.
  destruct Hidle as [H204 | (H200 & members & Hcontent & Herror & Hitem)].
  - apply (get_now_playing_nothing E m w w1 token Huid Hauth success_marker);
      [|reflexivity|right].
    + exact (api_no_content _ _ _ _ Hauth Hreq Hp H204).
    + now exists [("success", JBool true)].
  - apply (get_now_playing_nothing E m w w1 token Huid Hauth (JDict members)).
    + rewrite (api_success_status _ _ _ _ Hauth Hreq Hp) by lia.
      now rewrite Hcontent.
    + cbn. now rewrite Herror.
    + right. now exists members.
Qed.

Lemma get_now_playing_when_idle_witness :
  tool_get_now_playing (environment working_provider)
    (body_of [("uid", JStr "u1")]) u1_connected
  = (Result "🔇 Nothing is currently playing on Spotify.",
     after_send u1_connected
       (api_call (environment working_provider) (JStr "token-1") "GET"
          "/me/player/currently-playing" None)).
Proof.
  exact (get_now_playing_when_idle (environment working_provider)
           [("uid", JStr "u1")] u1_connected u1_connected (JStr "token-1")
           {| status_code := 204; content := Empty |}
           eq_refl (conj eq_refl eq_refl) eq_refl (or_introl eq_refl)).
Defined.

Section PlaybackCommand.

Context (E : Env).
Variables (m : list (string * json)) (a : string) (w w1 : World) (token : json).
Variables (verb endpoint confirmation : string).
Hypothesis Htruthy : truthy (body_uid m) = true.
Hypothesis Haction : body_action m = JStr a.
Hypothesis Hcommand : In (lower E a, (verb, endpoint, confirmation)) playback_commands.
Hypothesis Hauth : authenticated E (body_uid m) w token w1.

#[local] Abbreviation command := (api_call E token verb endpoint None).

Lemma playback_command_route :
  accepted_action (lower E a) = true
  /\ table_get endpoint_map (lower E a) = Ok (endpoint, verb)
  /\ table_get action_messages (lower E a) = Ok confirmation
  /\ request_for E verb (SPOTIFY_API_BASE ++ endpoint) (get_auth_header E token)
       None None = Some command.
Proof.
  destruct Hcommand as [H|[H|[H|[H|[H|[]]]]]];
    injection H as <- <- <- <-; repeat split.
Qed.

(** Past its checks, the handler is the command followed by the
    reading of its result. *)
Lemma control_playback_unfolded :
  tool_control_playback E (body_of m) w
  = match spotify_api_request E (body_uid m) verb endpoint None None w with
    | (Ok rslt, w2) =>
        match py_in "error" rslt with
        | Ok true =>
            match py_get rslt "error" (JStr "") with
            | Ok message =>
                if contains "No active device" (py_str E message) then
                  (Error no_active_device, w2)
                else
                  match py_getitem rslt "error" with
                  | Ok message =>
                      (Error ("Playback control failed: " ++ py_str E message), w2)
                  | Raise e =>
                      (Error ("Playback control failed: " ++ exc_str E e), w2)
                  end
            | Raise e => (Error ("Playback control failed: " ++ exc_str E e), w2)
            end
        | Ok false => (Result confirmation, w2)
        | Raise e => (Error ("Playback control failed: " ++ exc_str E e), w2)
        end
    | (Raise e, w2) => (Error ("Playback control failed: " ++ exc_str E e), w2)
    end.
Proof.
  pose proof (authenticated_has_record Hauth) as Hrecord.
  destruct playback_command_route as (Hacc & Hroute & Hmessage & _).
  unfold body_uid, body_action in *.
  unfold tool_control_playback. unfold_handler.
  rewrite Haction, Htruthy. cbn [py_lower negb].
  rewrite Hacc. cbn [negb].
  destruct (spotify_tokens w (dict_get m "uid" JNull)) eqn:Htok; [|congruence].
  rewrite Hroute. cbv beta iota.
  destruct (spotify_api_request _ _ _ _ _ _ _) as [[rslt|e] w2]; [|reflexivity].
  destruct (py_in "error" rslt) as [[|]|]; [| |reflexivity].
  - destruct (py_get rslt "error" (JStr "")) as [message|]; [|reflexivity].
    destruct (contains _ _); [reflexivity|].
    destruct (py_getitem rslt "error"); reflexivity.
  - now rewrite Hmessage.
Qed.

(** Each accepted action is sent, lowercased or not, to its own verb
    and endpoint, as the one request after the token was obtained;
    status 204 is answered with the confirmation of that action, and
    an error status with the provider's message: the advice to open a
    device when the message contains "No active device", and
    "Playback control failed: <message>" otherwise. *)
Lemma control_playback_outcome (resp : Response) :
  provider E (sent w1) command = Answers resp ->
  (status_code resp = 204 ->
   tool_control_playback E (body_of m) w
   = (Result confirmation, after_send w1 command))
  /\ (forall text,
        400 <= status_code resp ->
        nested_message (content resp) = Some (JStr text) ->
        tool_control_playback E (body_of m) w
        = (Error (if contains "No active device" text
                  then no_active_device
                  else "Playback control failed: " ++ text),
           after_send w1 command)).
Proof.
  intros Hp.
  destruct playback_command_route as (_ & _ & _ & Hreq).
  split.
  - intros H204. rewrite control_playback_unfolded.
    now rewrite (api_no_content _ _ _ _ Hauth Hreq Hp H204).
  - intros text H400 Hnested. rewrite control_playback_unfolded.
    assert (Hbody : readable_error_body (content resp)).
    { unfold nested_message in Hnested. unfold readable_error_body.
      destruct (content resp) as [|[| | | | |members]|]; try discriminate.
      destruct (lookup "error" members) as [[| | | | |inner]|]; try discriminate.
      exact I. }
    rewrite (api_error_status _ _ _ _ Hauth Hreq Hp ltac:(lia) H400 Hbody), Hnested.
    cbn [py_in error_dict lookup String.eqb Ascii.eqb Bool.eqb py_get dict_get
         py_getitem py_str].
    now destruct (contains "No active device" text).
Qed.

End PlaybackCommand.

Lemma control_playback_outcome_witness :
  tool_control_playback (environment no_device_provider)
    (body_of [("uid", JStr "u1"); ("action", JStr "PAUSE")]) u1_connected
  = (Error no_active_device,
     after_send u1_connected
       (api_call (environment no_device_provider) (JStr "token-1") "PUT"
          "/me/player/pause" None)).
Proof.
  exact (proj2 (control_playback_outcome (environment no_device_provider)
                  [("uid", JStr "u1"); ("action", JStr "PAUSE")] "PAUSE"
                  u1_connected u1_connected (JStr "token-1")
                  "PUT" "/me/player/pause" "⏸️ Paused playback"
                  eq_refl eq_refl (or_intror (or_introl eq_refl))
                  (conj eq_refl eq_refl) _ eq_refl)
           "Player command failed: No active device found"
           ltac:(cbn; lia) eq_refl).
Defined.

Lemma api_answers_object {E : Env} {uid : json} {verb endpoint : string}
  {query payload : option json} {w w1 : World} {token : json} {req : HttpRequest}
  {resp : Response} {body : list (string * json)} :
  authenticated E uid w token w1 ->
  request_for E verb (SPOTIFY_API_BASE ++ endpoint) (get_auth_header E token)
    query payload = Some req ->
  provider E (sent w1) req = Answers resp ->
  answers_object resp body ->
  spotify_api_request E uid verb endpoint query payload w
  = (Ok (JDict body), after_send w1 req)
  /\ py_in "error" (JDict body) = Ok false.
Proof.
  intros Hauth Hreq Hp (H400 & H204 & Hcontent & Herror). split.
  - rewrite (api_success_status _ _ _ _ Hauth Hreq Hp H204 H400).
    now rewrite Hcontent.
  - cbn. now rewrite Herror.
Qed.

Lemma search_tracks_lists {E : Env} {uid query limit : json} {w w1 : World}
  {token : json} {resp : Response} {tracks : list SpotifyTrack.t} :
  authenticated E uid w token w1 ->
  provider E (sent w1) (search_request E token query limit) = Answers resp ->
  lists_tracks resp tracks ->
  search_tracks E uid query limit w
  = (Ok tracks, after_send w1 (search_request E token query limit)).
Proof.
  intros Hauth Hp (H200 & body & tracks_member & items & Hcontent & Herror
                   & Htracks & Hitems & Hdescribe).
  assert (Hreq : request_for E "GET" (SPOTIFY_API_BASE ++ "/search")
                   (get_auth_header E token)
                   (Some (JDict [("q", query); ("type", JStr "track");
                                 ("limit", limit)])) None
                 = Some (search_request E token query limit)) by reflexivity.
  refine (search_tracks_of_result E uid query limit w _ body tracks_member
            items tracks _ Herror Htracks Hitems (tracks_of_items_read _ _ Hdescribe)).
  rewrite (api_success_status _ _ _ _ Hauth Hreq Hp) by lia.
  now rewrite Hcontent.
Qed.

Section PlaySong.

Context (E : Env).
Variables (m : list (string * json)) (w : World) (r : TokenRecord).
Variables (track : SpotifyTrack.t) (others : list SpotifyTrack.t).
Variables (found played : Response).

#[local] Abbreviation song_name := (dict_get m "song_name" (JStr "")).
#[local] Abbreviation search :=
  (search_request E (access_token r)
     (build_search_query E song_name (dict_get m "artist_name" (JStr "")))
     (JInt 1)).
#[local] Abbreviation play :=
  (api_call E (access_token r) "PUT" "/me/player/play"
     (Some (JDict [("uris", JList [JStr (SpotifyTrack.uri track)])]))).

Hypothesis Huid : truthy (body_uid m) = true.
Hypothesis Hsong : truthy song_name = true.
Hypothesis Hfresh : holds_fresh_token w (body_uid m) r.
Hypothesis Hfound : provider E (sent w) search = Answers found.
Hypothesis Htracks : lists_tracks found (track :: others).

(** [play_song] plays the first hit of its search: it sends the search
    for the song (with "artist:<name>" when an artist is given, one
    result asked for), then PUT /me/player/play with the uri of the
    first track found, and on status 204 names that track in its
    result. *)
Lemma play_song_plays_first_hit :
  provider E (sent w ++ [search]) play = Answers played ->
  status_code played = 204 ->
  tool_play_song E (body_of m) w
  = (Result ("▶️ Now playing: **" ++ SpotifyTrack.name track ++ "** by "
               ++ join ", " (SpotifyTrack.artists track)),
     after_send (after_send w search) play).
Proof.
  intros Hplayed H204.
  pose proof (fresh_token_authenticates E _ _ _ Hfresh) as Hauth.
  pose proof (fresh_token_authenticates E _ _ _
                (fresh_token_after_send w _ r search Hfresh)) as Hauth2.
  destruct Hfresh as (Hrec & _).
  unfold body_uid in *.
  unfold tool_play_song. unfold_handler.
  rewrite Huid, Hsong. cbn [negb]. rewrite Hrec.
  rewrite (search_tracks_lists Hauth Hfound Htracks).
  assert (Hreq : request_for E "PUT" (SPOTIFY_API_BASE ++ "/me/player/play")
                   (get_auth_header E (access_token r)) None
                   (Some (JDict [("uris", JList [JStr (SpotifyTrack.uri track)])]))
                 = Some play) by reflexivity.
  now rewrite (api_no_content _ _ _ _ Hauth2 Hreq Hplayed H204).
Qed.

End PlaySong.

Lemma working_provider_lists_hello :
  lists_tracks
    {| status_code := 200;
       content := Json (JDict [("tracks", JDict [("items", JList [hello_track])])]) |}
    [hello].
Proof.
  split; [reflexivity|].
  exists [("tracks", JDict [("items", JList [hello_track])])],
    [("items", JList [hello_track])], [hello_track].
  repeat split. constructor; [exact hello_track_described | constructor].
Qed.

Lemma u1_holds_fresh_token : holds_fresh_token u1_connected (JStr "u1") u1_record.
Proof. repeat split. Qed.

Lemma play_song_plays_first_hit_witness :
  result (fst (tool_play_song (environment working_provider)
                 (body_of [("uid", JStr "u1"); ("song_name", JStr "hello")])
                 u1_connected))
  = Some "▶️ Now playing: **Hello** by Adele".
Proof.
  exact (f_equal (fun run => result (fst run))
           (play_song_plays_first_hit (environment working_provider)
              [("uid", JStr "u1"); ("song_name", JStr "hello")] u1_connected
              u1_record hello [] _ {| status_code := 204; content := Empty |}
              eq_refl eq_refl u1_holds_fresh_token eq_refl
              working_provider_lists_hello eq_refl eq_refl)).
Defined.

(** ** Durations in the tools' output *)

Lemma format_seconds (ms : Z) :
  format_02d ((ms mod 60000) / 1000)
  = digit ((ms mod 60000) / 1000 / 10) ++ digit (((ms mod 60000) / 1000) mod 10).
Proof.
  pose proof (seconds_range ms) as Hs.
  rewrite <- (Z2Nat.id ((ms mod 60000) / 1000)) by lia.
  apply format_02d_two_digits. lia.
Qed.

Lemma as_str_names (names : list string) : mapR as_str (map JStr names) = Ok names.
Proof.
  induction names as [|n names IH]; [reflexivity|]. cbn. now rewrite IH.
Qed.

(** C9: the two tools that show a duration render it as the spec says.
    [search_songs], for a user with a fresh token whose search the
    provider answers with at least one track, lists one line per track
    with the track's length as [minutes_seconds]; [get_now_playing],
    when the provider answers with a player state, shows the progress
    and the length of the track as [minutes_seconds]: the decimal
    numeral of [ms // 60000], a colon, and the two decimal digits of
    [(ms % 60000) // 1000].  For a non-negative value the minutes are
    not negative and the seconds lie between 0 and 59; 125000 ms gives
    "2:05" and 59000 ms gives "0:59". *)
Theorem duration_rendering (E : Env) :
  (forall (m : list (string * json)) (w : World) (r : TokenRecord)
          (resp : Response) (track : SpotifyTrack.t) (others : list SpotifyTrack.t),
      let query := dict_get m "query" (JStr "") in
      let search := search_request E (access_token r) query
                      (dict_get m "limit" (JInt 5)) in
      truthy (body_uid m) = true ->
      truthy query = true ->
      holds_fresh_token w (body_uid m) r ->
      provider E (sent w) search = Answers resp ->
      lists_tracks resp (track :: others) ->
      tool_search_songs E (body_of m) w
      = (Result ("🎵 Found "
                   ++ str_int (Z.of_nat (List.length (track :: others)))
                   ++ " songs:" ++ newline ++ newline
                   ++ join newline
                        (map (fun it => song_line (fst it) (snd it))
                           (enumerate (track :: others) 1))),
         after_send w search))
  /\ (forall (m : list (string * json)) (w : World) (r : TokenRecord)
             (resp : Response) (is_playing name album_name : json)
             (progress_ms duration_ms : Z) (artists : list string),
         let call := api_call E (access_token r) "GET"
                       "/me/player/currently-playing" None in
         truthy (body_uid m) = true ->
         holds_fresh_token w (body_uid m) r ->
         provider E (sent w) call = Answers resp ->
         plays resp is_playing progress_ms duration_ms name album_name artists ->
         tool_get_now_playing E (body_of m) w
         = (Result ((if truthy is_playing then "▶️ Playing" else "⏸️ Paused")
                      ++ ": **" ++ py_str E name ++ "** by " ++ join ", " artists
                      ++ newline ++ "Album: " ++ py_str E album_name
                      ++ newline ++ "Progress: " ++ minutes_seconds progress_ms
                      ++ " / " ++ minutes_seconds duration_ms),
            after_send w call))
  /\ (forall ms : Z,
         0 <= ms ->
         0 <= ms / 60000
         /\ 0 <= (ms mod 60000) / 1000 <= 59
         /\ parse_int (str_int (ms / 60000)) = Some (ms / 60000))
  /\ minutes_seconds 125000 = "2:05"
  /\ minutes_seconds 59000 = "0:59".
Proof.
  refine (conj _ (conj _ (conj _ (conj eq_refl eq_refl)))).
  - intros m w r resp track others query search Huid Hquery Hfresh Hp Htracks.
    pose proof (fresh_token_authenticates E _ _ _ Hfresh) as Hauth.
    destruct Hfresh as (Hrec & _).
    unfold body_uid in *.
    unfold tool_search_songs. unfold_handler.
    rewrite Huid. fold query. rewrite Hquery. cbn [negb]. rewrite Hrec.
    rewrite (search_tracks_lists Hauth Hp Htracks).
    erewrite map_ext; [reflexivity|].
    intros [i t]. cbn [fst snd]. unfold song_line, minutes_seconds.
    now rewrite format_seconds.
  - intros m w r resp is_playing name album_name progress_ms duration_ms artists
      call Huid Hfresh Hp
      (body & item & artist_items & album & Hobject & Hitem & Hplaying & Hprogress
       & Hartists & Hnames & Hduration & Hname & Halbum & Halbum_name).
    pose proof (fresh_token_authenticates E _ _ _ Hfresh) as Hauth.
    destruct Hfresh as (Hrec & _).
    assert (Hreq : request_for E "GET"
                     (SPOTIFY_API_BASE ++ "/me/player/currently-playing")
                     (get_auth_header E (access_token r)) None None
                   = Some call) by reflexivity.
    destruct (api_answers_object Hauth Hreq Hp Hobject) as [Hcall Hno].
    unfold body_uid in *.
    unfold tool_get_now_playing. unfold_handler.
    rewrite Huid. cbn [negb]. rewrite Hrec, Hcall, Hno.
    assert (truthy (JDict body) = true) as ->
      by (destruct body; [discriminate | reflexivity]).
    cbn [negb py_get py_getitem bindR]. rewrite Hplaying, Hprogress.
    unfold dict_get. rewrite Hitem.
    assert (truthy (JDict item) = true) as ->
      by (destruct item; [discriminate | reflexivity]).
    cbn [negb]. cbv beta iota.
    assert (artist_names (JDict item) = Ok (join ", " artists)) as ->.
    { unfold artist_names. cbn [py_getitem]. rewrite Hartists.
      cbn [bindR py_iter]. rewrite (artist_names_read _ _ Hnames).
      cbn [bindR]. now rewrite as_str_names. }
    cbn [py_getitem]. rewrite Hduration. cbn [py_int]. rewrite Hname, Halbum.
    cbn [py_getitem]. rewrite Halbum_name.
    unfold minutes_seconds. now rewrite !format_seconds.
  - intros ms Hms. refine (conj _ (conj (seconds_range ms) (parse_str_int _))).
    apply Z.div_pos; lia.
Qed.

Lemma paused_provider_plays :
  plays {| status_code := 200;
           content := Json (JDict [("is_playing", JBool false);
                                   ("progress_ms", JInt 59000);
                                   ("item",
                                    JDict [("name", JStr "Hello");
                                           ("artists",
                                            JList [JDict [("name", JStr "Adele")]]);
                                           ("album", JDict [("name", JStr "25")]);
                                           ("duration_ms", JInt 125000)])]) |}
    (JBool false) 59000 125000 (JStr "Hello") (JStr "25") ["Adele"].
Proof.
  eexists _, _, _, _.
  refine (conj (conj _ (conj _ (conj eq_refl eq_refl))) _);
    [cbn; lia | discriminate |].
  repeat (split; [reflexivity|]).
  split; [|repeat split].
  repeat constructor. eexists. split; reflexivity.
Qed.

(** A track of 295000 ms in a search result, and a track of 125000 ms
    paused at 59000 ms. *)
Lemma duration_rendering_witness :
  tool_search_songs (environment working_provider)
    (body_of [("uid", JStr "u1"); ("query", JStr "hello")]) u1_connected
  = (Result ("🎵 Found 1 songs:" ++ newline ++ newline
               ++ "1. **Hello** by Adele (4:55) - Album: 25"),
     after_send u1_connected
       (search_request (environment working_provider) (JStr "token-1")
          (JStr "hello") (JInt 5)))
  /\ tool_get_now_playing (environment paused_provider)
       (body_of [("uid", JStr "u1")]) u1_connected
     = (Result ("⏸️ Paused: **Hello** by Adele" ++ newline
                  ++ "Album: 25" ++ newline
                  ++ "Progress: 0:59 / 2:05"),
        after_send u1_connected
          (api_call (environment paused_provider) (JStr "token-1") "GET"
             "/me/player/currently-playing" None)).
Proof.
  split.
  - exact (proj1 (duration_rendering (environment working_provider))
             [("uid", JStr "u1"); ("query", JStr "hello")] u1_connected u1_record
             _ hello [] eq_refl eq_refl u1_holds_fresh_token eq_refl
             working_provider_lists_hello).
  - exact (proj1 (proj2 (duration_rendering (environment paused_provider)))
             [("uid", JStr "u1")] u1_connected u1_record _
             (JBool false) (JStr "Hello") (JStr "25") 59000 125000 ["Adele"]
             eq_refl u1_holds_fresh_token eq_refl paused_provider_plays).
Defined.

Section CreatePlaylist.

Context (E : Env).
Variables (m : list (string * json)) (w : World) (r : TokenRecord).
Variables (profile_answer : Response).

#[local] Abbreviation playlist_name := (dict_get m "name" (JStr "")).
#[local] Abbreviation profile_call := (api_call E (access_token r) "GET" "/me" None).

Hypothesis Huid : truthy (body_uid m) = true.
Hypothesis Hname : truthy playlist_name = true.
Hypothesis Hfresh : holds_fresh_token w (body_uid m) r.
Hypothesis Hprofile : provider E (sent w) profile_call = Answers profile_answer.

(** [create_playlist] asks for the profile first and creates the
    playlist under the id it finds there: POST /users/<id>/playlists
    with the name, the description ("Created with Omi" when the body
    gives none) and the public flag (false when the body gives none);
    the result names the playlist and shows the link of the answer. *)
Lemma create_playlist_creates (profile created : list (string * json))
  (spotify_user_id : json) (creation : Response) :
  let create :=
    api_call E (access_token r) "POST"
      ("/users/" ++ py_str E spotify_user_id ++ "/playlists")
      (Some (JDict [("name", playlist_name);
                    ("description",
                     dict_get m "description" (JStr "Created with Omi"));
                    ("public", dict_get m "public" (JBool false))])) in
  answers_object profile_answer profile ->
  lookup "id" profile = Some spotify_user_id ->
  provider E (sent w ++ [profile_call]) create = Answers creation ->
  answers_object creation created ->
  (exists urls, dict_get created "external_urls" (JDict []) = JDict urls) ->
  tool_create_playlist E (body_of m) w
  = (Result ("✅ Created playlist **" ++ py_str E playlist_name ++ "**!"
               ++ newline ++ newline ++ "Open in Spotify: "
               ++ py_str E (match dict_get created "external_urls" (JDict []) with
                            | JDict urls => dict_get urls "spotify" (JStr "")
                            | _ => JStr ""
                            end)),
     after_send (after_send w profile_call) create).
Proof.
  intros create Hprofile_ok Hid Hcreation Hcreated [urls Hurls].
  pose proof (fresh_token_authenticates E _ _ _ Hfresh) as Hauth.
  pose proof (fresh_token_authenticates E _ _ _
                (fresh_token_after_send w _ r profile_call Hfresh)) as Hauth2.
  destruct Hfresh as (Hrec & _).
  unfold body_uid in *.
  unfold tool_create_playlist. unfold_handler.
  rewrite Huid, Hname. cbn [negb]. rewrite Hrec.
  assert (Hreq1 : request_for E "GET" (SPOTIFY_API_BASE ++ "/me")
                    (get_auth_header E (access_token r)) None None
                  = Some profile_call) by reflexivity.
  destruct (api_answers_object Hauth Hreq1 Hprofile Hprofile_ok) as [-> ->].
  cbn [py_getitem]. rewrite Hid.
  assert (Hreq2 : request_for E "POST"
                    (SPOTIFY_API_BASE ++ "/users/" ++ py_str E spotify_user_id
                       ++ "/playlists")
                    (get_auth_header E (access_token r)) None
                    (Some (JDict [("name", playlist_name);
                                  ("description",
                                   dict_get m "description" (JStr "Created with Omi"));
                                  ("public", dict_get m "public" (JBool false))]))
                  = Some create) by reflexivity.
  destruct (api_answers_object Hauth2 Hreq2 Hcreation Hcreated) as [-> ->].
  cbn [py_get]. rewrite Hurls. reflexivity.
Qed.

(** When the profile cannot be fetched (a status of 400 or more), the
    tool answers "Failed to get user profile" and creates nothing: the
    profile call is the only request sent. *)
Lemma create_playlist_without_profile :
  400 <= status_code profile_answer ->
  readable_error_body (content profile_answer) ->
  tool_create_playlist E (body_of m) w
  = (Error "Failed to get user profile", after_send w profile_call).
Proof.
  intros H400 Hbody.
  pose proof (fresh_token_authenticates E _ _ _ Hfresh) as Hauth.
  destruct Hfresh as (Hrec & _).
  unfold body_uid in *.
  unfold tool_create_playlist. unfold_handler.
  rewrite Huid, Hname. cbn [negb]. rewrite Hrec.
  assert (Hreq1 : request_for E "GET" (SPOTIFY_API_BASE ++ "/me")
                    (get_auth_header E (access_token r)) None None
                  = Some profile_call) by reflexivity.
  now rewrite (api_error_status _ _ _ _ Hauth Hreq1 Hprofile ltac:(lia) H400 Hbody).
Qed.

End CreatePlaylist.

Lemma working_provider_answers_profile :
  answers_object
    {| status_code := 200; content := Json (JDict [("id", JStr "spotify-user-1")]) |}
    [("id", JStr "spotify-user-1")].
Proof. repeat split; cbn; (lia || discriminate). Qed.

Lemma working_provider_answers_creation :
  answers_object
    {| status_code := 201;
       content :=
         Json (JDict [("id", JStr "p9");
                      ("external_urls",
                       JDict [("spotify",
                               JStr "https://open.spotify.com/playlist/p9")])]) |}
    [("id", JStr "p9");
     ("external_urls",
      JDict [("spotify", JStr "https://open.spotify.com/playlist/p9")])].
Proof. repeat split; cbn; (lia || discriminate). Qed.

Lemma create_playlist_creates_witness :
  fst (tool_create_playlist (environment working_provider)
         (body_of [("uid", JStr "u1"); ("name", JStr "Mix")]) u1_connected)
  = Result ("✅ Created playlist **Mix**!" ++ newline ++ newline
              ++ "Open in Spotify: https://open.spotify.com/playlist/p9").
Proof.
  exact (f_equal fst
           (create_playlist_creates (environment working_provider)
              [("uid", JStr "u1"); ("name", JStr "Mix")] u1_connected u1_record
              {| status_code := 200;
                 content := Json (JDict [("id", JStr "spotify-user-1")]) |}
              eq_refl eq_refl u1_holds_fresh_token eq_refl
              [("id", JStr "spotify-user-1")]
              [("id", JStr "p9");
               ("external_urls",
                JDict [("spotify", JStr "https://open.spotify.com/playlist/p9")])]
              (JStr "spotify-user-1")
              {| status_code := 201;
                 content :=
                   Json (JDict [("id", JStr "p9");
                                ("external_urls",
                                 JDict [("spotify",
                                         JStr "https://open.spotify.com/playlist/p9")])]) |}
              working_provider_answers_profile eq_refl eq_refl
              working_provider_answers_creation
              (ex_intro _ _ eq_refl))).
Defined.

Lemma create_playlist_without_profile_witness :
  tool_create_playlist (environment no_device_provider)
    (body_of [("uid", JStr "u1"); ("name", JStr "Mix")]) u1_connected
  = (Error "Failed to get user profile",
     after_send u1_connected
       (api_call (environment no_device_provider) (JStr "token-1") "GET" "/me" None)).
Proof.
  exact (create_playlist_without_profile (environment no_device_provider)
           [("uid", JStr "u1"); ("name", JStr "Mix")] u1_connected u1_record
           {| status_code := 404;
              content := Json (JDict [("error",
                                       JDict [("status", JInt 404);
                                              ("message",
                                               JStr "Player command failed: No active device found")])]) |}
           eq_refl eq_refl u1_holds_fresh_token eq_refl ltac:(cbn; lia) I).
Defined.

(** ** The authorization redirect *)

Lemma unquote_quote_byte (c : ascii) (rest : string) :
  unquote_plus (quote_plus_byte c ++ rest) = String c (unquote_plus rest).
Proof.
  destruct c as [[] [] [] [] [] [] [] []]; reflexivity.
Qed.

Lemma quote_plus_byte_free (c : ascii) :
  free_of "&" (quote_plus_byte c) = true /\ free_of "=" (quote_plus_byte c) = true.
Proof.
  destruct c as [[] [] [] [] [] [] [] []]; split; reflexivity.
Qed.

Lemma free_of_app (sep : ascii) (s t : string) :
  free_of sep (s ++ t) = free_of sep s && free_of sep t.
Proof.
  induction s as [|c s IH]; [reflexivity|]. cbn. rewrite IH.
  now rewrite Bool.andb_assoc.
Qed.

(** What [quote_plus] writes, [unquote_plus] reads back, whatever the
    bytes. *)
Lemma unquote_quote (s : string) : unquote_plus (quote_plus s) = s.
Proof.
  induction s as [|c s IH]; [reflexivity|].
  cbn [quote_plus]. now rewrite unquote_quote_byte, IH.
Qed.

Lemma quote_plus_free (s : string) :
  free_of "&" (quote_plus s) = true /\ free_of "=" (quote_plus s) = true.
Proof.
  induction s as [|c s [IH1 IH2]]; [now split|].
  cbn [quote_plus]. rewrite !free_of_app, IH1, IH2.
  destruct (quote_plus_byte_free c) as [-> ->]. now split.
Qed.

Lemma split_on_free (sep : ascii) (s : string) :
  free_of sep s = true -> split_on sep s = [s].
Proof.
  induction s as [|c s IH]; [reflexivity|]. cbn.
  destruct (Ascii.eqb c sep); [discriminate|]. cbn. intros H. now rewrite IH.
Qed.

Lemma split_on_app (sep : ascii) (s rest : string) :
  free_of sep s = true ->
  split_on sep (s ++ String sep rest) = s :: split_on sep rest.
Proof.
  induction s as [|c s IH]; cbn.
  - now rewrite Ascii.eqb_refl.
  - destruct (Ascii.eqb c sep); [discriminate|]. cbn. intros H. now rewrite IH.
Qed.

Lemma split_on_join (sep : ascii) (parts : list string) :
  parts <> [] ->
  Forall (fun part => free_of sep part = true) parts ->
  split_on sep (join (String sep "") parts) = parts.
Proof.
  intros Hne Hfree. unfold join.
  induction Hfree as [|part parts Hpart Hparts IH]; [contradiction|].
  destruct parts as [|next parts].
  - cbn. now apply split_on_free.
  - cbn [String.concat]. cbn [append].
    rewrite (split_on_app _ _ _ Hpart). f_equal. apply IH. discriminate.
Qed.

Lemma cut_at_app (sep : ascii) (k v : string) :
  free_of sep k = true -> cut_at sep (k ++ String sep v) = (k, v).
Proof.
  induction k as [|c k IH]; cbn.
  - now rewrite Ascii.eqb_refl.
  - destruct (Ascii.eqb c sep); [discriminate|]. cbn. intros H. now rewrite IH.
Qed.

(** [urlencode] loses nothing: a non-empty list of pairs is read back
    from its query string, pair by pair. *)
Lemma parse_urlencode (query : list (string * string)) :
  query <> [] -> parse_qsl (urlencode query) = query.
Proof.
  intros Hne. unfold parse_qsl, urlencode.
  rewrite split_on_join.
  - assert (Hparts : forall l : list (string * string),
               filter (fun part => negb (String.eqb part ""))
                 (map (fun kv => quote_plus (fst kv) ++ "=" ++ quote_plus (snd kv)) l)
               = map (fun kv => quote_plus (fst kv) ++ "=" ++ quote_plus (snd kv)) l).
    { induction l as [|[k v] l IH]; [reflexivity|]. cbn [map filter fst snd].
      rewrite IH.
      now destruct (quote_plus k). }
    rewrite Hparts.
    rewrite map_map. rewrite <- (map_id query) at 2.
    apply map_ext. intros [k v]. cbn [fst snd].
    change ("=" ++ quote_plus v) with (String "=" (quote_plus v)).
    rewrite (cut_at_app "=" (quote_plus k) (quote_plus v))
      by apply quote_plus_free.
    now rewrite !unquote_quote.
  - destruct query; [contradiction | discriminate].
  - apply Forall_map, Forall_forall. intros [k v] _. cbn [fst snd].
    change ("=" ++ quote_plus v) with (String "=" (quote_plus v)).
    rewrite free_of_app. cbn [free_of].
    destruct (quote_plus_free k) as [-> _].
    destruct (quote_plus_free v) as [-> _]. reflexivity.
Qed.

(** [spotify_auth] redirects to the provider's authorization page with
    a query that reads back as the six parameters it was built from:
    in particular the state is the uid, byte for byte, whatever the uid
    contains. *)
Theorem spotify_auth_carries_uid (E : Env) (uid : string) :
  uid <> "" ->
  exists query,
    spotify_auth E uid = RedirectResponse (SPOTIFY_AUTH_URL ++ "?" ++ query)
    /\ parse_qsl query
       = [("client_id", SPOTIFY_CLIENT_ID E);
          ("response_type", "code");
          ("redirect_uri", SPOTIFY_REDIRECT_URI E);
          ("scope", join " " SPOTIFY_SCOPES);
          ("state", uid);
          ("show_dialog", "true")].
Proof.
  intros Hne. unfold spotify_auth.
  apply String.eqb_neq in Hne. rewrite Hne.
  eexists. split; [reflexivity|].
  apply parse_urlencode. discriminate.
Qed.

Lemma spotify_auth_carries_uid_witness :
  exists query,
    spotify_auth (environment working_provider) "u 1&x=é"
    = RedirectResponse (SPOTIFY_AUTH_URL ++ "?" ++ query)
    /\ parse_qsl query
       = [("client_id", "96f6f46db00a480eb1ced59ea90bf2f4");
          ("response_type", "code");
          ("redirect_uri", "http://localhost:8000/auth/spotify/callback");
          ("scope", join " " SPOTIFY_SCOPES);
          ("state", "u 1&x=é");
          ("show_dialog", "true")].
Proof.
  exact (spotify_auth_carries_uid (environment working_provider) "u 1&x=é"
           ltac:(discriminate)).
Defined.

(** ** The OAuth callback *)

Lemma given_text (s : string) : s <> "" -> given (Some s) = true.
Proof.
  intros Hne. unfold given. apply String.eqb_neq in Hne. now rewrite Hne.
Qed.

Section Callback.

Context (E : Env).
Variables (code state : string) (w : World).
Hypothesis Hcode : code <> "".
Hypothesis Hstate : state <> "".

#[local] Abbreviation exchange := (exchange_request E code).
#[local] Abbreviation callback := (spotify_callback E (Some code) (Some state) None w).

Lemma spotify_callback_exchanges (resp : Response) :
  provider E (sent w) exchange = Answers resp ->
  callback
  = if negb (status_code resp =? 200) then
      (Ok (TemplateResponse "setup.html"
             (ErrorPage "Failed to exchange authorization code")),
       after_send w exchange)
    else
      match response_json resp with
      | Ok token_data =>
          match py_get token_data "expires_in" (JInt 3600) with
          | Ok expires_in =>
              match py_int expires_in with
              | Ok n =>
                  match py_getitem token_data "access_token" with
                  | Ok access =>
                      match py_getitem token_data "refresh_token" with
                      | Ok refresh =>
                          (Ok (RedirectResponse ("/?uid=" ++ state)),
                           snd (store_spotify_tokens (JStr state) access refresh
                                  (now w + n) (after_send w exchange)))
                      | Raise e => (Raise e, after_send w exchange)
                      end
                  | Raise e => (Raise e, after_send w exchange)
                  end
              | Raise e => (Raise e, after_send w exchange)
              end
          | Raise e => (Raise e, after_send w exchange)
          end
      | Raise e => (Raise e, after_send w exchange)
      end.
Proof.
  intros Hp. unfold spotify_callback.
  rewrite (given_text _ Hcode), (given_text _ Hstate).
  cbn [given negb orb text_of]. unfold bind at 1, send. rewrite Hp.
  destruct (negb (status_code resp =? 200)); [reflexivity|].
  unfold bind, lift, ret, utcnow_timestamp.
  destruct (response_json resp) as [token_data|]; [|reflexivity].
  destruct (py_get token_data "expires_in" (JInt 3600)) as [expires_in|];
    [|reflexivity].
  destruct (py_int expires_in) as [n|]; [|reflexivity].
  destruct (py_getitem token_data "access_token") as [access|]; [|reflexivity].
  destruct (py_getitem token_data "refresh_token") as [refresh|]; reflexivity.
Qed.

(** A grant links the account: when the token endpoint answers the
    exchange with 200 and an object holding an access and a refresh
    token, the callback stores them for the uid it received as
    [state], with the expiry [now + expires_in] (3600 when the answer
    gives none), and redirects to the settings page of that uid; only
    the exchange went out and no other record changed; [check_setup]
    then reports the setup as completed, and while the grant lasts the
    API client uses the granted token without a refresh. *)
Theorem spotify_callback_links_account (resp : Response)
  (body : list (string * json)) (access refresh : json) (n : Z) :
  provider E (sent w) exchange = Answers resp ->
  status_code resp = 200 ->
  content resp = Json (JDict body) ->
  lookup "access_token" body = Some access ->
  lookup "refresh_token" body = Some refresh ->
  py_int (dict_get body "expires_in" (JInt 3600)) = Ok n ->
  let w' := snd callback in
  fst callback = Ok (RedirectResponse ("/?uid=" ++ state))
  /\ spotify_tokens w' (JStr state)
     = Some {| access_token := access; refresh_token := refresh;
               expires_at := now w + n |}
  /\ sent w' = (sent w ++ [exchange])%list
  /\ touches_only (JStr state) 1 w w'
  /\ fst (check_setup state w') = Ok (setup_completed true)
  /\ (0 < n -> get_valid_access_token E (JStr state) w' = (Ok access, w')).
Proof.
  intros Hp Hs Hc Haccess Hrefresh Hn w'.
  assert (Hrun : callback
                 = (Ok (RedirectResponse ("/?uid=" ++ state)),
                    snd (store_spotify_tokens (JStr state) access refresh
                           (now w + n) (after_send w exchange)))).
  { rewrite (spotify_callback_exchanges resp Hp), Hs.
    unfold response_json. rewrite Hc. cbn [Z.eqb Pos.eqb negb].
    cbn [py_get py_getitem]. now rewrite Hn, Haccess, Hrefresh. }
  assert (Hstored : spotify_tokens w' (JStr state)
                    = Some {| access_token := access; refresh_token := refresh;
                              expires_at := now w + n |}).
  { unfold w'. rewrite Hrun. unfold store_spotify_tokens.
    cbn [snd spotify_tokens]. now rewrite json_eqb_refl. }
  refine (conj _ (conj Hstored (conj _ (conj _ (conj _ _))))).
  - now rewrite Hrun.
  - unfold w'. now rewrite Hrun.
  - unfold w'. rewrite Hrun.
    apply (@touches_only_trans _ 1 0 _ (after_send w exchange)).
    + apply touches_only_after_send.
    + apply touches_only_store.
  - unfold check_setup, bind, get_spotify_tokens, ret. cbn [fst].
    now rewrite Hstored.
  - intros Hpos. apply (fresh_token_is_used E _ w' _ Hstored).
    cbn [expires_at]. unfold w'. rewrite Hrun. cbn. lia.
Qed.

End Callback.

Lemma spotify_callback_links_account_witness :
  let w' := snd (spotify_callback (environment granting_provider)
                   (Some "code-1") (Some "u2") None u1_connected) in
  fst (spotify_callback (environment granting_provider)
         (Some "code-1") (Some "u2") None u1_connected)
  = Ok (RedirectResponse "/?uid=u2")
  /\ spotify_tokens w' (JStr "u2")
     = Some {| access_token := JStr "token-9"; refresh_token := JStr "refresh-9";
               expires_at := 4600 |}
  /\ sent w' = [exchange_request (environment granting_provider) "code-1"]
  /\ touches_only (JStr "u2") 1 u1_connected w'
  /\ fst (check_setup "u2" w') = Ok (setup_completed true)
  /\ (0 < 3600 ->
      get_valid_access_token (environment granting_provider) (JStr "u2") w'
      = (Ok (JStr "token-9"), w')).
Proof.
  exact (spotify_callback_links_account (environment granting_provider)
           "code-1" "u2" u1_connected ltac:(discriminate) ltac:(discriminate)
           {| status_code := 200;
              content := Json (JDict [("access_token", JStr "token-9");
                                      ("token_type", JStr "Bearer");
                                      ("expires_in", JInt 3600);
                                      ("refresh_token", JStr "refresh-9")]) |}
           _ (JStr "token-9") (JStr "refresh-9") 3600
           eq_refl eq_refl eq_refl eq_refl eq_refl eq_refl).
Defined.

(** Whenever the callback does not redirect (it renders an error page
    or raises), no credential record and no default playlist has
    changed, whatever the parameters and whatever the provider did. *)
Theorem spotify_callback_failure_stores_nothing (E : Env)
  (code state error : option string) (w : World) :
  redirects (fst (spotify_callback E code state error w)) = false ->
  spotify_tokens (snd (spotify_callback E code state error w)) = spotify_tokens w
  /\ default_playlists (snd (spotify_callback E code state error w))
     = default_playlists w.
Proof.
  unfold spotify_callback.
  destruct (given error); [intros _; now split|].
  destruct (negb (given code) || negb (given state)); [intros _; now split|].
  unfold bind, send, lift, ret, utcnow_timestamp. cbv beta.
  destruct (provider E (sent w) _) as [resp|cause]; [|intros _; now split].
  destruct (negb (status_code resp =? 200)); [intros _; now split|].
  destruct (response_json resp) as [token_data|]; [|intros _; now split].
  destruct (py_get token_data "expires_in" (JInt 3600)) as [expires_in|];
    [|intros _; now split].
  destruct (py_int expires_in) as [n|]; [|intros _; now split].
  destruct (py_getitem token_data "access_token") as [access|];
    [|intros _; now split].
  destruct (py_getitem token_data "refresh_token") as [refresh|];
    [|intros _; now split].
  discriminate.
Qed.

(** A grant without a refresh token: the callback raises and "u1"
    keeps the record it had. *)
Lemma spotify_callback_failure_stores_nothing_witness :
  fst (spotify_callback (environment refreshing_provider)
         (Some "code-1") (Some "u1") None u1_connected)
  = Raise (KeyError "refresh_token")
  /\ spotify_tokens (snd (spotify_callback (environment refreshing_provider)
                            (Some "code-1") (Some "u1") None u1_connected))
     = spotify_tokens u1_connected
  /\ default_playlists (snd (spotify_callback (environment refreshing_provider)
                               (Some "code-1") (Some "u1") None u1_connected))
     = default_playlists u1_connected.
Proof.
  split; [reflexivity|].
  exact (spotify_callback_failure_stores_nothing (environment refreshing_provider)
           (Some "code-1") (Some "u1") None u1_connected eq_refl).
Defined.

(** The callback asks the token endpoint only when the provider
    reported no error and both the code and the state came back:
    otherwise it renders an error page and sends nothing. *)
Theorem spotify_callback_sends_only_with_code_and_state (E : Env)
  (code state error : option string) (w : World) :
  given error = true \/ given code = false \/ given state = false ->
  exists text,
    spotify_callback E code state error w
    = (Ok (TemplateResponse "setup.html" (ErrorPage text)), w).
Proof.
  intros Hbad. unfold spotify_callback.
  destruct (given error); [eexists; reflexivity|].
  destruct Hbad as [Hbad|[Hbad|Hbad]]; [discriminate| |];
    rewrite Hbad; cbn [negb orb]; [|rewrite Bool.orb_true_r];
    eexists; reflexivity.
Qed.

Lemma spotify_callback_sends_only_with_code_and_state_witness :
  exists text,
    spotify_callback (environment granting_provider)
      None (Some "u1") (Some "access_denied") u1_connected
    = (Ok (TemplateResponse "setup.html" (ErrorPage text)), u1_connected).
Proof.
  exact (spotify_callback_sends_only_with_code_and_state
           (environment granting_provider) None (Some "u1") (Some "access_denied")
           u1_connected (or_introl eq_refl)).
Defined.

(** ** Disconnecting *)

(** After [disconnect_spotify] the user is no longer set up, and the
    API client answers every request for that user with the error
    "User not authenticated with Spotify" without sending anything;
    the handler itself sends nothing and redirects to the settings
    page. *)
Theorem disconnect_forgets_account (E : Env) (uid : string) (w : World)
  (method endpoint : string) (query payload : option json) :
  let w' := snd (disconnect_spotify uid w) in
  fst (disconnect_spotify uid w) = Ok (RedirectResponse ("/?uid=" ++ uid))
  /\ sent w' = sent w
  /\ fst (check_setup uid w') = Ok (setup_completed false)
  /\ spotify_api_request E (JStr uid) method endpoint query payload w'
     = (Ok (error_dict (JStr "User not authenticated with Spotify")), w').
Proof.
  intros w'.
  assert (Hgone : spotify_tokens w' (JStr uid) = None).
  { unfold w', disconnect_spotify, bind, delete_spotify_tokens, ret.
    cbn [snd spotify_tokens]. now rewrite json_eqb_refl. }
  refine (conj eq_refl (conj eq_refl (conj _ _))).
  - unfold check_setup, bind, get_spotify_tokens, ret. cbn [fst].
    now rewrite Hgone.
  - unfold spotify_api_request, get_valid_access_token, bind, get_spotify_tokens.
    now rewrite Hgone.
Qed.

(** ** The settings page *)

Lemma get_user_playlists_raises_on_item (E : Env) (uid limit : json) (w : World)
  (listing : list (string * json)) (item : json) (items : list json) :
  fst (spotify_api_request E uid "GET" "/me/playlists"
         (Some (JDict [("limit", limit)])) None w) = Ok (JDict listing) ->
  lookup "error" listing = None ->
  lookup "items" listing = Some (JList (item :: items)) ->
  exists e, fst (get_user_playlists E uid limit w) = Raise e.
Proof.
  intros Hcall Herror Hitems. unfold get_user_playlists, bind, lift, ret.
  destruct (spotify_api_request _ _ _ _ _ _ _) as [rslt w1].
  cbn [fst] in Hcall. subst rslt.
  cbn [py_in]. rewrite Herror. cbn [py_get]. unfold dict_get. rewrite Hitems.
  cbn [py_iter mapR].
  destruct (playlist_of_item_raises item) as [e He].
  exists e. cbn. now rewrite He.
Qed.

(** The settings page never shows a playlist to choose from: whenever
    [home] renders the page, its list of playlists is empty. *)
Theorem home_lists_no_playlist (E : Env) (uid : option string) (w : World)
  (template page_uid oauth_url : string) (connected : bool)
  (profile : option json) (playlists : list SpotifyPlaylist.t)
  (default : option DefaultPlaylist) :
  fst (home E uid w)
  = Ok (TemplateResponse template
          (SettingsPage page_uid connected profile playlists default oauth_url)) ->
  playlists = [].
Proof.
  unfold home.
  destruct (negb (given uid)); [discriminate|].
  unfold bind at 1, get_spotify_tokens.
  destruct (spotify_tokens w (JStr (text_of uid))) as [r|].
  - unfold bind at 1.
    destruct (spotify_api_request _ _ _ _ _ _ _) as [[rslt|e] w1]; [|discriminate].
    unfold bind at 1, lift.
    destruct (py_in "error" rslt) as [has_error|]; [|discriminate].
    unfold bind at 1.
    destruct (get_user_playlists E (JStr (text_of uid)) (JInt 50) w1)
      as [[ps|e] w2] eqn:Hget; [|discriminate].
    rewrite (get_user_playlists_result E (JStr (text_of uid)) (JInt 50) w1 ps)
      by now rewrite Hget.
    unfold bind, get_default_playlist, ret. cbn [fst].
    intros H. now injection H as _ _ _ _ <- _ _.
  - unfold ret. cbn [fst]. intros H. now injection H as _ _ _ _ <- _ _.
Qed.

Lemma home_lists_no_playlist_witness :
  fst (home (environment no_device_provider) (Some "u1") u1_connected)
  = Ok (TemplateResponse "setup.html"
          (SettingsPage "u1" true None []
             (Some {| default_id := "p1"; default_name := "Chill" |})
             "/auth/spotify?uid=u1"))
  /\ @nil SpotifyPlaylist.t = [].
Proof.
  split; [reflexivity|].
  exact (home_lists_no_playlist (environment no_device_provider) (Some "u1")
           u1_connected "setup.html" "u1" "/auth/spotify?uid=u1" true None []
           (Some {| default_id := "p1"; default_name := "Chill" |}) eq_refl).
Defined.

(** The settings page of a connected user who has a playlist cannot be
    rendered: when the profile call returns and the provider's listing
    holds at least one item, [home] raises. *)
Theorem home_fails_when_playlists_exist (E : Env) (uid : string) (w : World)
  (r : TokenRecord) (profile : json) (listing : list (string * json))
  (item : json) (items : list json) :
  uid <> "" ->
  spotify_tokens w (JStr uid) = Some r ->
  fst (spotify_api_request E (JStr uid) "GET" "/me" None None w) = Ok profile ->
  fst (spotify_api_request E (JStr uid) "GET" "/me/playlists"
         (Some (JDict [("limit", JInt 50)])) None
         (snd (spotify_api_request E (JStr uid) "GET" "/me" None None w)))
  = Ok (JDict listing) ->
  lookup "error" listing = None ->
  lookup "items" listing = Some (JList (item :: items)) ->
  exists e, fst (home E (Some uid) w) = Raise e.
Proof.
  intros Hne Hrec Hprofile Hlisting Herror Hitems.
  unfold home. rewrite (given_text _ Hne). cbn [negb text_of].
  unfold bind at 1, get_spotify_tokens. rewrite Hrec.
  unfold bind at 1.
  destruct (spotify_api_request E (JStr uid) "GET" "/me" None None w)
    as [rslt w1].
  cbn [fst snd] in Hprofile, Hlisting. subst rslt.
  unfold bind at 1, lift.
  destruct (py_in "error" profile) as [has_error|e] eqn:Hhas.
  - unfold bind at 1.
    destruct (get_user_playlists_raises_on_item E (JStr uid) (JInt 50) w1
                listing item items Hlisting Herror Hitems) as [e He].
    destruct (get_user_playlists E (JStr uid) (JInt 50) w1) as [got w2].
    cbn [fst] in He. subst got. now exists e.
  - now exists e.
Qed.

Lemma home_fails_when_playlists_exist_witness :
  exists e, fst (home (environment working_provider) (Some "u1") u1_connected)
            = Raise e.
Proof.
  exact (home_fails_when_playlists_exist (environment working_provider) "u1"
           u1_connected u1_record (JDict [("id", JStr "spotify-user-1")])
           [("items", JList [playlist_item "p7" "Road Trip";
                             playlist_item "p8" "Trip Hop"])]
           (playlist_item "p7" "Road Trip") [playlist_item "p8" "Trip Hop"]
           ltac:(discriminate) eq_refl eq_refl eq_refl eq_refl eq_refl).
Defined.
